(** * itch-io-skill: build classifiers, build scanners and the channel publisher

    A shallow embedding of [scripts/godot-export.js], [scripts/renpy-publish.js]
    and [scripts/publish.js], and of parts of [scripts/feedback.js],
    [scripts/steam-keys.js] and [scripts/template-html5.js].

    - JavaScript strings are [string]s (sequences of 8-bit code units; the
      platform keywords, extensions and separators the scripts look for are
      all ASCII).
    - A JavaScript object used as a map with non-numeric string keys is an
      association list in insertion order: assigning to an existing key
      replaces its value in place, assigning to a new key appends, and
      [Object.entries] lists the pairs in that order.
    - A call that may throw returns a [completion].
    - The scanners only read the file system, which is a record of the [fs]
      functions they call.  The publisher starts external processes, which
      may change the world, so it threads a world state and a trace of
      events.
    - [scripts/renpy-publish.js] is not valid JavaScript as shipped, so the
      script as a whole only fails to load; its classifier and its scanner,
      whose text is valid, are embedded as they read. *)

From Stdlib Require Import String Ascii List Bool Arith Lia.
Import ListNotations.
Open Scope list_scope.
Open Scope string_scope.

Set Implicit Arguments.

(** ** JavaScript strings *)

Module Js.

(** [s.startsWith(p)] *)
Fixpoint startsWith (p s : string) : bool :=
  match p, s with
  | EmptyString, _ => true
  | String a p', String b s' => Ascii.eqb a b && startsWith p' s'
  | String _ _, EmptyString => false
  end.

(** [s.endsWith(suffix)]: some tail of [s] is [suffix]. *)
Fixpoint endsWith (suffix s : string) : bool :=
  String.eqb s suffix
  || match s with
     | EmptyString => false
     | String _ s' => endsWith suffix s'
     end.

(** [s.includes(needle)]: some tail of [s] starts with [needle]. *)
Fixpoint includes (needle s : string) : bool :=
  startsWith needle s
  || match s with
     | EmptyString => false
     | String _ s' => includes needle s'
     end.

Definition lowerChar (c : ascii) : ascii :=
  let n := nat_of_ascii c in
  if Nat.leb 65 n && Nat.leb n 90 then ascii_of_nat (n + 32) else c.

(** [s.toLowerCase()] *)
Fixpoint toLowerCase (s : string) : string :=
  match s with
  | EmptyString => EmptyString
  | String c s' => String (lowerChar c) (toLowerCase s')
  end.

(** A string is falsy exactly when it is empty. *)
Definition truthy (s : string) : bool := negb (String.eqb s EmptyString).

(** [undefined] and [null] are falsy. *)
Definition truthyOpt (o : option string) : bool :=
  match o with
  | Some s => truthy s
  | None => false
  end.

(** [xs.includes(x)] on an array of strings *)
Definition arrayIncludes (x : string) (xs : list string) : bool :=
  existsb (String.eqb x) xs.

End Js.

(** ** Calls that may throw *)

Inductive completion (A : Type) : Type :=
| Normal (a : A)
| Throws (message : string).

Arguments Normal {A} a.
Arguments Throws {A} message.

Definition bind {A B} (c : completion A) (k : A -> completion B) : completion B :=
  match c with
  | Normal a => k a
  | Throws m => Throws m
  end.

Notation "x <- c ;; k" := (bind c (fun x => k))
  (at level 61, c at next level, right associativity).

(** [xs.filter(p)] where [p] may throw: elements are tested left to right and
    the first exception ends the call. *)
Fixpoint filterM {A} (p : A -> completion bool) (xs : list A) : completion (list A) :=
  match xs with
  | [] => Normal []
  | x :: xs' =>
      b <- p x ;;
      rest <- filterM p xs' ;;
      Normal (if b then x :: rest else rest)
  end.


(** ** Objects used as maps

    Keys are never integer-like here, so [Object.entries] follows insertion
    order. *)

Module JsObject.

Section Obj.
Context {K V : Type}.
Variable eqb : K -> K -> bool.

(** [o[k] = v] *)
Fixpoint set (k : K) (v : V) (o : list (K * V)) : list (K * V) :=
  match o with
  | [] => [(k, v)]
  | (k', v') :: o' => if eqb k k' then (k, v) :: o' else (k', v') :: set k v o'
  end.

(** [o[k]] *)
Fixpoint get (k : K) (o : list (K * V)) : option V :=
  match o with
  | [] => None
  | (k', v') :: o' => if eqb k k' then Some v' else get k o'
  end.

(** [Object.keys(o)] *)
Definition keys (o : list (K * V)) : list K := map fst o.

(** [Object.values(o)] *)
Definition values (o : list (K * V)) : list V := map snd o.

End Obj.

End JsObject.

(** ** [path] (POSIX flavour) *)

Module Path.

Definition isSlash (c : ascii) : bool := Ascii.eqb c "/"%char.

(** The segments of a path between its separators. *)
Fixpoint split (s : string) : list string :=
  match s with
  | EmptyString => [EmptyString]
  | String c s' =>
      if isSlash c then EmptyString :: split s'
      else match split s' with
           | h :: t => String c h :: t
           | [] => [String c EmptyString]
           end
  end.

(** One step of [normalizeString]; the segments kept so far are in reverse. *)
Definition normalizeStep (allowAboveRoot : bool) (kept : list string) (seg : string)
  : list string :=
  if String.eqb seg EmptyString || String.eqb seg "." then kept
  else if String.eqb seg ".." then
    match kept with
    | last :: rest =>
        if String.eqb last ".." then (if allowAboveRoot then ".." :: kept else kept)
        else rest
    | [] => if allowAboveRoot then [".."] else []
    end
  else seg :: kept.

Definition normalizeString (path : string) (allowAboveRoot : bool) : string :=
  String.concat "/" (rev (fold_left (normalizeStep allowAboveRoot) (split path) [])).

Definition isAbsolute (path : string) : bool := Js.startsWith "/" path.

Definition normalize (path : string) : string :=
  if String.eqb path EmptyString then "."
  else
    let trailingSeparator := Js.endsWith "/" path in
    let p := normalizeString path (negb (isAbsolute path)) in
    if String.eqb p EmptyString then
      (if isAbsolute path then "/" else if trailingSeparator then "./" else ".")
    else
      let p' := if trailingSeparator then p ++ "/" else p in
      if isAbsolute path then "/" ++ p' else p'.

(** [path.join(a, b)] *)
Definition join (a b : string) : string :=
  match String.eqb a EmptyString, String.eqb b EmptyString with
  | true, true => "."
  | true, false => normalize b
  | false, true => normalize a
  | false, false => normalize (a ++ "/" ++ b)
  end.

(** [path.basename(p)]: the last non-empty segment. *)
Definition basename (path : string) : string :=
  match filter (fun seg => negb (String.eqb seg EmptyString)) (rev (split path)) with
  | seg :: _ => seg
  | [] => EmptyString
  end.

End Path.

(** ** The [fs] calls the scanners make *)

Record Stats : Type := mkStats {
  isFile : bool;
  isDirectory : bool;
  size : nat
}.

Record FileSystem : Type := mkFileSystem {
  readdirSync : string -> completion (list string);
  statSync : string -> completion Stats;
  existsSync : string -> bool;
  readFileSync : string -> completion string
}.

(** ** Console output and process termination *)

Definition dquote : string := String "034"%char EmptyString.
Definition newline : string := String "010"%char EmptyString.

Inductive line : Type :=
| Text (s : string)
| Matched (platformName dir : string)
| Unknown (dir : string)
| IndexSize (bytes : nat)
| FileCount (n : nat)
| Found (n : nat).

Definition isUnknown (l : line) : bool :=
  match l with
  | Unknown _ => true
  | _ => false
  end.

Definition isMatched (l : line) : bool :=
  match l with
  | Matched _ _ => true
  | _ => false
  end.

Inductive termination : Type :=
| Exited (code : nat)
| Returned
| Uncaught (message : string).

(** An uncaught exception ends a Node process with code 1. *)
Definition exitCode (t : termination) : nat :=
  match t with
  | Exited code => code
  | Returned => 0
  | Uncaught _ => 1
  end.

(** [process.argv[i]] *)
Definition argvAt (argv : list string) (i : nat) : option string := nth_error argv i.

(** ** scripts/godot-export.js *)

Module Godot.

Inductive platform : Type := windows | linux | macos | web | android.

Definition platform_eqb (a b : platform) : bool :=
  match a, b with
  | windows, windows | linux, linux | macos, macos | web, web | android, android => true
  | _, _ => false
  end.

Record spec : Type := mkSpec {
  channel : string;
  files : list string;
  name : string
}.

(** The keys of [PLATFORMS] in declaration order. *)
Definition PLATFORMS_keys : list platform := [windows; linux; macos; web; android].

(** [PLATFORMS[p]] *)
Definition PLATFORMS (p : platform) : spec :=
  match p with
  | windows => mkSpec "windows" [".exe"] "Windows Desktop"
  | linux => mkSpec "linux" [EmptyString] "Linux/X11"
  | macos => mkSpec "osx" [".app"; ".zip"] "macOS"
  | web => mkSpec "html5" ["index.html"] "Web (HTML5)"
  | android => mkSpec "android" [".apk"; ".aab"] "Android"
  end.

(** The test of the Linux fallback: no dot in the name and a regular file.
    [statSync] is only reached for names without a dot. *)
Definition isExecutable (fs : FileSystem) (dir f : string) : completion bool :=
  if negb (Js.includes "." f) then
    st <- statSync fs (Path.join dir f) ;;
    Normal (isFile st)
  else Normal false.

Definition detectPlatform (fs : FileSystem) (dir : string) : completion (option platform) :=
  files <- readdirSync fs dir ;;
  if Js.arrayIncludes "index.html" files then Normal (Some web)
  else if existsb (Js.endsWith ".exe") files then Normal (Some windows)
  else
    let archive : option platform :=
      if existsb (Js.endsWith ".app") files || existsb (Js.endsWith ".zip") files then
        let zip := find (Js.endsWith ".zip") files in
        if Js.truthyOpt zip
           && match zip with
              | Some z => Js.includes "mac" z || Js.includes "osx" z
              | None => false
              end
        then Some macos
        else
          let app := find (Js.endsWith ".app") files in
          if Js.truthyOpt app then Some macos else None
      else None in
    match archive with
    | Some p => Normal (Some p)
    | None =>
        if existsb (fun f => Js.endsWith ".apk" f || Js.endsWith ".aab" f) files
        then Normal (Some android)
        else
          executables <- filterM (isExecutable fs dir) files ;;
          if Nat.ltb 0 (length executables) then Normal (Some linux) else Normal None
    end.

(** Returns [hasCOI] and the lines it printed. *)
Definition checkCORS (fs : FileSystem) (dir : string) : completion (bool * list line) :=
  let indexPath := Path.join dir "index.html" in
  if negb (existsSync fs indexPath) then Normal (false, [])
  else
    content <- readFileSync fs indexPath ;;
    let hasCOI := Js.includes "coi-serviceworker" content in
    Normal (hasCOI,
            if negb hasCOI then
              [Text "   ⚠️  Web export missing CORS fix (coi-serviceworker.js)";
               Text "   Get it from: https://github.com/gzuidhof/coi-serviceworker"]
            else []).

(** The entries of the build directory that [scanBuildDir] walks. *)
Definition subdirectories (fs : FileSystem) (buildDir : string) : completion (list string) :=
  names <- readdirSync fs buildDir ;;
  filterM (fun f => st <- statSync fs f ;; Normal (isDirectory st))
          (map (Path.join buildDir) names).

(** The [for (const entry of entries)] loop, with the object and the output
    built so far. *)
Fixpoint scanLoop (fs : FileSystem) (entries : list string)
         (platforms : list (platform * string)) (out : list line)
  : completion (list (platform * string) * list line) :=
  match entries with
  | [] => Normal (platforms, out)
  | entry :: rest =>
      let name := Js.toLowerCase (Path.basename entry) in
      detected <- detectPlatform fs entry ;;
      match detected with
      | Some p =>
          let platforms' := JsObject.set platform_eqb p entry platforms in
          let out' := (out ++ [Matched (Godot.name (PLATFORMS p)) name])%list in
          if platform_eqb p web then
            cors <- checkCORS fs entry ;;
            scanLoop fs rest platforms' (out' ++ snd cors)%list
          else scanLoop fs rest platforms' out'
      | None => scanLoop fs rest platforms (out ++ [Unknown name])%list
      end
  end.

Definition scanBuildDir (fs : FileSystem) (buildDir : string)
  : completion (list (platform * string) * list line) :=
  entries <- subdirectories fs buildDir ;;
  scanLoop fs entries [] [].

(** What the loop has printed by the time it ends, be it by an exception of
    [detectPlatform] or of [checkCORS]: the lines of the entries before, and
    the line of the entry itself when it is [checkCORS] that throws. *)
Fixpoint printedLoop (fs : FileSystem) (entries : list string) (out : list line)
  : list line :=
  match entries with
  | [] => out
  | entry :: rest =>
      let name := Js.toLowerCase (Path.basename entry) in
      match detectPlatform fs entry with
      | Throws _ => out
      | Normal (Some p) =>
          let out' := (out ++ [Matched (Godot.name (PLATFORMS p)) name])%list in
          if platform_eqb p web then
            match checkCORS fs entry with
            | Throws _ => out'
            | Normal cors => printedLoop fs rest (out' ++ snd cors)%list
            end
          else printedLoop fs rest out'
      | Normal None => printedLoop fs rest (out ++ [Unknown name])%list
      end
  end.

(** What [scanBuildDir] has printed by the time it ends: nothing when the
    subdirectories cannot be listed. *)
Definition scanPrinted (fs : FileSystem) (buildDir : string) : list line :=
  match subdirectories fs buildDir with
  | Normal entries => printedLoop fs entries []
  | Throws _ => []
  end.

Definition pushCommand (dir target channel : string) : string :=
  "butler push " ++ dquote ++ dir ++ dquote ++ " " ++ dquote ++ target ++ ":" ++ channel ++ dquote.

Definition generateCommands (platforms : list (platform * string)) (target : string)
  : list line :=
  ([Text (newline ++ "📦 Butler commands:" ++ newline)]
   ++ map (fun '(plat, dir) => Text (pushCommand dir target (channel (PLATFORMS plat))))
          platforms
   ++ [Text (newline ++ "# Check status after upload:");
       Text ("butler status " ++ dquote ++ target ++ dquote)])%list.

Definition usage : list line :=
  [Text "Usage: node godot-export.js <build-directory> <itch-username/game>";
   Text EmptyString;
   Text "Example:";
   Text "  node godot-export.js ./build myname/my-game";
   Text EmptyString;
   Text "Expected build structure:";
   Text "  build/";
   Text "    ├── windows/    (.exe)";
   Text "    ├── linux/      (executable)";
   Text "    ├── macos/      (.app or .zip)";
   Text "    └── web/        (index.html)"].

(** [main], given the file system and [process.argv]: how the process ends. *)
Definition main (fs : FileSystem) (argv : list string) : termination * list line :=
  let buildDir := argvAt argv 2 in
  let target := argvAt argv 3 in
  match buildDir, target with
  | Some buildDir, Some target =>
      if negb (Js.truthy buildDir) || negb (Js.truthy target) then (Exited 1, usage)
      else if negb (existsSync fs buildDir) then
        (Exited 1, [Text ("❌ Directory not found: " ++ buildDir)])
      else
        let out := [Text ("🔍 Scanning: " ++ buildDir ++ newline)] in
        match scanBuildDir fs buildDir with
        | Throws m => (Uncaught m, out ++ scanPrinted fs buildDir)%list
        | Normal (platforms, scanned) =>
            if Nat.eqb (length (JsObject.keys platforms)) 0 then
              (Exited 1, out ++ scanned ++ [Text "❌ No Godot exports detected"])%list
            else
              (Returned,
               out ++ scanned
               ++ [Found (length (JsObject.keys platforms))]
               ++ generateCommands platforms target)%list
        end
  | _, _ => (Exited 1, usage)
  end.

End Godot.

(** ** scripts/renpy-publish.js *)

Module RenPy.

Inductive platform : Type := pc | mac | linux | web.

Definition platform_eqb (a b : platform) : bool :=
  match a, b with
  | pc, pc | mac, mac | linux, linux | web, web => true
  | _, _ => false
  end.

Record spec : Type := mkSpec {
  channel : string;
  name : string;
  check : list string -> bool
}.

(** [PLATFORMS[p]] *)
Definition PLATFORMS (p : platform) : spec :=
  match p with
  | pc =>
      mkSpec "windows" "Windows"
        (fun files => existsb (fun f => Js.endsWith ".exe" f && negb (Js.includes "mac" f)) files)
  | mac =>
      mkSpec "osx" "macOS"
        (fun files =>
           existsb (fun f => Js.endsWith ".app" f || Js.includes "mac" f || Js.includes "-mac" f)
                   files)
  | linux =>
      mkSpec "linux" "Linux"
        (fun files =>
           existsb (fun f => Js.includes "linux" (Js.toLowerCase f) && negb (Js.includes ".exe" f))
                   files)
  | web =>
      mkSpec "html5" "Web"
        (fun files => Js.arrayIncludes "index.html" files || existsb (Js.endsWith "web.zip") files)
  end.

(** The keys of [PLATFORMS] in declaration order. *)
Definition PLATFORMS_keys : list platform := [pc; mac; linux; web].

(** [Object.entries(PLATFORMS)] *)
Definition PLATFORMS_entries : list (platform * spec) :=
  map (fun k => (k, PLATFORMS k)) PLATFORMS_keys.

(** The directory-name hints tried when no [check] accepts the listing. *)
Definition nameHint (name : string) : option platform :=
  if Js.includes "win" name then Some pc
  else if Js.includes "mac" name then Some mac
  else if Js.includes "linux" name then Some linux
  else if Js.includes "web" name then Some web
  else None.

Definition detectPlatform (fs : FileSystem) (dir : string) : completion (option platform) :=
  files <- readdirSync fs dir ;;
  match find (fun '(_, plat) => check plat files) PLATFORMS_entries with
  | Some (key, _) => Normal (Some key)
  | None => Normal (nameHint (Js.toLowerCase (Path.basename dir)))
  end.

Definition checkWebBuild (fs : FileSystem) (dir : string) : completion (bool * list line) :=
  let indexPath := Path.join dir "index.html" in
  if negb (existsSync fs indexPath) then Normal (false, [])
  else
    content <- readFileSync fs indexPath ;;
    st <- statSync fs indexPath ;;
    allFiles <- readdirSync fs dir ;;
    Normal (true,
            [IndexSize (size st)]
            ++ (if Js.includes "pyodide" content || Js.includes "renpy-web" content
                then [Text "   ✅ Ren'Py Web (Pyodide WASM)"] else [])
            ++ [FileCount (length allFiles)])%list.

Definition isLauncher (p : platform) (f : string) : bool :=
  if platform_eqb p pc then Js.endsWith ".exe" f && negb (Js.includes "mac" f)
  else if platform_eqb p mac then Js.endsWith ".app" f || Js.endsWith "mac.zip" f
  else negb (Js.includes "." f).

Definition checkDesktopBuild (fs : FileSystem) (dir : string) (p : platform)
  : completion (bool * list line) :=
  files <- readdirSync fs dir ;;
  let launcher := find (isLauncher p) files in
  let shown :=
    match launcher with
    | Some l => if Js.truthy l then [Text ("   🚀 Launcher: " ++ l)] else []
    | None => []
    end in
  hasLib <- (if Js.arrayIncludes "lib" files
             then st <- statSync fs (Path.join dir "lib") ;; Normal (isDirectory st)
             else Normal false) ;;
  Normal (true,
          shown ++ (if hasLib then [Text "   ✅ Ren'Py runtime included (lib/)"] else []))%list.

Definition subdirectories (fs : FileSystem) (buildDir : string) : completion (list string) :=
  names <- readdirSync fs buildDir ;;
  filterM (fun f => st <- statSync fs f ;; Normal (isDirectory st))
          (map (Path.join buildDir) names).

Fixpoint scanLoop (fs : FileSystem) (entries : list string)
         (builds : list (platform * string)) (out : list line)
  : completion (list (platform * string) * list line) :=
  match entries with
  | [] => Normal (builds, out)
  | entry :: rest =>
      let name := Path.basename entry in
      detected <- detectPlatform fs entry ;;
      match detected with
      | Some p =>
          let builds' := JsObject.set platform_eqb p entry builds in
          let out' := (out ++ [Matched (RenPy.name (PLATFORMS p)) name])%list in
          checked <- (if platform_eqb p web then checkWebBuild fs entry
                      else checkDesktopBuild fs entry p) ;;
          scanLoop fs rest builds' (out' ++ snd checked)%list
      | None => scanLoop fs rest builds (out ++ [Unknown name])%list
      end
  end.

Definition scanBuilds (fs : FileSystem) (buildDir : string)
  : completion (list (platform * string) * list line) :=
  entries <- subdirectories fs buildDir ;;
  scanLoop fs entries [] [].

(** The script as shipped is no valid program: line 138, in
    [generateCommands], opens a template literal with a backquote that the
    quote at its end does not close, and lines 151, 172 and 173, in [main],
    hold an apostrophe inside a single-quoted string.  Node rejects the file
    when it loads it, before any statement runs: whatever the arguments and
    the file system, nothing is printed on the standard output and the
    process ends through an uncaught [SyntaxError], that is, with code 1.
    [generateCommands] therefore has no behaviour to model; the functions
    above are modelled as their text reads. *)
Definition main (fs : FileSystem) (argv : list string) : termination * list line :=
  (Uncaught "SyntaxError", []).

End RenPy.

(** ** More of the string library *)

Module JsText.

(** [s.split(sep)] for a separator of one character. *)
Fixpoint split (sep : ascii) (s : string) : list string :=
  match s with
  | EmptyString => [EmptyString]
  | String c s' =>
      if Ascii.eqb c sep then EmptyString :: split sep s'
      else match split sep s' with
           | h :: t => String c h :: t
           | [] => [String c EmptyString]
           end
  end.

(** White space and line terminators among the ASCII characters: tab, line
    feed, vertical tab, form feed, carriage return and space. *)
Definition isSpace (c : ascii) : bool :=
  let n := nat_of_ascii c in
  (Nat.leb 9 n && Nat.leb n 13) || Nat.eqb n 32.

Fixpoint trimStart (s : string) : string :=
  match s with
  | EmptyString => EmptyString
  | String c s' => if isSpace c then trimStart s' else s
  end.

Fixpoint trimEnd (s : string) : string :=
  match s with
  | EmptyString => EmptyString
  | String c s' =>
      let t := trimEnd s' in
      if isSpace c && String.eqb t EmptyString then EmptyString else String c t
  end.

(** [s.trim()] *)
Definition trim (s : string) : string := trimEnd (trimStart s).

Definition upperChar (c : ascii) : ascii :=
  let n := nat_of_ascii c in
  if Nat.leb 97 n && Nat.leb n 122 then ascii_of_nat (n - 32) else c.

(** The characters of [\w]. *)
Definition isWord (c : ascii) : bool :=
  let n := nat_of_ascii c in
  (Nat.leb 48 n && Nat.leb n 57) || (Nat.leb 65 n && Nat.leb n 90)
  || Nat.eqb n 95 || (Nat.leb 97 n && Nat.leb n 122).

(** [xs.join(sep)] *)
Fixpoint join (sep : string) (xs : list string) : string :=
  match xs with
  | [] => EmptyString
  | [x] => x
  | x :: rest => x ++ sep ++ join sep rest
  end.

End JsText.

(** ** scripts/publish.js *)

Module Publish.

Inductive logType : Type := info | success | error | warn.

(** What the process does to the outside, in order: a [log] call, a bare
    [console.log], and an external process started by [execSync]. *)
Inductive event : Type :=
| Log (type : logType) (msg : string)
| Print (s : string)
| Exec (cmd : string).

(** [config.ignore], as [pushChannel] uses it: the value is tested for
    truthiness and, when truthy, its [forEach] is called.  A falsy value
    (the field is absent, or [null], [false], [0], the empty string) is
    skipped; an array, given here by the texts of its elements, adds one
    argument per element; any other value (a non-empty string, a number,
    [true], an object) has no [forEach], and the call throws a
    [TypeError]. *)
Inductive ignoreField : Type :=
| IgnoreFalsy
| IgnoreArray (patterns : list string)
| IgnoreOther.

(** The parsed configuration.  A field that is absent is [None];
    [channels] is [Object.entries(config.channels)], whose keys are distinct,
    with string values. *)
Record config : Type := mkConfig {
  user : option string;
  game : option string;
  channels : option (list (string * string));
  version : option string;
  ignore : ignoreField
}.

(** The outside world: [W] is its state.  [execSync] returns the output of
    the process, or throws when the process cannot be started or exits with
    a non-zero code; it may change the world.  [readConfig] is
    [JSON.parse(fs.readFileSync(path, 'utf8'))]: it throws when the file
    cannot be read or does not hold JSON text.  A text that parses to [null]
    counts as throwing too: reading [config.user] then throws in [main],
    which ends the same way. *)
Record Host (W : Type) : Type := mkHost {
  existsSync : W -> string -> bool;
  execSync : W -> string -> completion string * W;
  readConfig : W -> string -> completion config
}.

Record state (W : Type) : Type := mkState {
  world : W;
  trace : list event
}.

(** The options of [pushChannel] when [opts.ignore] is falsy ([None]) or an
    array. *)
Record options : Type := mkOptions {
  opt_version : option string;
  opt_ignore : option (list string);
  opt_dryRun : bool
}.

(** The options [main] builds from the configuration, when their [ignore]
    is falsy or an array. *)
Definition optionsOf (cfg : config) (dryRun : bool) : option options :=
  match ignore cfg with
  | IgnoreFalsy => Some (mkOptions (version cfg) None dryRun)
  | IgnoreArray patterns => Some (mkOptions (version cfg) (Some patterns) dryRun)
  | IgnoreOther => None
  end.

Record result : Type := mkResult {
  res_channel : string;
  res_success : bool
}.

Section WithHost.
Context {W : Type}.
Variable host : Host W.

Definition emit (e : event) (s : state W) : state W :=
  mkState (world s) (trace s ++ [e])%list.

Definition log (msg : string) (type : logType) (s : state W) : state W :=
  emit (Log type msg) s.

(** [run(cmd, opts)]: the exception of [execSync] is passed on unless
    [opts.ignoreError] is set. *)
Definition run (cmd : string) (ignoreError : bool) (s : state W)
  : completion string * state W :=
  let (r, w') := execSync host (world s) cmd in
  let s' := mkState w' (trace s ++ [Exec cmd])%list in
  match r with
  | Normal out => (Normal out, s')
  | Throws m => if ignoreError then (Normal EmptyString, s') else (Throws m, s')
  end.

Definition checkButler (s : state W) : bool * state W :=
  match run "butler -v" false s with
  | (Normal v, s1) => (true, log ("Butler version: " ++ JsText.trim v) success s1)
  | (Throws _, s1) =>
      (false, log "Butler not found. Install from https://itch.io/docs/butler/" error s1)
  end.

Definition ignoreFlags (patterns : list string) : string :=
  fold_left (fun cmd pattern => cmd ++ " --ignore " ++ dquote ++ pattern ++ dquote)
            patterns EmptyString.

(** The command line [pushChannel] builds. *)
Definition pushCommand (target sourcePath : string) (opts : options) : string :=
  "butler push " ++ dquote ++ sourcePath ++ dquote ++ " " ++ dquote ++ target ++ dquote
  ++ (if Js.truthyOpt (opt_version opts)
      then match opt_version opts with
           | Some v => " --userversion " ++ dquote ++ v ++ dquote
           | None => EmptyString
           end
      else EmptyString)
  ++ (if opt_dryRun opts then " --dry-run" else EmptyString)
  ++ match opt_ignore opts with
     | Some patterns => ignoreFlags patterns
     | None => EmptyString
     end.

(** [pushChannel] with options whose [ignore] is falsy or an array. *)
Definition pushChannel (user game channel sourcePath : string) (opts : options)
           (s : state W) : bool * state W :=
  let target := user ++ "/" ++ game ++ ":" ++ channel in
  if negb (existsSync host (world s) sourcePath) then
    (false, log ("Source path not found: " ++ sourcePath) warn s)
  else
    let cmd := pushCommand target sourcePath opts in
    let s1 := log ("Pushing " ++ channel ++ " from " ++ sourcePath ++ "...") info s in
    match run cmd false s1 with
    | (Normal _, s2) => (true, log (channel ++ " uploaded successfully") success s2)
    | (Throws m, s2) => (false, log ("Failed to push " ++ channel ++ ": " ++ m) error s2)
    end.

(** The command line [checkStatus] builds. *)
Definition statusCommand (user game : string) : string :=
  "butler status " ++ dquote ++ user ++ "/" ++ game ++ dquote.

Definition checkStatus (user game : string) (s : state W) : state W :=
  let s1 := log ("Checking status for " ++ user ++ "/" ++ game ++ "...") info s in
  match run (statusCommand user game) false s1 with
  | (Normal _, s2) => s2
  | (Throws _, s2) => log "Status check failed" warn s2
  end.

(** The [for (const [channel, sourcePath] of channels)] loop of [main]. *)
Fixpoint pushAll (user game : string) (opts : options)
         (channels : list (string * string)) (results : list result) (s : state W)
  : list result * state W :=
  match channels with
  | [] => (results, s)
  | (channel, sourcePath) :: rest =>
      let (ok, s1) := pushChannel user game channel sourcePath opts s in
      pushAll user game opts rest (results ++ [mkResult channel ok])%list s1
  end.

(** [pushChannel] with options whose [ignore] is a truthy value that is no
    array.  The check of the source path comes first, and a missing path
    gives [false] as before; past it, [opts.ignore.forEach] throws, which is
    before the target is announced and outside the [try] around the
    transfer. *)
Definition pushChannelNoForEach (sourcePath : string) (s : state W)
  : completion bool * state W :=
  if negb (existsSync host (world s) sourcePath) then
    (Normal false, log ("Source path not found: " ++ sourcePath) warn s)
  else (Throws "opts.ignore.forEach is not a function", s).

(** The loop of [main] over such options: the exception leaves the loop. *)
Fixpoint pushAllNoForEach (channels : list (string * string)) (results : list result)
         (s : state W) : completion (list result) * state W :=
  match channels with
  | [] => (Normal results, s)
  | (channel, sourcePath) :: rest =>
      match pushChannelNoForEach sourcePath s with
      | (Normal ok, s1) =>
          pushAllNoForEach rest (results ++ [mkResult channel ok])%list s1
      | (Throws m, s1) => (Throws m, s1)
      end
  end.

Definition summaryLine (r : result) : event :=
  Log (if res_success r then success else error)
      (res_channel r ++ ": " ++ (if res_success r then "✅ OK" else "❌ FAILED")).

(** [results.forEach(r => log(...))] *)
Definition summary (results : list result) (s : state W) : state W :=
  fold_left (fun s r => emit (summaryLine r) s) results s.

(** [JSON.stringify(..., null, 2)] of the example configuration. *)
Definition exampleConfig : string :=
  "{" ++ newline
  ++ "  " ++ dquote ++ "user" ++ dquote ++ ": " ++ dquote ++ "your-username" ++ dquote
  ++ "," ++ newline
  ++ "  " ++ dquote ++ "game" ++ dquote ++ ": " ++ dquote ++ "my-game" ++ dquote
  ++ "," ++ newline
  ++ "  " ++ dquote ++ "channels" ++ dquote ++ ": {" ++ newline
  ++ "    " ++ dquote ++ "html5" ++ dquote ++ ": " ++ dquote ++ "./dist" ++ dquote ++ newline
  ++ "  }," ++ newline
  ++ "  " ++ dquote ++ "version" ++ dquote ++ ": " ++ dquote ++ "1.0.0" ++ dquote ++ newline
  ++ "}".

Definition usage : list event :=
  [Print "Usage: node publish.js <config.json>";
   Print EmptyString;
   Print "Example config.json:";
   Print exampleConfig].

(** [main], with [main().catch(...)] around it: an exception that leaves
    [main] is logged and the process exits with code 1.  The second
    component is the list of results when the publish loop has run to its
    end. *)
Definition main (argv : list string) (w : W)
  : termination * option (list result) * state W :=
  let s0 := mkState w [] in
  if negb (Js.truthyOpt (argvAt argv 2)) then
    (Exited 1, None, fold_left (fun s e => emit e s) usage s0)
  else
    match argvAt argv 2 with
    | None => (Exited 1, None, s0)
    | Some configPath =>
        if negb (existsSync host w configPath) then
          (Exited 1, None, log ("Config file not found: " ++ configPath) error s0)
        else
          match readConfig host w configPath with
          | Throws m => (Exited 1, None, log m error s0)
          | Normal cfg =>
              if negb (Js.truthyOpt (user cfg)) || negb (Js.truthyOpt (game cfg)) then
                (Exited 1, None,
                 log ("Config must include " ++ dquote ++ "user" ++ dquote ++ " and "
                      ++ dquote ++ "game" ++ dquote ++ " fields") error s0)
              else
                match user cfg, game cfg with
                | Some u, Some g =>
                    let (butler, s1) := checkButler s0 in
                    if negb butler then (Exited 1, None, s1)
                    else
                      let dryRun := Js.arrayIncludes "--dry-run" argv in
                      let s2 := if dryRun
                                then log "DRY RUN MODE - no actual uploads" warn s1
                                else s1 in
                      let chans := match channels cfg with Some c => c | None => [] end in
                      if Nat.eqb (length chans) 0 then
                        (Exited 1, None, log "No channels configured" warn s2)
                      else
                        let finish := fun (results : list result) (s3 : state W) =>
                          let s4 := emit (Print EmptyString) s3 in
                          let s5 := log "=== SUMMARY ===" info s4 in
                          let s6 := summary results s5 in
                          (Returned, Some results, checkStatus u g s6) in
                        match optionsOf cfg dryRun with
                        | Some opts =>
                            let (results, s3) := pushAll u g opts chans [] s2 in
                            finish results s3
                        | None =>
                            match pushAllNoForEach chans [] s2 with
                            | (Normal results, s3) => finish results s3
                            | (Throws m, s3) => (Exited 1, None, log m error s3)
                            end
                        end
                | _, _ => (Exited 1, None, s0)
                end
          end
    end.

End WithHost.

(** The commands of the external processes started, in order. *)
Definition executed (t : list event) : list string :=
  flat_map (fun e => match e with Exec cmd => [cmd] | _ => [] end) t.

(** The line [pushChannel] logs before it starts the transfer tool. *)
Definition isPushing (e : event) : bool :=
  match e with
  | Log info msg => Js.startsWith "Pushing " msg
  | _ => false
  end.

(** A [log] line of type [info]. *)
Definition isInfo (e : event) : bool :=
  match e with
  | Log info _ => true
  | _ => false
  end.

End Publish.

(** What a run shows of one target, for the statements about whole runs: the
    result recorded for it, and the part of the trace that is its attempt,
    which is either the warning about the source path alone, or the
    announcement, the transfer process and the line that tells how it
    ended. *)
Definition attemptOf (user game : string) (cp : string * string)
        (a : Publish.result * list Publish.event) : Prop :=
  Publish.res_channel (fst a) = fst cp
  /\ ((Publish.res_success (fst a) = false
       /\ snd a = [Publish.Log Publish.warn ("Source path not found: " ++ snd cp)])
      \/ exists cmd,
           Js.startsWith ("butler push " ++ dquote ++ snd cp ++ dquote ++ " "
                          ++ dquote ++ (user ++ "/" ++ game ++ ":" ++ fst cp) ++ dquote)
                         cmd = true
           /\ ((Publish.res_success (fst a) = true
                /\ snd a = [Publish.Log Publish.info
                              ("Pushing " ++ fst cp ++ " from " ++ snd cp ++ "...");
                            Publish.Exec cmd;
                            Publish.Log Publish.success
                              (fst cp ++ " uploaded successfully")])
               \/ (Publish.res_success (fst a) = false
                   /\ exists m,
                        snd a = [Publish.Log Publish.info
                                   ("Pushing " ++ fst cp ++ " from " ++ snd cp ++ "...");
                                 Publish.Exec cmd;
                                 Publish.Log Publish.error
                                   ("Failed to push " ++ fst cp ++ ": " ++ m)]))).

(** ** What a scan loop builds, as a function of the classified entries

    Both scanners walk the subdirectories in enumeration order and assign
    [object[tag] = entry] for every entry that has a tag. *)

Module Scan.

Section Scan.
Context {P : Type}.
Variable eqb : P -> P -> bool.
Variable detect : string -> completion (option P).

Definition tagOf (entry : string) : option P :=
  match detect entry with
  | Normal t => t
  | Throws _ => None
  end.

(** The classifiable entries with their tags, in enumeration order. *)
Definition classified (entries : list string) : list (P * string) :=
  flat_map (fun e => match tagOf e with Some p => [(p, e)] | None => [] end) entries.

(** The unclassifiable entries, in enumeration order. *)
Definition unclassified (entries : list string) : list string :=
  filter (fun e => match tagOf e with Some _ => false | None => true end) entries.

Definition assign (o : list (P * string)) (pe : P * string) : list (P * string) :=
  JsObject.set eqb (fst pe) (snd pe) o.

Definition collect (l : list (P * string)) (init : list (P * string)) : list (P * string) :=
  fold_left assign l init.

Definition mem (p : P) (l : list P) : bool := existsb (eqb p) l.

(** The distinct elements of a list, each at its first occurrence. *)
Fixpoint nub (l : list P) : list P :=
  match l with
  | [] => []
  | x :: r => x :: filter (fun y => negb (eqb x y)) (nub r)
  end.

End Scan.

End Scan.

(** The lines of an output that are transfer commands, in order. *)
Definition pushLines (out : list line) : list string :=
  flat_map (fun l => match l with
                     | Text s => if Js.startsWith "butler push " s then [s] else []
                     | _ => []
                     end) out.

(** ** A file system given by a table, for concrete runs *)

Inductive node : Type :=
| FileNode (content : string)
| DirNode (names : list string).

Fixpoint lookup (p : string) (t : list (string * node)) : option node :=
  match t with
  | [] => None
  | (q, n) :: t' => if String.eqb p q then Some n else lookup p t'
  end.

Definition tableFs (t : list (string * node)) : FileSystem :=
  mkFileSystem
    (fun p => match lookup p t with
              | Some (DirNode names) => Normal names
              | Some (FileNode _) => Throws "ENOTDIR"
              | None => Throws "ENOENT"
              end)
    (fun p => match lookup p t with
              | Some (DirNode _) => Normal (mkStats false true 0)
              | Some (FileNode c) => Normal (mkStats true false (String.length c))
              | None => Throws "ENOENT"
              end)
    (fun p => match lookup p t with Some _ => true | None => false end)
    (fun p => match lookup p t with
              | Some (FileNode c) => Normal c
              | Some (DirNode _) => Throws "EISDIR"
              | None => Throws "ENOENT"
              end).

Definition lonelyLauncher : FileSystem :=
  tableFs [("build/game-1.0", DirNode ["game"]);
           ("build/game-1.0/game", FileNode "ELF")].

Definition mixedExport : FileSystem :=
  tableFs [("build/out", DirNode ["index.html"; "game.exe"; "game"]);
           ("build/out/index.html", FileNode "<html></html>");
           ("build/out/game.exe", FileNode "MZ");
           ("build/out/game", FileNode "ELF")].

Definition misnamedDirs : FileSystem :=
  tableFs [("build/windows", DirNode ["readme.txt"]);
           ("build/darwin-mac", DirNode ["readme.txt"]);
           ("build/notes", DirNode ["readme.txt"]);
           ("build/My-Game-WIN", DirNode ["readme.txt"])].

Definition twinBuilds : FileSystem :=
  tableFs [("build", DirNode ["alpha"; "beta"; "notes"; "README.md"]);
           ("build/alpha", DirNode ["game.exe"]);
           ("build/beta", DirNode ["game.exe"]);
           ("build/notes", DirNode ["readme.txt"]);
           ("build/README.md", FileNode "builds")].

Definition webFirst : FileSystem :=
  tableFs [("build", DirNode ["a-web"; "b-windows"]);
           ("build/a-web", DirNode ["index.html"]);
           ("build/a-web/index.html", FileNode "<script src=coi-serviceworker.js></script>");
           ("build/b-windows", DirNode ["game.exe"])].

Definition onlyNotes : FileSystem :=
  tableFs [("build", DirNode ["notes"; "docs"]);
           ("build/notes", DirNode ["readme.txt"]);
           ("build/docs", DirNode ["manual.pdf"])].

Definition demoConfig : Publish.config :=
  Publish.mkConfig (Some "alice") (Some "mygame")
    (Some [("html5", "./dist"); ("windows", "./build/windows"); ("linux", "./build/linux")])
    (Some "1.0.0") (Publish.IgnoreArray ["*.map"]).

(** A world without state: the paths in [missing] do not exist, a command
    that mentions one of [failing] fails, and every config file reads as
    [demoConfig]. *)
Definition demoHost (missing failing : list string) : Publish.Host unit :=
  Publish.mkHost
    (fun _ p => negb (Js.arrayIncludes p missing))
    (fun w cmd => (if existsb (fun f => Js.includes f cmd) failing
                   then Throws "Command failed" else Normal "ok", w))
    (fun _ _ => Normal demoConfig).

Definition demoArgv : list string := ["node"; "publish.js"; "config.json"].

Definition demoDryRunArgv : list string := ["node"; "publish.js"; "config.json"; "--dry-run"].

Definition scenario : FileSystem :=
  tableFs [("build", DirNode ["windows"; "web"; "notes"]);
           ("build/windows", DirNode ["game.exe"]);
           ("build/web", DirNode ["index.html"]);
           ("build/web/index.html", FileNode "<html></html>");
           ("build/notes", DirNode ["readme.txt"])].

Definition laterMacZip : FileSystem :=
  tableFs [("build/mac", DirNode ["game.zip"; "game-mac.zip"]);
           ("build/mac/game.zip", FileNode "PK");
           ("build/mac/game-mac.zip", FileNode "PK")].

Definition brokenLink : FileSystem :=
  tableFs [("build", DirNode ["windows"; "stale"]);
           ("build/windows", DirNode ["game.exe"]);
           ("build/linux", DirNode ["game"])].

(** Whether a test that may throw returned [true]. *)
Definition holds {A} (p : A -> completion bool) (x : A) : bool :=
  match p x with
  | Normal b => b
  | Throws _ => false
  end.

(** The test of [.filter(f => fs.statSync(f).isDirectory())]. *)
Definition isDirectoryAt (fs : FileSystem) (f : string) : completion bool :=
  st <- statSync fs f ;; Normal (isDirectory st).

(** A configuration whose [ignore] is a string, and a world that reads it
    from every config file; the paths in [missing] do not exist. *)
Definition stringIgnoreConfig : Publish.config :=
  Publish.mkConfig (Some "alice") (Some "mygame")
    (Some [("html5", "./dist"); ("windows", "./build/windows"); ("linux", "./build/linux")])
    None Publish.IgnoreOther.

Definition stringIgnoreHost (missing : list string) : Publish.Host unit :=
  Publish.mkHost
    (fun _ p => negb (Js.arrayIncludes p missing))
    (fun w _ => (Normal "ok", w))
    (fun _ _ => Normal stringIgnoreConfig).

(** A world in which [butler] is not installed. *)
Definition noButlerHost : Publish.Host unit :=
  Publish.mkHost
    (fun _ _ => true)
    (fun w _ => (Throws "butler: command not found", w))
    (fun _ _ => Normal demoConfig).

From Stdlib Require Import ZArith.

(** ** scripts/feedback.js *)

Module Feedback.

Record sentiment : Type := mkSentiment {
  label : string;
  score : Z
}.

Definition positive : list string :=
  ["love"; "great"; "awesome"; "amazing"; "good"; "fun"; "thanks"; "cool"; "nice";
   "perfect"; "excellent"].

Definition negative : list string :=
  ["bug"; "broken"; "bad"; "hate"; "terrible"; "awful"; "crash"; "error"; "fix";
   "problem"; "issue"; "slow"; "lag"].

Definition analyzeSentiment (text : string) : sentiment :=
  let lower := Js.toLowerCase text in
  let score :=
    fold_left (fun score w => if Js.includes w lower then (score + 1)%Z else score)
              positive 0%Z in
  let score :=
    fold_left (fun score w => if Js.includes w lower then (score - 1)%Z else score)
              negative score in
  if (0 <? score)%Z then mkSentiment "😊 Positive" score
  else if (score <? 0)%Z then mkSentiment "😞 Negative" score
  else mkSentiment "😐 Neutral" 0%Z.

(** A comment of the API: [username] is [c.user?.username]. *)
Record comment : Type := mkComment {
  username : option string;
  created_at : string;
  body : option string
}.

(** The answer of the comments endpoint. *)
Record commentsData : Type := mkCommentsData {
  comments : option (list comment)
}.

(** [api(endpoint)] on the comments endpoint: the parsed answer, or an
    exception when the request fails or the status is not OK. *)
Record Host (W : Type) : Type := mkHost {
  api : W -> string -> completion commentsData * W
}.

(** The lines printed, kept structured: the date is the raw [created_at] (its
    rendering depends on the locale), the three lines of counts come without
    their percentages, and the line of a comment's text carries the whole
    body (the script shows its first 120 UTF-16 code units and an ellipsis
    when there are more; strings here are not counted in these units). *)
Inductive line : Type :=
| CommentsHeader (n : nat)
| CommentHead (user date label : string)
| CommentBody (body : string)
| FetchError (message : string)
| ScrapingNote
| NoComments
| SentimentHeader (n : nat)
| SentimentCounts (positive neutral negative : nat)
| Keywords (found : list string).

(** [c.body || ''] *)
Definition bodyOf (c : comment) : string :=
  match body c with
  | Some b => b
  | None => EmptyString
  end.

(** [c.user?.username || 'Anonymous'] *)
Definition userOf (c : comment) : string :=
  if Js.truthyOpt (username c)
  then match username c with Some u => u | None => "Anonymous" end
  else "Anonymous".

Definition fetchComments {W} (host : Host W) (gameId : string) (limit : nat) (w : W)
  : list comment * list line * W :=
  match api host w ("/games/" ++ gameId ++ "/comments") with
  | (Normal data, w') =>
      let comments :=
        firstn limit (match comments data with Some cs => cs | None => [] end) in
      (comments,
       CommentsHeader (length comments)
       :: flat_map (fun c =>
                      [CommentHead (userOf c) (created_at c)
                                   (label (analyzeSentiment (bodyOf c)));
                       CommentBody (bodyOf c)])
                   comments,
       w')
  | (Throws m, w') => ([], [FetchError m; ScrapingNote], w')
  end.

Definition keywordCandidates : list string :=
  ["bug"; "crash"; "good"; "love"; "hard"; "easy"; "help"; "level"; "graphics"].

(** The counting loop of [sentimentReport]: positive, negative, neutral. *)
Definition tally (comments : list comment) : nat * nat * nat :=
  fold_left (fun '(positive, negative, neutral) c =>
               let s := analyzeSentiment (bodyOf c) in
               if (0 <? score s)%Z then (S positive, negative, neutral)
               else if (score s <? 0)%Z then (positive, S negative, neutral)
               else (positive, negative, S neutral))
            comments (0, 0, 0).

Definition sentimentReport {W} (host : Host W) (gameId : string) (w : W)
  : list line * W :=
  let '(comments, out, w') := fetchComments host gameId 50 w in
  if Nat.eqb (length comments) 0 then (out ++ [NoComments], w')%list
  else
    let '(positive, negative, neutral) := tally comments in
    let allText := Js.toLowerCase (JsText.join " " (map bodyOf comments)) in
    let keywords := filter (fun k => Js.includes k allText) keywordCandidates in
    ((out ++ [SentimentHeader (length comments);
              SentimentCounts positive neutral negative]
      ++ (if Nat.ltb 0 (length keywords) then [Keywords keywords] else []))%list,
     w').

End Feedback.

(** ** scripts/steam-keys.js *)

Module SteamKeys.

(** The keys [uploadKeys] counts in the CSV text: the first field of every
    line that is not blank, trimmed, the empty ones left out. *)
Definition csvKeys (content : string) : list string :=
  let lines :=
    filter (fun l => Js.truthy (JsText.trim l)) (JsText.split "010"%char content) in
  filter Js.truthy
         (map (fun line =>
                 JsText.trim (match JsText.split ","%char line with
                              | field :: _ => field
                              | [] => EmptyString
                              end))
              lines).

Record steamKey : Type := mkSteamKey {
  key : string;
  claimed : bool
}.

(** [api(endpoint)] on the keys endpoint: the [steam_keys] of the answer. *)
Record Host (W : Type) : Type := mkHost {
  api : W -> string -> completion (list steamKey) * W
}.

Inductive line : Type :=
| GameId (gameId : string)
| Total (n : Z)
| Claimed (n : Z)
| Available (n : Z)
| ApiError (message : string).

Definition countKeys {W} (host : Host W) (gameId : string) (w : W) : list line * W :=
  match api host w ("/games/" ++ gameId ++ "/steam_keys") with
  | (Normal steam_keys, w') =>
      let total := Z.of_nat (length steam_keys) in
      let claimed := Z.of_nat (length (filter claimed steam_keys)) in
      let available := (total - claimed)%Z in
      ([GameId gameId; Total total; Claimed claimed; Available available], w')
  | (Throws m, w') => ([ApiError m], w')
  end.

End SteamKeys.

(** ** scripts/template-html5.js *)

Module Template.

(** [s.replace(/-/g, ' ')] *)
Fixpoint replaceHyphens (s : string) : string :=
  match s with
  | EmptyString => EmptyString
  | String c s' => String (if Ascii.eqb c "-"%char then " "%char else c) (replaceHyphens s')
  end.

(** [s.replace(/\b\w/g, c => c.toUpperCase())]: a word character is upper-cased
    when no word character precedes it.  [inWord] tells whether the previous
    character was a word character. *)
Fixpoint capitalize (inWord : bool) (s : string) : string :=
  match s with
  | EmptyString => EmptyString
  | String c s' =>
      String (if JsText.isWord c && negb inWord then JsText.upperChar c else c)
             (capitalize (JsText.isWord c) s')
  end.

(** The title text [generate] makes from the game name, which it hands to
    [replace] for [{{TITLE}}]. *)
Definition title (gameName : string) : string :=
  capitalize false (replaceHyphens gameName).

End Template.

(** Whether a string has no space in it. *)
Fixpoint spaceless (s : string) : bool :=
  match s with
  | EmptyString => true
  | String c s' => negb (Ascii.eqb c " "%char) && spaceless s'
  end.

Definition threeComments : Feedback.commentsData :=
  Feedback.mkCommentsData
    (Some [Feedback.mkComment (Some "ann") "2024-05-01" (Some "Love the Graphics");
           Feedback.mkComment None "2024-05-02" (Some "crash on level 3, please fix");
           Feedback.mkComment (Some "bob") "2024-05-03" None]).

Definition feedbackHost (answer : completion Feedback.commentsData) : Feedback.Host unit :=
  Feedback.mkHost (fun w _ => (answer, w)).

Definition keysHost (answer : completion (list SteamKeys.steamKey)) : SteamKeys.Host unit :=
  SteamKeys.mkHost (fun w _ => (answer, w)).

Definition sampleCsv : string :=
  "AAAAA-BBBBB,Note" ++ newline ++ newline ++ "  CCCCC , x" ++ String "013"%char newline
  ++ ",empty" ++ newline ++ "   " ++ newline ++ "DDD".

(** The place of a Ren'Py platform among the keys of [PLATFORMS]. *)
Definition renpyRank (p : RenPy.platform) : nat :=
  match p with
  | RenPy.pc => 0
  | RenPy.mac => 1
  | RenPy.linux => 2
  | RenPy.web => 3
  end.

(** * Properties *)

Unset Implicit Arguments.

(** ** Strings *)

Lemma append_assoc (a b c : string) : (a ++ b) ++ c = a ++ (b ++ c).
Proof. induction a as [|x a IH]; simpl; [reflexivity | now rewrite IH]. Qed.

Lemma append_nil_r (a : string) : a ++ EmptyString = a.
Proof. induction a as [|x a IH]; simpl; [reflexivity | now rewrite IH]. Qed.

(** The three searches against their meaning on sequences of code units. *)
Lemma startsWith_spec (p s : string) :
  Js.startsWith p s = true <-> exists r, s = p ++ r.
Proof.
  revert s. induction p as [|a p IH]; intros s; simpl.
  - split; [intros _; now exists s | reflexivity].
  - destruct s as [|b s].
    + split; [discriminate | intros [r H]; discriminate].
    + rewrite andb_true_iff, Ascii.eqb_eq, IH. split.
      * intros [-> [r ->]]. now exists r.
      * intros [r H]. injection H as -> ->. split; [reflexivity | now exists r].
Qed.

Lemma includes_spec (needle s : string) :
  Js.includes needle s = true <-> exists a b, s = a ++ needle ++ b.
Proof.
  induction s as [|c s IH]; cbn [Js.includes]; rewrite orb_true_iff, startsWith_spec.
  - split.
    + intros [[r H]|H]; [|discriminate]. now exists EmptyString, r.
    + intros [a [b H]]. left. destruct a; [now exists b | discriminate].
  - rewrite IH. split.
    + intros [[r H]|[a [b H]]].
      * now exists EmptyString, r.
      * exists (String c a), b. simpl. now rewrite H.
    + intros [a [b H]]. destruct a as [|x a]; simpl in H.
      * left. now exists b.
      * right. injection H as _ H. now exists a, b.
Qed.

Lemma endsWith_spec (suffix s : string) :
  Js.endsWith suffix s = true <-> exists a, s = a ++ suffix.
Proof.
  induction s as [|c s IH]; cbn [Js.endsWith]; rewrite orb_true_iff, String.eqb_eq.
  - split.
    + intros [H|H]; [|discriminate]. now exists EmptyString.
    + intros [a H]. left. destruct a; [exact H | discriminate].
  - rewrite IH. split.
    + intros [H|[a H]].
      * now exists EmptyString.
      * exists (String c a). simpl. now rewrite H.
    + intros [a H]. destruct a as [|x a]; simpl in H.
      * now left.
      * right. injection H as _ H. now exists a.
Qed.

Lemma includes_trans (m n s : string) :
  Js.includes m n = true -> Js.includes n s = true -> Js.includes m s = true.
Proof.
  rewrite !includes_spec. intros [a [b ->]] [a' [b' ->]].
  exists (a' ++ a), (b ++ b'). now rewrite !append_assoc.
Qed.

Lemma endsWith_includes (suffix s : string) :
  Js.endsWith suffix s = true -> Js.includes suffix s = true.
Proof.
  rewrite endsWith_spec, includes_spec. intros [a ->].
  exists a, EmptyString. now rewrite append_nil_r.
Qed.

Lemma includes_app (needle a b : string) :
  Js.includes needle (a ++ needle ++ b) = true.
Proof. apply includes_spec. now exists a, b. Qed.

(** A name that lacks [m] lacks every string containing [m]. *)
Lemma lacks_includes (m n s : string) :
  Js.includes m s = false -> Js.includes m n = true -> Js.includes n s = false.
Proof.
  intros Hs Hn. destruct (Js.includes n s) eqn:E; [|reflexivity].
  now rewrite (includes_trans _ _ _ Hn E) in Hs.
Qed.

Lemma lacks_endsWith (m suffix s : string) :
  Js.includes m s = false -> Js.includes m suffix = true -> Js.endsWith suffix s = false.
Proof.
  intros Hs Hn. destruct (Js.endsWith suffix s) eqn:E; [|reflexivity].
  apply endsWith_includes in E. now rewrite (includes_trans _ _ _ Hn E) in Hs.
Qed.

Lemma lacks_eqb (m t s : string) :
  Js.includes m s = false -> Js.includes m t = true -> String.eqb t s = false.
Proof.
  intros Hs Ht. destruct (String.eqb t s) eqn:E; [|reflexivity].
  apply String.eqb_eq in E. subst t. now rewrite Ht in Hs.
Qed.

(** ** Small runs *)

Example endsWith_ex :
  Js.endsWith ".exe" "game.exe" = true /\ Js.endsWith ".exe" "game.exe.txt" = false.
Proof. split; reflexivity. Qed.

Example includes_ex :
  Js.includes "mac" "game-mac.zip" = true /\ Js.includes "mac" "game" = false.
Proof. split; reflexivity. Qed.

Example toLowerCase_ex : Js.toLowerCase "My-Game-WIN" = "my-game-win".
Proof. reflexivity. Qed.

Example join_ex :
  Path.join "./build" "windows" = "build/windows"
  /\ Path.join "/srv/out/" "../web" = "/srv/web"
  /\ Path.basename "build/My-Game-WIN/" = "My-Game-WIN".
Proof. repeat split. Qed.

(** The build root with [windows/], [web/] and [notes/]. *)
Example scenario_scan :
  Godot.scanBuildDir scenario "build"
  = Normal ([(Godot.windows, "build/windows"); (Godot.web, "build/web")],
            [Matched "Windows Desktop" "windows"; Matched "Web (HTML5)" "web";
             Text "   ⚠️  Web export missing CORS fix (coi-serviceworker.js)";
             Text "   Get it from: https://github.com/gzuidhof/coi-serviceworker";
             Unknown "notes"]).
Proof. reflexivity. Qed.

Example scenario_main :
  let run := Godot.main scenario ["node"; "godot-export.js"; "build"; "alice/mygame"] in
  fst run = Returned
  /\ pushLines (snd run)
     = [Godot.pushCommand "build/windows" "alice/mygame" "windows";
        Godot.pushCommand "build/web" "alice/mygame" "html5"].
Proof. split; reflexivity. Qed.

(** ** The classifiers *)

(** C6, as stated, fails for the Ren'Py classifier: a directory that holds
    one extension-less regular file and nothing else is left unclassified
    when neither the file name nor the directory name carries a platform
    keyword. *)
Lemma C6_renpy_counterexample :
  readdirSync lonelyLauncher "build/game-1.0" = Normal ["game"]
  /\ Js.includes "." "game" = false
  /\ statSync lonelyLauncher (Path.join "build/game-1.0" "game") = Normal (mkStats true false 3)
  /\ RenPy.detectPlatform lonelyLauncher "build/game-1.0" = Normal None.
Proof. repeat split. Qed.

(** C6, amended: for a directory whose listing is exactly one extension-less
    regular file, the Godot classifier returns linux; the Ren'Py classifier
    returns mac when the file name contains "mac", otherwise linux when the
    lower-cased file name contains "linux", and otherwise whatever the
    directory-name hints give (possibly nothing). *)
Theorem C6_single_extensionless_file (fs : FileSystem) (dir f : string) (st : Stats) :
  readdirSync fs dir = Normal [f] ->
  Js.includes "." f = false ->
  statSync fs (Path.join dir f) = Normal st ->
  isFile st = true ->
  Godot.detectPlatform fs dir = Normal (Some Godot.linux)
  /\ RenPy.detectPlatform fs dir =
     Normal (if Js.includes "mac" f then Some RenPy.mac
             else if Js.includes "linux" (Js.toLowerCase f) then Some RenPy.linux
             else RenPy.nameHint (Js.toLowerCase (Path.basename dir))).
Proof.
  intros Hdir Hdot Hstat Hfile.
  assert (Hsuf : forall suffix, Js.includes "." suffix = true -> Js.endsWith suffix f = false)
    by (intros suffix; now apply lacks_endsWith).
  assert (Hindex : String.eqb "index.html" f = false)
    by (now apply (lacks_eqb "." "index.html" f)).
  assert (Hexe : Js.includes ".exe" f = false)
    by (now apply (lacks_includes "." ".exe" f)).
  split.
  - unfold Godot.detectPlatform. rewrite Hdir. cbn [bind Js.arrayIncludes existsb find].
    rewrite Hindex, !Hsuf by reflexivity.
    cbn [orb Js.truthyOpt andb filterM].
    unfold Godot.isExecutable. rewrite Hdot. cbn [negb]. rewrite Hstat. cbn [bind].
    rewrite Hfile. reflexivity.
  - unfold RenPy.detectPlatform. rewrite Hdir.
    cbn [bind RenPy.PLATFORMS_entries RenPy.PLATFORMS_keys map find RenPy.PLATFORMS
         RenPy.check existsb Js.arrayIncludes].
    rewrite Hindex, Hexe, !Hsuf by reflexivity. cbn [andb orb negb].
    destruct (Js.includes "mac" f) eqn:Hmac; [reflexivity|].
    rewrite (lacks_includes "mac" "-mac" f Hmac) by reflexivity.
    cbn [orb]. rewrite andb_true_r.
    destruct (Js.includes "linux" (Js.toLowerCase f)); reflexivity.
Qed.

Lemma C6_single_extensionless_file_witness :
  Godot.detectPlatform lonelyLauncher "build/game-1.0" = Normal (Some Godot.linux)
  /\ RenPy.detectPlatform lonelyLauncher "build/game-1.0" = Normal None.
Proof.
  exact (C6_single_extensionless_file lonelyLauncher "build/game-1.0" "game"
           (mkStats true false 3) eq_refl eq_refl eq_refl eq_refl).
Defined.

(** C5, as stated, fails for the Godot classifier: the web marker is tested
    before the [.exe] marker, so a listing with [index.html], an [.exe] file
    and an extension-less file is a web export. *)
Lemma C5_godot_counterexample :
  readdirSync mixedExport "build/out" = Normal ["index.html"; "game.exe"; "game"]
  /\ Js.endsWith ".exe" "game.exe" = true
  /\ Js.includes "." "game" = false
  /\ Godot.detectPlatform mixedExport "build/out" = Normal (Some Godot.web)
  /\ Godot.detectPlatform mixedExport "build/out" <> Normal (Some Godot.windows).
Proof. repeat split. discriminate. Qed.

(** C5, amended: for a directory whose listing contains a file ending in
    [.exe] (with or without an extension-less file beside it), neither
    classifier returns linux.  The Godot classifier returns web when the
    listing contains [index.html] and windows otherwise; the Ren'Py
    classifier returns pc when some [.exe] name does not contain "mac" and
    mac otherwise. *)
Theorem C5_exe_beats_linux (fs : FileSystem) (dir : string) (files : list string) :
  readdirSync fs dir = Normal files ->
  existsb (Js.endsWith ".exe") files = true ->
  Godot.detectPlatform fs dir
  = Normal (Some (if Js.arrayIncludes "index.html" files then Godot.web else Godot.windows))
  /\ Godot.detectPlatform fs dir <> Normal (Some Godot.linux)
  /\ RenPy.detectPlatform fs dir
     = Normal (Some (if RenPy.check (RenPy.PLATFORMS RenPy.pc) files
                     then RenPy.pc else RenPy.mac))
  /\ RenPy.detectPlatform fs dir <> Normal (Some RenPy.linux).
Proof.
  intros Hdir Hexe.
  assert (HG : Godot.detectPlatform fs dir
               = Normal (Some (if Js.arrayIncludes "index.html" files
                               then Godot.web else Godot.windows))).
  { unfold Godot.detectPlatform. rewrite Hdir. cbn [bind].
    destruct (Js.arrayIncludes "index.html" files); [reflexivity|].
    now rewrite Hexe. }
  assert (HR : RenPy.detectPlatform fs dir
               = Normal (Some (if RenPy.check (RenPy.PLATFORMS RenPy.pc) files
                               then RenPy.pc else RenPy.mac))).
  { unfold RenPy.detectPlatform. rewrite Hdir.
    cbn [bind RenPy.PLATFORMS_entries RenPy.PLATFORMS_keys map find].
    destruct (RenPy.check (RenPy.PLATFORMS RenPy.pc) files) eqn:Hpc; [reflexivity|].
    assert (Hmac : RenPy.check (RenPy.PLATFORMS RenPy.mac) files = true).
    { cbn [RenPy.PLATFORMS RenPy.check] in *.
      apply existsb_exists in Hexe. destruct Hexe as [f [Hin Hf]].
      apply existsb_exists. exists f. split; [exact Hin|].
      destruct (Js.includes "mac" f) eqn:Hm; [now rewrite orb_true_r|].
      exfalso. assert (Hpc' : existsb (fun f0 => Js.endsWith ".exe" f0
                                               && negb (Js.includes "mac" f0)) files = true).
      { apply existsb_exists. exists f. now rewrite Hf, Hm. }
      rewrite Hpc' in Hpc. discriminate. }
    now rewrite Hmac. }
  repeat split; [exact HG | | exact HR | ].
  - rewrite HG. destruct (Js.arrayIncludes "index.html" files); discriminate.
  - rewrite HR. destruct (RenPy.check (RenPy.PLATFORMS RenPy.pc) files); discriminate.
Qed.

Lemma C5_exe_beats_linux_witness :
  Godot.detectPlatform mixedExport "build/out" = Normal (Some Godot.web)
  /\ Godot.detectPlatform mixedExport "build/out" <> Normal (Some Godot.linux)
  /\ RenPy.detectPlatform mixedExport "build/out" = Normal (Some RenPy.pc)
  /\ RenPy.detectPlatform mixedExport "build/out" <> Normal (Some RenPy.linux).
Proof.
  exact (C5_exe_beats_linux mixedExport "build/out" ["index.html"; "game.exe"; "game"]
           eq_refl eq_refl).
Defined.

(** C7, as stated, fails twice.  The Godot classifier has no directory-name
    fallback: a directory called [windows] that holds only [readme.txt] is
    unclassified.  In the Ren'Py classifier the hints are tried in order, so
    a name that contains "mac" is not a macOS build when it also contains
    "win". *)
Lemma C7_fallback_counterexample :
  (readdirSync misnamedDirs "build/windows" = Normal ["readme.txt"]
   /\ Js.includes "win" (Js.toLowerCase (Path.basename "build/windows")) = true
   /\ Godot.detectPlatform misnamedDirs "build/windows" = Normal None)
  /\ (readdirSync misnamedDirs "build/darwin-mac" = Normal ["readme.txt"]
      /\ (forall p, RenPy.check (RenPy.PLATFORMS p) ["readme.txt"] = false)
      /\ Js.includes "mac" (Js.toLowerCase (Path.basename "build/darwin-mac")) = true
      /\ RenPy.detectPlatform misnamedDirs "build/darwin-mac" = Normal (Some RenPy.pc)).
Proof. repeat split. intros p; destruct p; reflexivity. Qed.

Lemma renpy_no_check_matches (files : list string) :
  (forall p, RenPy.check (RenPy.PLATFORMS p) files = false) ->
  find (fun '(_, plat) => RenPy.check plat files) RenPy.PLATFORMS_entries = None.
Proof.
  intros H. cbn [RenPy.PLATFORMS_entries RenPy.PLATFORMS_keys map find].
  now rewrite (H RenPy.pc), (H RenPy.mac), (H RenPy.linux), (H RenPy.web).
Qed.

(** C7, amended.  In the Ren'Py classifier, when no [check] accepts the
    listing, the lower-cased basename of the directory decides, the keywords
    being tried in the order "win", "mac", "linux", "web": the first one the
    name contains gives pc, mac, linux or web, and the result is none only
    when the name contains none of them.  The Godot classifier has no such
    fallback: when none of its file tests succeeds it returns none whatever
    the directory is called. *)
Theorem C7_name_fallback :
  (forall (fs : FileSystem) (dir : string) (files : list string),
      readdirSync fs dir = Normal files ->
      (forall p, RenPy.check (RenPy.PLATFORMS p) files = false) ->
      let name := Js.toLowerCase (Path.basename dir) in
      let detected := RenPy.detectPlatform fs dir in
      (Js.includes "win" name = true -> detected = Normal (Some RenPy.pc))
      /\ (Js.includes "win" name = false -> Js.includes "mac" name = true ->
          detected = Normal (Some RenPy.mac))
      /\ (Js.includes "win" name = false -> Js.includes "mac" name = false ->
          Js.includes "linux" name = true -> detected = Normal (Some RenPy.linux))
      /\ (Js.includes "win" name = false -> Js.includes "mac" name = false ->
          Js.includes "linux" name = false -> Js.includes "web" name = true ->
          detected = Normal (Some RenPy.web))
      /\ (Js.includes "win" name = false -> Js.includes "mac" name = false ->
          Js.includes "linux" name = false -> Js.includes "web" name = false ->
          detected = Normal None))
  /\ (forall (fs : FileSystem) (dir : string) (files : list string),
         readdirSync fs dir = Normal files ->
         Js.arrayIncludes "index.html" files = false ->
         existsb (Js.endsWith ".exe") files = false ->
         existsb (Js.endsWith ".app") files = false ->
         existsb (Js.endsWith ".zip") files = false ->
         existsb (fun f => Js.endsWith ".apk" f || Js.endsWith ".aab" f) files = false ->
         filterM (Godot.isExecutable fs dir) files = Normal [] ->
         Godot.detectPlatform fs dir = Normal None).
Proof.
  split.
  - intros fs dir files Hdir Hnone name detected.
    assert (Hd : detected = Normal (RenPy.nameHint name)).
    { unfold detected, RenPy.detectPlatform. rewrite Hdir. cbn [bind].
      now rewrite (renpy_no_check_matches files Hnone). }
    rewrite Hd. unfold RenPy.nameHint.
    repeat split; intros; repeat match goal with H : Js.includes _ name = _ |- _ =>
                                   rewrite H; clear H end; reflexivity.
  - intros fs dir files Hdir Hindex Hexe Happ Hzip Handroid Hlinux.
    unfold Godot.detectPlatform. rewrite Hdir. cbn [bind].
    rewrite Hindex, Hexe, Happ, Hzip, Handroid, Hlinux. reflexivity.
Qed.

Lemma C7_name_fallback_witness :
  RenPy.detectPlatform misnamedDirs "build/My-Game-WIN" = Normal (Some RenPy.pc)
  /\ RenPy.detectPlatform misnamedDirs "build/notes" = Normal None
  /\ Godot.detectPlatform misnamedDirs "build/windows" = Normal None.
Proof.
  assert (Hnone : forall p, RenPy.check (RenPy.PLATFORMS p) ["readme.txt"] = false)
    by (intros p; destruct p; reflexivity).
  split; [|split].
  - exact (proj1 (proj1 C7_name_fallback misnamedDirs "build/My-Game-WIN" ["readme.txt"]
                    eq_refl Hnone) eq_refl).
  - exact (proj2 (proj2 (proj2 (proj2
             (proj1 C7_name_fallback misnamedDirs "build/notes" ["readme.txt"]
                eq_refl Hnone)))) eq_refl eq_refl eq_refl eq_refl).
  - exact (proj2 C7_name_fallback misnamedDirs "build/windows" ["readme.txt"]
             eq_refl eq_refl eq_refl eq_refl eq_refl eq_refl eq_refl).
Defined.

(** ** Objects and scan loops *)

Section ObjectFacts.
Context {P : Type}.
Variable eqb : P -> P -> bool.
Hypothesis eqb_eq : forall a b, eqb a b = true <-> a = b.

Let eqb_refl (a : P) : eqb a a = true.
Proof. now apply eqb_eq. Qed.

Let eqb_neq (a b : P) : a <> b -> eqb a b = false.
Proof.
  intros H. destruct (eqb a b) eqn:E; [|reflexivity].
  now apply eqb_eq in E.
Qed.

Lemma mem_In (p : P) (l : list P) : Scan.mem eqb p l = true <-> In p l.
Proof.
  unfold Scan.mem. rewrite existsb_exists. split.
  - intros [x [Hin Hx]]. apply eqb_eq in Hx. now subst x.
  - intros Hin. exists p. split; [exact Hin | apply eqb_refl].
Qed.

Lemma get_set_same {V} (k : P) (v : V) (o : list (P * V)) :
  JsObject.get eqb k (JsObject.set eqb k v o) = Some v.
Proof.
  induction o as [|[k' v'] o IH]; simpl.
  - now rewrite eqb_refl.
  - destruct (eqb k k') eqn:E; simpl; rewrite ?eqb_refl, ?E; [reflexivity | exact IH].
Qed.

Lemma get_set_other {V} (k k' : P) (v : V) (o : list (P * V)) :
  k' <> k -> JsObject.get eqb k' (JsObject.set eqb k v o) = JsObject.get eqb k' o.
Proof.
  intros Hne. induction o as [|[k0 v0] o IH]; simpl.
  - now rewrite (eqb_neq k' k Hne).
  - destruct (eqb k k0) eqn:E; simpl.
    + apply eqb_eq in E. subst k0. now rewrite (eqb_neq k' k Hne).
    + now rewrite IH.
Qed.

Lemma keys_set {V} (k : P) (v : V) (o : list (P * V)) :
  JsObject.keys (JsObject.set eqb k v o)
  = if Scan.mem eqb k (JsObject.keys o) then JsObject.keys o
    else (JsObject.keys o ++ [k])%list.
Proof.
  unfold JsObject.keys, Scan.mem. induction o as [|[k' v'] o IH]; simpl; [reflexivity|].
  destruct (eqb k k') eqn:E; simpl.
  - apply eqb_eq in E. now subst k'.
  - rewrite IH. now destruct (existsb (eqb k) (map fst o)).
Qed.

Lemma In_set {V} (k : P) (v : V) (o : list (P * V)) (kv : P * V) :
  In kv (JsObject.set eqb k v o) -> kv = (k, v) \/ In kv o.
Proof.
  induction o as [|[k' v'] o IH]; simpl.
  - intros [H|[]]. now left.
  - destruct (eqb k k'); simpl.
    + intros [H|H]; [now left | now right; right].
    + intros [H|H]; [now right; left|]. destruct (IH H) as [H'|H']; [now left | now right; right].
Qed.

Lemma NoDup_keys_set {V} (k : P) (v : V) (o : list (P * V)) :
  NoDup (JsObject.keys o) -> NoDup (JsObject.keys (JsObject.set eqb k v o)).
Proof.
  intros Hnd. rewrite keys_set. destruct (Scan.mem eqb k (JsObject.keys o)) eqn:E; [exact Hnd|].
  apply NoDup_app; [exact Hnd | repeat constructor; intros [] | ].
  intros x Hx [Hk|[]]. subst x. apply mem_In in Hx. now rewrite Hx in E.
Qed.

Lemma get_In {V} (k : P) (v : V) (o : list (P * V)) :
  NoDup (JsObject.keys o) -> In (k, v) o -> JsObject.get eqb k o = Some v.
Proof.
  unfold JsObject.keys. induction o as [|[k' v'] o IH]; simpl; intros Hnd Hin; [contradiction|].
  inversion Hnd as [|? ? Hnotin Hnd']; subst.
  destruct Hin as [Heq|Hin].
  - injection Heq as -> ->. now rewrite eqb_refl.
  - destruct (eqb k k') eqn:E.
    + apply eqb_eq in E. subst k'. exfalso. apply Hnotin.
      change k with (fst (k, v)). now apply in_map.
    + now apply IH.
Qed.

Lemma collect_app (l1 l2 init : list (P * string)) :
  Scan.collect eqb (l1 ++ l2) init = Scan.collect eqb l2 (Scan.collect eqb l1 init).
Proof. apply fold_left_app. Qed.

Lemma collect_NoDup (l init : list (P * string)) :
  NoDup (JsObject.keys init) -> NoDup (JsObject.keys (Scan.collect eqb l init)).
Proof.
  revert init. induction l as [|[p e] l IH]; intros init Hnd; simpl; [exact Hnd|].
  apply IH. now apply NoDup_keys_set.
Qed.

Lemma collect_In (l init : list (P * string)) (pe : P * string) :
  In pe (Scan.collect eqb l init) -> In pe l \/ In pe init.
Proof.
  revert init. induction l as [|[p e] l IH]; intros init Hin; simpl in *; [now right|].
  destruct (IH _ Hin) as [H|H]; [now left; right|].
  destruct (In_set _ _ _ _ H) as [H'|H']; [left; left; now symmetry | now right].
Qed.

Lemma collect_get_absent (t : P) (l init : list (P * string)) :
  ~ In t (map fst l) ->
  JsObject.get eqb t (Scan.collect eqb l init) = JsObject.get eqb t init.
Proof.
  revert init. induction l as [|[p e] l IH]; intros init Hnot; simpl in *; [reflexivity|].
  rewrite IH by tauto. apply get_set_other. intros ->. tauto.
Qed.

(** The value kept for a tag is the one assigned last. *)
Lemma collect_get_last (t : P) (d : string) (l1 l2 init : list (P * string)) :
  ~ In t (map fst l2) ->
  JsObject.get eqb t (Scan.collect eqb (l1 ++ (t, d) :: l2) init) = Some d.
Proof.
  intros Hnot. rewrite collect_app. simpl.
  rewrite collect_get_absent by exact Hnot. apply get_set_same.
Qed.

Lemma filter_filter {A} (f g : A -> bool) (l : list A) :
  filter f (filter g l) = filter (fun x => g x && f x) l.
Proof.
  induction l as [|x l IH]; simpl; [reflexivity|].
  destruct (g x); simpl; [destruct (f x)|]; now rewrite IH.
Qed.

(** The keys of the object: those it had, then the new tags, each at its
    first assignment. *)
Lemma collect_keys (l init : list (P * string)) :
  JsObject.keys (Scan.collect eqb l init)
  = (JsObject.keys init
     ++ filter (fun p => negb (Scan.mem eqb p (JsObject.keys init)))
               (Scan.nub eqb (map fst l)))%list.
Proof.
  revert init. induction l as [|[p e] l IH]; intros init; simpl.
  - now rewrite app_nil_r.
  - rewrite IH. unfold Scan.assign. simpl fst. simpl snd. rewrite keys_set.
    destruct (Scan.mem eqb p (JsObject.keys init)) eqn:E; simpl.
    + f_equal. rewrite filter_filter. apply filter_ext_in. intros y _.
      destruct (eqb p y) eqn:Epy; simpl; [|reflexivity].
      apply eqb_eq in Epy. subst y. now rewrite E.
    + rewrite <- app_assoc. simpl. do 2 f_equal. rewrite filter_filter.
      apply filter_ext. intros y. unfold Scan.mem. rewrite existsb_app. simpl.
      rewrite orb_false_r, negb_orb, andb_comm. f_equal. f_equal.
      destruct (eqb y p) eqn:E1, (eqb p y) eqn:E2; try reflexivity.
      * apply eqb_eq in E1. subst y. now rewrite eqb_refl in E2.
      * apply eqb_eq in E2. subst y. now rewrite eqb_refl in E1.
Qed.

Lemma collect_keys_nub (l : list (P * string)) :
  JsObject.keys (Scan.collect eqb l []) = Scan.nub eqb (map fst l).
Proof.
  rewrite collect_keys. simpl. induction (Scan.nub eqb (map fst l)) as [|x r IH];
    simpl; [reflexivity | now rewrite IH].
Qed.

Lemma nub_length (l : list P) : length (Scan.nub eqb l) <= length l.
Proof.
  induction l as [|x l IH]; simpl; [lia|].
  pose proof (filter_length_le (fun y => negb (eqb x y)) (Scan.nub eqb l)). lia.
Qed.

Lemma nub_In (x : P) (l : list P) : In x (Scan.nub eqb l) <-> In x l.
Proof.
  induction l as [|y l IH]; simpl; [tauto|].
  rewrite filter_In, IH. split.
  - intros [H|[H _]]; [now left | now right].
  - intros [H|H]; [now left|].
    destruct (eqb y x) eqn:E; [left; now apply eqb_eq | right; now split].
Qed.

Lemma nub_NoDup (l : list P) : NoDup l -> Scan.nub eqb l = l.
Proof.
  induction l as [|x l IH]; intros Hnd; simpl; [reflexivity|].
  inversion Hnd as [|? ? Hnotin Hnd']; subst. rewrite (IH Hnd'). f_equal.
  apply forallb_filter_id. apply forallb_forall. intros y Hy.
  destruct (eqb x y) eqn:E; [|reflexivity].
  apply eqb_eq in E. now subst y.
Qed.

End ObjectFacts.

Lemma godot_eqb_eq (a b : Godot.platform) : Godot.platform_eqb a b = true <-> a = b.
Proof. destruct a, b; simpl; split; (reflexivity || discriminate). Qed.

Lemma renpy_eqb_eq (a b : RenPy.platform) : RenPy.platform_eqb a b = true <-> a = b.
Proof. destruct a, b; simpl; split; (reflexivity || discriminate). Qed.

Lemma godot_checkCORS_lines fs entry c :
  Godot.checkCORS fs entry = Normal c ->
  filter isUnknown (snd c) = [] /\ filter isMatched (snd c) = [].
Proof.
  unfold Godot.checkCORS. destruct (negb _); [intros H; now inversion H|].
  destruct (readFileSync fs _) as [content|m]; simpl; [|discriminate].
  intros H. inversion H. simpl. now destruct (negb _).
Qed.

Lemma renpy_check_lines fs entry p c :
  (if RenPy.platform_eqb p RenPy.web then RenPy.checkWebBuild fs entry
   else RenPy.checkDesktopBuild fs entry p) = Normal c ->
  filter isUnknown (snd c) = [] /\ filter isMatched (snd c) = [].
Proof.
  destruct (RenPy.platform_eqb p RenPy.web).
  - unfold RenPy.checkWebBuild. destruct (negb _); [intros H; now inversion H|].
    destruct (readFileSync fs _); simpl; [|discriminate].
    destruct (statSync fs _); simpl; [|discriminate].
    destruct (readdirSync fs _); simpl; [|discriminate].
    intros H. inversion H. simpl. now destruct (_ || _).
  - unfold RenPy.checkDesktopBuild.
    destruct (readdirSync fs _) as [files|]; simpl; [|discriminate].
    destruct (if Js.arrayIncludes "lib" files then _ else _) as [hasLib|]; simpl; [|discriminate].
    intros H. inversion H. simpl. rewrite !filter_app.
    destruct (find _ files) as [l|]; [destruct (Js.truthy l)|]; destruct hasLib; now split.
Qed.

(** What the Godot scan loop returns, when it returns: every entry was
    classified without an exception, the object is the one assigned to in
    enumeration order, one "matched" line was printed per classified entry
    and one "Unknown" line per unclassified entry. *)
Lemma godot_scanLoop_spec fs entries :
  forall platforms out platforms' out',
    Godot.scanLoop fs entries platforms out = Normal (platforms', out') ->
    platforms' = Scan.collect Godot.platform_eqb
                   (Scan.classified (Godot.detectPlatform fs) entries) platforms
    /\ filter isUnknown out'
       = (filter isUnknown out
          ++ map (fun e => Unknown (Js.toLowerCase (Path.basename e)))
                 (Scan.unclassified (Godot.detectPlatform fs) entries))%list
    /\ filter isMatched out'
       = (filter isMatched out
          ++ map (fun pe => Matched (Godot.name (Godot.PLATFORMS (fst pe)))
                                    (Js.toLowerCase (Path.basename (snd pe))))
                 (Scan.classified (Godot.detectPlatform fs) entries))%list
    /\ Forall (fun e => exists t, Godot.detectPlatform fs e = Normal t) entries.
Proof.
  induction entries as [|e rest IH]; intros platforms out platforms' out' H.
  - simpl in H. inversion H. subst. simpl. now rewrite !app_nil_r.
  - cbn [Godot.scanLoop] in H.
    unfold Scan.classified, Scan.unclassified, Scan.tagOf.
    cbn [flat_map filter].
    destruct (Godot.detectPlatform fs e) as [[p|]|m] eqn:Hd; cbn [bind] in H; [| |discriminate].
    + assert (Hrest : exists extra,
                (filter isUnknown extra = [] /\ filter isMatched extra = []) /\
                Godot.scanLoop fs rest (JsObject.set Godot.platform_eqb p e platforms)
                  ((out ++ [Matched (Godot.name (Godot.PLATFORMS p))
                                    (Js.toLowerCase (Path.basename e))]) ++ extra)%list
                = Normal (platforms', out')).
      { destruct (Godot.platform_eqb p Godot.web).
        - destruct (Godot.checkCORS fs e) as [c|] eqn:Hc; cbn [bind] in H; [|discriminate].
          exists (snd c). split; [now apply (godot_checkCORS_lines fs e)|exact H].
        - exists []. split; [now split | now rewrite app_nil_r]. }
      destruct Hrest as [extra [[HextraU HextraM] Hrest]].
      destruct (IH _ _ _ _ Hrest) as [Hp [Ho [Hm Hall]]].
      split; [exact Hp|]. split; [|split].
      * rewrite Ho, !filter_app, HextraU. simpl. now rewrite !app_nil_r.
      * rewrite Hm, !filter_app, HextraM. simpl. now rewrite app_nil_r, <- app_assoc.
      * constructor; [now exists (Some p) | exact Hall].
    + destruct (IH _ _ _ _ H) as [Hp [Ho [Hm Hall]]].
      split; [exact Hp|]. split; [|split].
      * rewrite Ho, filter_app. simpl. now rewrite <- app_assoc.
      * rewrite Hm, filter_app. simpl. now rewrite app_nil_r.
      * constructor; [now exists None | exact Hall].
Qed.

Lemma renpy_scanLoop_spec fs entries :
  forall builds out builds' out',
    RenPy.scanLoop fs entries builds out = Normal (builds', out') ->
    builds' = Scan.collect RenPy.platform_eqb
                (Scan.classified (RenPy.detectPlatform fs) entries) builds
    /\ filter isUnknown out'
       = (filter isUnknown out
          ++ map (fun e => Unknown (Path.basename e))
                 (Scan.unclassified (RenPy.detectPlatform fs) entries))%list
    /\ filter isMatched out'
       = (filter isMatched out
          ++ map (fun pe => Matched (RenPy.name (RenPy.PLATFORMS (fst pe)))
                                    (Path.basename (snd pe)))
                 (Scan.classified (RenPy.detectPlatform fs) entries))%list
    /\ Forall (fun e => exists t, RenPy.detectPlatform fs e = Normal t) entries.
Proof.
  induction entries as [|e rest IH]; intros builds out builds' out' H.
  - simpl in H. inversion H. subst. simpl. now rewrite !app_nil_r.
  - cbn [RenPy.scanLoop] in H.
    unfold Scan.classified, Scan.unclassified, Scan.tagOf.
    cbn [flat_map filter].
    destruct (RenPy.detectPlatform fs e) as [[p|]|m] eqn:Hd; cbn [bind] in H; [| |discriminate].
    + destruct (if RenPy.platform_eqb p RenPy.web then _ else _) as [c|] eqn:Hc;
        cbn [bind] in H; [|discriminate].
      destruct (renpy_check_lines fs e p c Hc) as [HextraU HextraM].
      destruct (IH _ _ _ _ H) as [Hp [Ho [Hm Hall]]].
      split; [exact Hp|]. split; [|split].
      * rewrite Ho, !filter_app, HextraU. simpl. now rewrite !app_nil_r.
      * rewrite Hm, !filter_app, HextraM. simpl. now rewrite app_nil_r, <- app_assoc.
      * constructor; [now exists (Some p) | exact Hall].
    + destruct (IH _ _ _ _ H) as [Hp [Ho [Hm Hall]]].
      split; [exact Hp|]. split; [|split].
      * rewrite Ho, filter_app. simpl. now rewrite <- app_assoc.
      * rewrite Hm, filter_app. simpl. now rewrite app_nil_r.
      * constructor; [now exists None | exact Hall].
Qed.

(** The scan loops return when the file system answers every call they
    make. *)
Lemma godot_scanLoop_returns fs entries :
  (forall e, In e entries ->
     exists t, Godot.detectPlatform fs e = Normal t
               /\ (t = Some Godot.web -> exists c, Godot.checkCORS fs e = Normal c)) ->
  forall platforms out, exists r, Godot.scanLoop fs entries platforms out = Normal r.
Proof.
  induction entries as [|e rest IH]; intros Hall platforms out.
  - now eexists.
  - cbn [Godot.scanLoop].
    destruct (Hall e (or_introl eq_refl)) as [t [Hd Hc]]. rewrite Hd. cbn [bind].
    assert (Hrest : forall e', In e' rest ->
              exists t', Godot.detectPlatform fs e' = Normal t'
                         /\ (t' = Some Godot.web -> exists c, Godot.checkCORS fs e' = Normal c))
      by (intros e' Hin; apply Hall; now right).
    destruct t as [p|]; [|apply (IH Hrest)].
    destruct p; cbn [Godot.platform_eqb]; try apply (IH Hrest).
    destruct (Hc eq_refl) as [c Hcors]. rewrite Hcors. cbn [bind]. apply (IH Hrest).
Qed.

Lemma renpy_scanLoop_returns fs entries :
  (forall e, In e entries ->
     exists t, RenPy.detectPlatform fs e = Normal t
               /\ (forall p, t = Some p ->
                    exists c, (if RenPy.platform_eqb p RenPy.web
                               then RenPy.checkWebBuild fs e
                               else RenPy.checkDesktopBuild fs e p) = Normal c)) ->
  forall builds out, exists r, RenPy.scanLoop fs entries builds out = Normal r.
Proof.
  induction entries as [|e rest IH]; intros Hall builds out.
  - now eexists.
  - cbn [RenPy.scanLoop].
    destruct (Hall e (or_introl eq_refl)) as [t [Hd Hc]]. rewrite Hd. cbn [bind].
    assert (Hrest : forall e', In e' rest ->
              exists t', RenPy.detectPlatform fs e' = Normal t'
                         /\ (forall p, t' = Some p ->
                              exists c, (if RenPy.platform_eqb p RenPy.web
                                         then RenPy.checkWebBuild fs e'
                                         else RenPy.checkDesktopBuild fs e' p) = Normal c))
      by (intros e' Hin; apply Hall; now right).
    destruct t as [p|]; [|apply (IH Hrest)].
    destruct (Hc p eq_refl) as [c Hchk]. rewrite Hchk. cbn [bind]. apply (IH Hrest).
Qed.

(** Every entry is either classified or unclassified. *)
Lemma classified_unclassified_length {P} (detect : string -> completion (option P))
      (entries : list string) :
  length (Scan.classified detect entries) + length (Scan.unclassified detect entries)
  = length entries.
Proof.
  unfold Scan.classified, Scan.unclassified.
  induction entries as [|e rest IH]; simpl; [reflexivity|].
  destruct (Scan.tagOf detect e); simpl; lia.
Qed.

Section ScanFacts.
Context {P : Type}.
Variable eqb : P -> P -> bool.
Hypothesis eqb_eq : forall a b, eqb a b = true <-> a = b.
Variable detect : string -> completion (option P).

Lemma classified_app (l1 l2 : list string) :
  Scan.classified detect (l1 ++ l2)
  = (Scan.classified detect l1 ++ Scan.classified detect l2)%list.
Proof. apply flat_map_app. Qed.

Lemma classified_In (p : P) (e : string) (entries : list string) :
  In (p, e) (Scan.classified detect entries) <-> In e entries /\ Scan.tagOf detect e = Some p.
Proof.
  unfold Scan.classified. rewrite in_flat_map. split.
  - intros [x [Hin Hx]]. destruct (Scan.tagOf detect x) eqn:E; [|contradiction].
    destruct Hx as [Hx|[]]. injection Hx as -> ->. now split.
  - intros [Hin Ht]. exists e. split; [exact Hin|]. rewrite Ht. now left.
Qed.

Lemma unclassified_In (e : string) (entries : list string) :
  In e (Scan.unclassified detect entries) <-> In e entries /\ Scan.tagOf detect e = None.
Proof.
  unfold Scan.unclassified. rewrite filter_In.
  destruct (Scan.tagOf detect e); split; intros [H1 H2]; (split; [exact H1|]);
    (reflexivity || discriminate).
Qed.

(** The size of the object is the number of distinct tags, at most the number
    of classified entries. *)
Lemma collect_size (entries : list string) :
  let tags := map fst (Scan.classified detect entries) in
  let o := Scan.collect eqb (Scan.classified detect entries) [] in
  JsObject.keys o = Scan.nub eqb tags
  /\ length o = length (Scan.nub eqb tags)
  /\ length o <= length (Scan.classified detect entries)
  /\ (NoDup tags -> length o = length (Scan.classified detect entries)).
Proof.
  intros tags o.
  assert (Hk : JsObject.keys o = Scan.nub eqb tags) by apply (collect_keys_nub eqb eqb_eq).
  assert (Hl : length o = length (Scan.nub eqb tags)).
  { rewrite <- Hk. unfold JsObject.keys. now rewrite length_map. }
  repeat split; [exact Hk | exact Hl | |].
  - rewrite Hl. pose proof (nub_length eqb tags) as H. unfold tags in *.
    now rewrite length_map in H.
  - intros Hnd. rewrite Hl, (nub_NoDup eqb eqb_eq tags Hnd). unfold tags.
    now rewrite length_map.
Qed.

(** When two entries have the same tag, the later one is kept and the
    earlier one is nowhere in the object, nor among the unclassified. *)
Lemma last_wins (pre mid post : list string) (d1 d2 : string) (t : P) :
  Scan.tagOf detect d1 = Some t ->
  Scan.tagOf detect d2 = Some t ->
  (forall e, In e post -> Scan.tagOf detect e <> Some t) ->
  d1 <> d2 ->
  let entries := (pre ++ d1 :: mid ++ d2 :: post)%list in
  let o := Scan.collect eqb (Scan.classified detect entries) [] in
  JsObject.get eqb t o = Some d2
  /\ ~ In d1 (JsObject.values o)
  /\ ~ In d1 (Scan.unclassified detect entries)
  /\ NoDup (JsObject.keys o).
Proof.
  intros H1 H2 Hpost Hne entries o.
  assert (Hnd : NoDup (JsObject.keys o))
    by (apply (collect_NoDup eqb eqb_eq); constructor).
  assert (Hget : JsObject.get eqb t o = Some d2).
  { unfold o, entries.
    replace (pre ++ d1 :: mid ++ d2 :: post)%list
      with ((pre ++ d1 :: mid) ++ d2 :: post)%list
      by (rewrite <- app_assoc; reflexivity).
    rewrite classified_app.
    replace (Scan.classified detect (d2 :: post))
      with ((t, d2) :: Scan.classified detect post)
      by (unfold Scan.classified; simpl; now rewrite H2).
    apply (collect_get_last eqb eqb_eq).
    intros Hin. apply in_map_iff in Hin. destruct Hin as [[p e] [Hp Hin]].
    simpl in Hp. subst p. apply classified_In in Hin. destruct Hin as [Hin Ht].
    exact (Hpost e Hin Ht). }
  repeat split; [exact Hget | | | exact Hnd].
  - intros Hin. unfold JsObject.values in Hin. apply in_map_iff in Hin.
    destruct Hin as [[p e] [He Hin]]. simpl in He. subst e.
    pose proof Hin as Hin'. apply collect_In in Hin'.
    destruct Hin' as [Hc|[]]. apply classified_In in Hc. destruct Hc as [_ Hc].
    rewrite H1 in Hc. injection Hc as <-.
    rewrite (get_In eqb eqb_eq t d1 o Hnd Hin) in Hget. injection Hget as Heq.
    now apply Hne.
  - intros Hin. apply unclassified_In in Hin. destruct Hin as [_ Hin].
    rewrite H1 in Hin. discriminate.
Qed.

End ScanFacts.

Lemma godot_scanBuildDir_spec fs buildDir entries platforms out :
  Godot.subdirectories fs buildDir = Normal entries ->
  Godot.scanBuildDir fs buildDir = Normal (platforms, out) ->
  platforms = Scan.collect Godot.platform_eqb
                (Scan.classified (Godot.detectPlatform fs) entries) []
  /\ filter isUnknown out
     = map (fun e => Unknown (Js.toLowerCase (Path.basename e)))
           (Scan.unclassified (Godot.detectPlatform fs) entries)
  /\ filter isMatched out
     = map (fun pe => Matched (Godot.name (Godot.PLATFORMS (fst pe)))
                              (Js.toLowerCase (Path.basename (snd pe))))
           (Scan.classified (Godot.detectPlatform fs) entries)
  /\ Forall (fun e => exists t, Godot.detectPlatform fs e = Normal t) entries.
Proof.
  unfold Godot.scanBuildDir. intros -> H. cbn [bind] in H.
  exact (godot_scanLoop_spec fs entries _ _ _ _ H).
Qed.

Lemma renpy_scanBuilds_spec fs buildDir entries builds out :
  RenPy.subdirectories fs buildDir = Normal entries ->
  RenPy.scanBuilds fs buildDir = Normal (builds, out) ->
  builds = Scan.collect RenPy.platform_eqb
             (Scan.classified (RenPy.detectPlatform fs) entries) []
  /\ filter isUnknown out
     = map (fun e => Unknown (Path.basename e))
           (Scan.unclassified (RenPy.detectPlatform fs) entries)
  /\ filter isMatched out
     = map (fun pe => Matched (RenPy.name (RenPy.PLATFORMS (fst pe)))
                              (Path.basename (snd pe)))
           (Scan.classified (RenPy.detectPlatform fs) entries)
  /\ Forall (fun e => exists t, RenPy.detectPlatform fs e = Normal t) entries.
Proof.
  unfold RenPy.scanBuilds. intros -> H. cbn [bind] in H.
  exact (renpy_scanLoop_spec fs entries _ _ _ _ H).
Qed.

(** ** The scanners *)

(** C4, as stated, fails: the mapping is keyed by platform tag, so two
    classifiable subdirectories with the same tag leave one entry.  Here
    N = 2 subdirectories are classifiable and the mapping has 1 entry. *)
Lemma C4_counterexample :
  Godot.subdirectories twinBuilds "build" = Normal ["build/alpha"; "build/beta"; "build/notes"]
  /\ Godot.detectPlatform twinBuilds "build/alpha" = Normal (Some Godot.windows)
  /\ Godot.detectPlatform twinBuilds "build/beta" = Normal (Some Godot.windows)
  /\ Godot.detectPlatform twinBuilds "build/notes" = Normal None
  /\ Godot.scanBuildDir twinBuilds "build"
     = Normal ([(Godot.windows, "build/beta")],
               [Matched "Windows Desktop" "alpha"; Matched "Windows Desktop" "beta";
                Unknown "notes"])
  /\ RenPy.scanBuilds twinBuilds "build"
     = Normal ([(RenPy.pc, "build/beta")],
               [Matched "Windows" "alpha"; Text "   🚀 Launcher: game.exe";
                Matched "Windows" "beta"; Text "   🚀 Launcher: game.exe";
                Unknown "notes"]).
Proof. repeat split. Qed.

(** C4, amended: when a scan returns, with N classifiable and M
    unclassifiable immediate subdirectories, the mapping has one entry per
    distinct platform tag among the classifiable ones (so at most N, and
    exactly N when no two of them have the same tag), exactly M "Unknown"
    lines are printed (the scanners return no list of unmatched
    directories), and N + M is the number of immediate subdirectories. *)
Theorem C4_conservation :
  (forall fs buildDir entries platforms out,
      Godot.subdirectories fs buildDir = Normal entries ->
      Godot.scanBuildDir fs buildDir = Normal (platforms, out) ->
      let classified := Scan.classified (Godot.detectPlatform fs) entries in
      let unclassified := Scan.unclassified (Godot.detectPlatform fs) entries in
      length platforms = length (Scan.nub Godot.platform_eqb (map fst classified))
      /\ length platforms <= length classified
      /\ (NoDup (map fst classified) -> length platforms = length classified)
      /\ length (filter isUnknown out) = length unclassified
      /\ length classified + length unclassified = length entries)
  /\ (forall fs buildDir entries builds out,
         RenPy.subdirectories fs buildDir = Normal entries ->
         RenPy.scanBuilds fs buildDir = Normal (builds, out) ->
         let classified := Scan.classified (RenPy.detectPlatform fs) entries in
         let unclassified := Scan.unclassified (RenPy.detectPlatform fs) entries in
         length builds = length (Scan.nub RenPy.platform_eqb (map fst classified))
         /\ length builds <= length classified
         /\ (NoDup (map fst classified) -> length builds = length classified)
         /\ length (filter isUnknown out) = length unclassified
         /\ length classified + length unclassified = length entries).
Proof.
  split.
  - intros fs buildDir entries platforms out Hsub Hscan classified unclassified.
    destruct (godot_scanBuildDir_spec _ _ _ _ _ Hsub Hscan) as [Hp [Ho _]].
    destruct (collect_size Godot.platform_eqb godot_eqb_eq (Godot.detectPlatform fs) entries)
      as [_ [Hl [Hle Heq]]].
    rewrite <- Hp in Hl, Hle, Heq.
    repeat split; [exact Hl | exact Hle | exact Heq | | apply classified_unclassified_length].
    rewrite Ho. apply length_map.
  - intros fs buildDir entries builds out Hsub Hscan classified unclassified.
    destruct (renpy_scanBuilds_spec _ _ _ _ _ Hsub Hscan) as [Hp [Ho _]].
    destruct (collect_size RenPy.platform_eqb renpy_eqb_eq (RenPy.detectPlatform fs) entries)
      as [_ [Hl [Hle Heq]]].
    rewrite <- Hp in Hl, Hle, Heq.
    repeat split; [exact Hl | exact Hle | exact Heq | | apply classified_unclassified_length].
    rewrite Ho. apply length_map.
Qed.

Lemma C4_conservation_witness :
  (length [(Godot.windows, "build/beta")] = 1
   /\ 1 <= 2
   /\ length (filter isUnknown [Matched "Windows Desktop" "alpha";
                                Matched "Windows Desktop" "beta"; Unknown "notes"]) = 1
   /\ 2 + 1 = 3)
  /\ (length [(RenPy.web, "build/a-web"); (RenPy.pc, "build/b-windows")] = 2
      /\ length (filter isUnknown [Matched "Web" "a-web"; IndexSize 42; FileCount 1;
                                   Matched "Windows" "b-windows";
                                   Text "   🚀 Launcher: game.exe"]) = 0
      /\ 2 + 0 = 2).
Proof.
  split.
  - destruct (proj1 C4_conservation twinBuilds "build"
                ["build/alpha"; "build/beta"; "build/notes"] _ _ eq_refl eq_refl)
      as [H1 [H2 [_ [H3 H4]]]].
    exact (conj H1 (conj H2 (conj H3 H4))).
  - destruct (proj2 C4_conservation webFirst "build"
                ["build/a-web"; "build/b-windows"] _ _ eq_refl eq_refl)
      as [_ [_ [H2 [H3 H4]]]].
    refine (conj (H2 _) (conj H3 H4)).
    repeat constructor; simpl; intuition discriminate.
Defined.

Lemma tagOf_Some {P} (detect : string -> completion (option P)) (e : string) (t : P) :
  Scan.tagOf detect e = Some t <-> detect e = Normal (Some t).
Proof.
  unfold Scan.tagOf. destruct (detect e) as [[p|]|m]; split; intros H;
    try discriminate; now inversion H.
Qed.

(** C10: if two subdirectories classify to the same tag, the mapping keeps
    the one enumerated last under that tag, as the only entry of that tag;
    the earlier directory is not a value of the mapping (the commands are
    generated from the mapping, so none is generated for it) and it is not
    among the directories reported as unknown.  Nothing reports the
    replacement: the "matched" lines are one per classifiable directory,
    kept or not, and the "Unknown" lines one per unclassifiable directory. *)
Theorem C10_last_directory_wins :
  (forall fs buildDir pre d1 mid d2 post t platforms out,
      Godot.subdirectories fs buildDir = Normal (pre ++ d1 :: mid ++ d2 :: post)%list ->
      Godot.scanBuildDir fs buildDir = Normal (platforms, out) ->
      Godot.detectPlatform fs d1 = Normal (Some t) ->
      Godot.detectPlatform fs d2 = Normal (Some t) ->
      (forall e, In e post -> Godot.detectPlatform fs e <> Normal (Some t)) ->
      d1 <> d2 ->
      let known := Scan.classified (Godot.detectPlatform fs)
                     (pre ++ d1 :: mid ++ d2 :: post)%list in
      let unknown := Scan.unclassified (Godot.detectPlatform fs)
                       (pre ++ d1 :: mid ++ d2 :: post)%list in
      JsObject.get Godot.platform_eqb t platforms = Some d2
      /\ NoDup (JsObject.keys platforms)
      /\ ~ In d1 (JsObject.values platforms)
      /\ ~ In d1 unknown
      /\ filter isUnknown out
         = map (fun e => Unknown (Js.toLowerCase (Path.basename e))) unknown
      /\ filter isMatched out
         = map (fun pe => Matched (Godot.name (Godot.PLATFORMS (fst pe)))
                                  (Js.toLowerCase (Path.basename (snd pe)))) known)
  /\ (forall fs buildDir pre d1 mid d2 post t builds out,
         RenPy.subdirectories fs buildDir = Normal (pre ++ d1 :: mid ++ d2 :: post)%list ->
         RenPy.scanBuilds fs buildDir = Normal (builds, out) ->
         RenPy.detectPlatform fs d1 = Normal (Some t) ->
         RenPy.detectPlatform fs d2 = Normal (Some t) ->
         (forall e, In e post -> RenPy.detectPlatform fs e <> Normal (Some t)) ->
         d1 <> d2 ->
         let known := Scan.classified (RenPy.detectPlatform fs)
                        (pre ++ d1 :: mid ++ d2 :: post)%list in
         let unknown := Scan.unclassified (RenPy.detectPlatform fs)
                          (pre ++ d1 :: mid ++ d2 :: post)%list in
         JsObject.get RenPy.platform_eqb t builds = Some d2
         /\ NoDup (JsObject.keys builds)
         /\ ~ In d1 (JsObject.values builds)
         /\ ~ In d1 unknown
         /\ filter isUnknown out = map (fun e => Unknown (Path.basename e)) unknown
         /\ filter isMatched out
            = map (fun pe => Matched (RenPy.name (RenPy.PLATFORMS (fst pe)))
                                     (Path.basename (snd pe))) known).
Proof.
  split.
  - intros fs buildDir pre d1 mid d2 post t platforms out Hsub Hscan H1 H2 Hpost Hne
           known unknown.
    destruct (godot_scanBuildDir_spec _ _ _ _ _ Hsub Hscan) as [Hp [Ho [Hm _]]].
    destruct (last_wins Godot.platform_eqb godot_eqb_eq (Godot.detectPlatform fs)
                pre mid post d1 d2 t) as [Hget [Hval [Hunk Hnd]]];
      [now apply tagOf_Some | now apply tagOf_Some
       | intros e Hin Ht; apply tagOf_Some in Ht; exact (Hpost e Hin Ht) | exact Hne |].
    rewrite <- Hp in Hget, Hval, Hnd. now repeat split.
  - intros fs buildDir pre d1 mid d2 post t builds out Hsub Hscan H1 H2 Hpost Hne
           known unknown.
    destruct (renpy_scanBuilds_spec _ _ _ _ _ Hsub Hscan) as [Hp [Ho [Hm _]]].
    destruct (last_wins RenPy.platform_eqb renpy_eqb_eq (RenPy.detectPlatform fs)
                pre mid post d1 d2 t) as [Hget [Hval [Hunk Hnd]]];
      [now apply tagOf_Some | now apply tagOf_Some
       | intros e Hin Ht; apply tagOf_Some in Ht; exact (Hpost e Hin Ht) | exact Hne |].
    rewrite <- Hp in Hget, Hval, Hnd. now repeat split.
Qed.

Lemma C10_last_directory_wins_witness :
  (JsObject.get Godot.platform_eqb Godot.windows [(Godot.windows, "build/beta")]
   = Some "build/beta"
   /\ NoDup (JsObject.keys [(Godot.windows, "build/beta")])
   /\ ~ In "build/alpha" (JsObject.values [(Godot.windows, "build/beta")])
   /\ ~ In "build/alpha" ["build/notes"]
   /\ filter isUnknown [Matched "Windows Desktop" "alpha"; Matched "Windows Desktop" "beta";
                        Unknown "notes"]
      = [Unknown "notes"]
   /\ filter isMatched [Matched "Windows Desktop" "alpha"; Matched "Windows Desktop" "beta";
                        Unknown "notes"]
      = [Matched "Windows Desktop" "alpha"; Matched "Windows Desktop" "beta"])
  /\ (JsObject.get RenPy.platform_eqb RenPy.pc [(RenPy.pc, "build/beta")] = Some "build/beta"
      /\ NoDup (JsObject.keys [(RenPy.pc, "build/beta")])
      /\ ~ In "build/alpha" (JsObject.values [(RenPy.pc, "build/beta")])
      /\ ~ In "build/alpha" ["build/notes"]
      /\ filter isUnknown [Matched "Windows" "alpha"; Text "   🚀 Launcher: game.exe";
                           Matched "Windows" "beta"; Text "   🚀 Launcher: game.exe";
                           Unknown "notes"]
         = [Unknown "notes"]
      /\ filter isMatched [Matched "Windows" "alpha"; Text "   🚀 Launcher: game.exe";
                           Matched "Windows" "beta"; Text "   🚀 Launcher: game.exe";
                           Unknown "notes"]
         = [Matched "Windows" "alpha"; Matched "Windows" "beta"]).
Proof.
  split.
  - refine (proj1 C10_last_directory_wins twinBuilds "build" [] "build/alpha" []
              "build/beta" ["build/notes"] Godot.windows _ _
              eq_refl eq_refl eq_refl eq_refl _ _).
    + intros e [<-|[]]. discriminate.
    + discriminate.
  - refine (proj2 C10_last_directory_wins twinBuilds "build" [] "build/alpha" []
              "build/beta" ["build/notes"] RenPy.pc _ _
              eq_refl eq_refl eq_refl eq_refl _ _).
    + intros e [<-|[]]. discriminate.
    + discriminate.
Defined.

(** ** Process exit of the two scanners *)

(** C8: [godot-export.js] and [renpy-publish.js] end with exit code 1 when a
    positional argument (build root, destination) is missing or empty, when
    the build root does not exist, and when the scan classified none of the
    build root's subdirectories. *)
Theorem C8_fatal_exits :
  (forall fs argv,
      (Js.truthyOpt (argvAt argv 2) = false \/ Js.truthyOpt (argvAt argv 3) = false)
      \/ (exists buildDir, argvAt argv 2 = Some buildDir /\ existsSync fs buildDir = false)
      \/ (exists buildDir entries platforms out,
             argvAt argv 2 = Some buildDir
             /\ Godot.subdirectories fs buildDir = Normal entries
             /\ Godot.scanBuildDir fs buildDir = Normal (platforms, out)
             /\ Scan.classified (Godot.detectPlatform fs) entries = []) ->
      exitCode (fst (Godot.main fs argv)) = 1 /\ exitCode (fst (Godot.main fs argv)) <> 0)
  /\ (forall fs argv,
         (Js.truthyOpt (argvAt argv 2) = false \/ Js.truthyOpt (argvAt argv 3) = false)
         \/ (exists buildDir, argvAt argv 2 = Some buildDir /\ existsSync fs buildDir = false)
         \/ (exists buildDir entries builds out,
                argvAt argv 2 = Some buildDir
                /\ RenPy.subdirectories fs buildDir = Normal entries
                /\ RenPy.scanBuilds fs buildDir = Normal (builds, out)
                /\ Scan.classified (RenPy.detectPlatform fs) entries = []) ->
         exitCode (fst (RenPy.main fs argv)) = 1 /\ exitCode (fst (RenPy.main fs argv)) <> 0).
Proof.
  split; intros fs argv H.
  - assert (E : exitCode (fst (Godot.main fs argv)) = 1); [|split; [exact E | now rewrite E]].
    unfold Godot.main.
    destruct (argvAt argv 2) as [buildDir|] eqn:A2; [|reflexivity].
    destruct (argvAt argv 3) as [target|] eqn:A3; [|reflexivity].
    cbn [Js.truthyOpt] in H.
    destruct (Js.truthy buildDir) eqn:T2; [|reflexivity].
    destruct (Js.truthy target) eqn:T3; [|reflexivity].
    cbn [negb orb].
    destruct (existsSync fs buildDir) eqn:Ex; [|reflexivity].
    cbn [negb].
    destruct H as [[H|H]|[[b [Hb He]]|[b [entries [platforms [out [Hb [Hsub [Hscan Hnone]]]]]]]]];
      try discriminate.
    + injection Hb as <-. rewrite Ex in He. discriminate.
    + injection Hb as <-. rewrite Hscan.
      destruct (godot_scanBuildDir_spec _ _ _ _ _ Hsub Hscan) as [Hp _].
      rewrite Hnone in Hp. simpl in Hp. subst platforms. reflexivity.
  - unfold RenPy.main. cbn [fst exitCode]. split; [reflexivity | discriminate].
Qed.

Lemma C8_fatal_exits_witness :
  (exitCode (fst (Godot.main onlyNotes ["node"; "godot-export.js"; "build"])) = 1
   /\ exitCode (fst (Godot.main onlyNotes ["node"; "godot-export.js"; "dist"; "alice/mygame"])) = 1
   /\ exitCode (fst (Godot.main onlyNotes ["node"; "godot-export.js"; "build"; "alice/mygame"])) = 1)
  /\ (exitCode (fst (RenPy.main onlyNotes ["node"; "renpy-publish.js"])) = 1
      /\ exitCode (fst (RenPy.main onlyNotes ["node"; "renpy-publish.js"; "dist"; "alice/myvn"])) = 1
      /\ exitCode (fst (RenPy.main onlyNotes ["node"; "renpy-publish.js"; "build"; "alice/myvn"])) = 1).
Proof.
  split; (split; [|split]).
  - apply (proj1 C8_fatal_exits onlyNotes ["node"; "godot-export.js"; "build"]).
    left. right. reflexivity.
  - apply (proj1 C8_fatal_exits onlyNotes ["node"; "godot-export.js"; "dist"; "alice/mygame"]).
    right. left. exists "dist". split; reflexivity.
  - apply (proj1 C8_fatal_exits onlyNotes ["node"; "godot-export.js"; "build"; "alice/mygame"]).
    right. right.
    exists "build", ["build/notes"; "build/docs"], [], [Unknown "notes"; Unknown "docs"].
    repeat split.
  - apply (proj2 C8_fatal_exits onlyNotes ["node"; "renpy-publish.js"]).
    left. left. reflexivity.
  - apply (proj2 C8_fatal_exits onlyNotes ["node"; "renpy-publish.js"; "dist"; "alice/myvn"]).
    right. left. exists "dist". split; reflexivity.
  - apply (proj2 C8_fatal_exits onlyNotes ["node"; "renpy-publish.js"; "build"; "alice/myvn"]).
    right. right.
    exists "build", ["build/notes"; "build/docs"], [], [Unknown "notes"; Unknown "docs"].
    repeat split.
Defined.

(** ** The channel publisher *)

Section PublishFacts.
Context {W : Type}.
Variable host : Publish.Host W.
Variables (user game : string) (opts : Publish.options).

Let pushAll := Publish.pushAll host user game opts.
Let pushChannel := fun c p => Publish.pushChannel host user game c p opts.

(** The results so far are only ever extended. *)
Lemma pushAll_acc (chans : list (string * string)) :
  forall results s,
    pushAll chans results s
    = ((results ++ fst (pushAll chans [] s))%list, snd (pushAll chans [] s)).
Proof.
  unfold pushAll.
  induction chans as [|[c p] rest IH]; intros results s; cbn [Publish.pushAll].
  - now rewrite app_nil_r.
  - destruct (Publish.pushChannel host user game c p opts s) as [ok s1].
    rewrite (IH (results ++ _)%list), (IH ([] ++ _)%list). cbn [fst snd].
    now rewrite <- app_assoc.
Qed.

Lemma pushAll_cons (c p : string) (rest : list (string * string)) (s : Publish.state W) :
  pushAll ((c, p) :: rest) [] s
  = (Publish.mkResult c (fst (pushChannel c p s))
       :: fst (pushAll rest [] (snd (pushChannel c p s))),
     snd (pushAll rest [] (snd (pushChannel c p s)))).
Proof.
  unfold pushAll, pushChannel. cbn [Publish.pushAll].
  destruct (Publish.pushChannel host user game c p opts s) as [ok s1].
  fold pushAll. rewrite pushAll_acc. reflexivity.
Qed.


(** One result per target, in the order of the targets. *)
Lemma pushAll_channels (chans : list (string * string)) (s : Publish.state W) :
  map Publish.res_channel (fst (pushAll chans [] s)) = map fst chans.
Proof.
  revert s. induction chans as [|[c p] rest IH]; intros s; [reflexivity|].
  rewrite pushAll_cons. simpl. now rewrite IH.
Qed.

(** The outcome of one attempt: the source path exists and the transfer
    tool ran without an exception. *)
Lemma pushChannel_outcome (c p : string) (s : Publish.state W) :
  fst (pushChannel c p s)
  = Publish.existsSync host (Publish.world s) p
    && match fst (Publish.execSync host (Publish.world s)
                    (Publish.pushCommand (user ++ "/" ++ game ++ ":" ++ c) p opts)) with
       | Normal _ => true
       | Throws _ => false
       end.
Proof.
  unfold pushChannel, Publish.pushChannel, Publish.run, Publish.log, Publish.emit.
  destruct (Publish.existsSync host (Publish.world s) p); cbn [negb andb Publish.world];
    [|reflexivity].
  destruct (Publish.execSync host (Publish.world s) _) as [[out|m] w']; reflexivity.
Qed.

(** What one attempt adds to the trace: either the warning about the missing
    source path and nothing else, or the opening line, the one process it
    starts, and the line that tells how it ended. *)
Lemma pushChannel_trace (c p : string) (s : Publish.state W) :
  let cmd := Publish.pushCommand (user ++ "/" ++ game ++ ":" ++ c) p opts in
  Publish.trace (snd (pushChannel c p s))
  = (Publish.trace s
     ++ if Publish.existsSync host (Publish.world s) p then
          [Publish.Log Publish.info ("Pushing " ++ c ++ " from " ++ p ++ "...");
           Publish.Exec cmd;
           match fst (Publish.execSync host (Publish.world s) cmd) with
           | Normal _ => Publish.Log Publish.success (c ++ " uploaded successfully")
           | Throws m => Publish.Log Publish.error ("Failed to push " ++ c ++ ": " ++ m)
           end]
        else [Publish.Log Publish.warn ("Source path not found: " ++ p)])%list.
Proof.
  unfold pushChannel, Publish.pushChannel, Publish.run, Publish.log, Publish.emit.
  destruct (Publish.existsSync host (Publish.world s) p);
    cbn [negb Publish.world Publish.trace]; [|reflexivity].
  destruct (Publish.execSync host (Publish.world s) _) as [[out|m] w'];
    cbn [fst snd Publish.trace]; rewrite <- !app_assoc; reflexivity.
Qed.

Lemma executed_app (t1 t2 : list Publish.event) :
  Publish.executed (t1 ++ t2) = (Publish.executed t1 ++ Publish.executed t2)%list.
Proof. apply flat_map_app. Qed.

(** The processes the loop starts: one per target whose source path exists,
    each announced by one "Pushing" line and started with the command
    [pushCommand] builds for it; at least as many as there are successes and
    at most as many as there are targets. *)
Lemma pushAll_executed (chans : list (string * string)) :
  forall s, exists added,
    Publish.trace (snd (pushAll chans [] s)) = (Publish.trace s ++ added)%list
    /\ Forall (fun cmd => exists c p,
                  In (c, p) chans
                  /\ cmd = Publish.pushCommand (user ++ "/" ++ game ++ ":" ++ c) p opts)
              (Publish.executed added)
    /\ length (filter Publish.isPushing added) = length (Publish.executed added)
    /\ length (filter Publish.res_success (fst (pushAll chans [] s)))
       <= length (Publish.executed added)
    /\ length (Publish.executed added) <= length chans.
Proof.
  induction chans as [|[c p] rest IH]; intros s.
  - exists []. simpl. rewrite app_nil_r. repeat split; (constructor || lia).
  - rewrite pushAll_cons. cbn [fst snd].
    destruct (IH (snd (pushChannel c p s))) as [added [Ht [Hall [Hlog [Hlo Hhi]]]]].
    assert (Hall' : Forall (fun cmd => exists c0 p0,
                  In (c0, p0) ((c, p) :: rest)
                  /\ cmd = Publish.pushCommand (user ++ "/" ++ game ++ ":" ++ c0) p0 opts)
              (Publish.executed added)).
    { eapply Forall_impl; [|exact Hall]. intros cmd [c0 [p0 [Hin Hcmd]]].
      exists c0, p0. split; [now right | exact Hcmd]. }
    pose proof (pushChannel_outcome c p s) as Hout.
    pose proof (pushChannel_trace c p s) as Htr. cbn zeta in Htr.
    destruct (Publish.existsSync host (Publish.world s) p).
    + eexists. split; [rewrite Ht, Htr, <- app_assoc; reflexivity|].
      rewrite executed_app, filter_app, !length_app.
      replace (Publish.executed _)
        with [Publish.pushCommand (user ++ "/" ++ game ++ ":" ++ c) p opts]
        by (unfold Publish.executed; cbn [flat_map app];
            now destruct (fst (Publish.execSync host (Publish.world s) _))).
      replace (length (filter Publish.isPushing _)) with 1
        by (now destruct (fst (Publish.execSync host (Publish.world s) _))).
      cbn [app filter Publish.res_success length].
      repeat split.
      * constructor; [exists c, p; split; [now left | reflexivity] | exact Hall'].
      * lia.
      * destruct (fst (pushChannel c p s)); simpl; lia.
      * lia.
    + cbn [andb] in Hout.
      eexists. split; [rewrite Ht, Htr, <- app_assoc; reflexivity|].
      rewrite executed_app, filter_app.
      cbn [Publish.executed Publish.isPushing flat_map app filter Publish.res_success].
      rewrite Hout. repeat split; [exact Hall' | exact Hlog | exact Hlo | simpl; lia].
Qed.

Lemma summary_trace (results : list Publish.result) (s : Publish.state W) :
  Publish.trace (Publish.summary results s)
  = (Publish.trace s ++ map Publish.summaryLine results)%list
  /\ Publish.world (Publish.summary results s) = Publish.world s.
Proof.
  unfold Publish.summary. revert s.
  induction results as [|r rest IH]; intros s; simpl.
  - now rewrite app_nil_r.
  - destruct (IH (Publish.emit (Publish.summaryLine r) s)) as [Ht Hw].
    rewrite Ht, Hw. simpl. now rewrite <- app_assoc.
Qed.

End PublishFacts.

Lemma includes_app_r (needle a s : string) :
  Js.includes needle s = true -> Js.includes needle (a ++ s) = true.
Proof.
  rewrite !includes_spec. intros [x [y ->]]. exists (a ++ x), y.
  now rewrite append_assoc.
Qed.

(** With [dryRun] set, the command line carries the flag. *)
Lemma pushCommand_dryRun (target sourcePath : string) (opts : Publish.options) :
  Publish.opt_dryRun opts = true ->
  Js.includes " --dry-run" (Publish.pushCommand target sourcePath opts) = true.
Proof.
  intros H. unfold Publish.pushCommand. rewrite H.
  do 9 apply includes_app_r.
  apply (includes_app " --dry-run" EmptyString).
Qed.

Section MainFacts.
Context {W : Type}.
Variable host : Publish.Host W.

Lemma checkButler_true (s s1 : Publish.state W) :
  Publish.checkButler host s = (true, s1) ->
  exists v, Publish.trace s1
            = (Publish.trace s
               ++ [Publish.Exec "butler -v";
                   Publish.Log Publish.success ("Butler version: " ++ v)])%list.
Proof.
  unfold Publish.checkButler, Publish.run, Publish.log, Publish.emit.
  destruct (Publish.execSync host (Publish.world s) "butler -v") as [[v|m] w'];
    intros H; inversion H; subst.
  exists (JsText.trim v). cbn [Publish.trace]. now rewrite <- app_assoc.
Qed.

Lemma checkStatus_trace (u g : string) (s : Publish.state W) :
  exists closing,
    Publish.trace (Publish.checkStatus host u g s)
    = (Publish.trace s
       ++ [Publish.Log Publish.info ("Checking status for " ++ u ++ "/" ++ g ++ "...");
           Publish.Exec (Publish.statusCommand u g)] ++ closing)%list
    /\ Publish.executed closing = [].
Proof.
  unfold Publish.checkStatus, Publish.run, Publish.log, Publish.emit.
  cbn [Publish.world Publish.trace].
  destruct (Publish.execSync host (Publish.world s) _) as [[out|m] w'];
    cbn [Publish.trace].
  - exists []. split; [now rewrite <- app_assoc | reflexivity].
  - exists [Publish.Log Publish.warn "Status check failed"].
    split; [now rewrite <- !app_assoc | reflexivity].
Qed.

(** The loop over options whose [ignore] has no [forEach]: it runs to its
    end exactly when no source path exists, and then it has warned once per
    target and recorded a failure for each. *)
Lemma pushAllNoForEach_Normal (chans : list (string * string)) :
  forall results0 (s : Publish.state W) results s3,
    Publish.pushAllNoForEach host chans results0 s = (Normal results, s3) ->
    results = (results0 ++ map (fun cp => Publish.mkResult (fst cp) false) chans)%list
    /\ s3 = Publish.mkState (Publish.world s)
              (Publish.trace s
               ++ map (fun cp => Publish.Log Publish.warn ("Source path not found: " ++ snd cp))
                      chans)
    /\ forall cp, In cp chans -> Publish.existsSync host (Publish.world s) (snd cp) = false.
Proof.
  induction chans as [|[c p] rest IH]; intros results0 s results s3 H.
  - simpl in H. inversion H; subst. rewrite !app_nil_r.
    split; [reflexivity|]. split; [now destruct s3 | intros cp []].
  - cbn [Publish.pushAllNoForEach] in H. unfold Publish.pushChannelNoForEach in H.
    destruct (Publish.existsSync host (Publish.world s) p) eqn:Hex; cbn [negb] in H;
      [discriminate|].
    destruct (IH _ _ _ _ H) as [Hr [Hs Hall]].
    cbn [Publish.log Publish.emit Publish.world Publish.trace] in Hr, Hs, Hall.
    split; [|split].
    + rewrite Hr, <- app_assoc. reflexivity.
    + rewrite Hs, <- app_assoc. reflexivity.
    + intros cp [<-|Hin]; [exact Hex | now apply Hall].
Qed.

(** When the exception leaves the loop, it comes from the first target whose
    source path exists: the targets before it have been warned about, no
    process has been started, and the targets after it are not looked at. *)
Lemma pushAllNoForEach_Throws (chans : list (string * string)) :
  forall results0 (s : Publish.state W) m s3,
    Publish.pushAllNoForEach host chans results0 s = (Throws m, s3) ->
    exists pre cp post,
      chans = (pre ++ cp :: post)%list
      /\ (forall x, In x pre -> Publish.existsSync host (Publish.world s) (snd x) = false)
      /\ Publish.existsSync host (Publish.world s) (snd cp) = true
      /\ m = "opts.ignore.forEach is not a function"
      /\ s3 = Publish.mkState (Publish.world s)
                (Publish.trace s
                 ++ map (fun x => Publish.Log Publish.warn
                                    ("Source path not found: " ++ snd x)) pre).
Proof.
  induction chans as [|[c p] rest IH]; intros results0 s m s3 H.
  - simpl in H. inversion H.
  - cbn [Publish.pushAllNoForEach] in H. unfold Publish.pushChannelNoForEach in H.
    destruct (Publish.existsSync host (Publish.world s) p) eqn:Hex; cbn [negb] in H.
    + inversion H; subst. exists [], (c, p), rest. cbn [app map].
      rewrite app_nil_r. repeat split; [intros x [] | exact Hex | now destruct s3].
    + destruct (IH _ _ _ _ H) as [pre [cp [post [Hc [Hpre [Hcp [Hm Hs]]]]]]].
      cbn [Publish.log Publish.emit Publish.world Publish.trace] in Hpre, Hcp, Hs.
      exists ((c, p) :: pre), cp, post. cbn [app map].
      split; [now rewrite Hc|]. split; [|split; [exact Hcp|split; [exact Hm|]]].
      * intros x [<-|Hin]; [exact Hex | now apply Hpre].
      * rewrite Hs, <- app_assoc. reflexivity.
Qed.

Lemma executed_warnings (l : list (string * string)) :
  Publish.executed
    (map (fun x => Publish.Log Publish.warn ("Source path not found: " ++ snd x)) l) = [].
Proof. induction l as [|x l IH]; [reflexivity | exact IH]. Qed.

(** What has happened when [main] got to the end of the publish loop. *)
Lemma main_inv (argv : list string) (w : W) (t : termination)
      (results : list Publish.result) (s : Publish.state W) :
  Publish.main host argv w = (t, Some results, s) ->
  exists configPath cfg u g s1 s3,
    argvAt argv 2 = Some configPath
    /\ Publish.readConfig host w configPath = Normal cfg
    /\ Publish.user cfg = Some u /\ Publish.game cfg = Some g
    /\ Publish.checkButler host (Publish.mkState w []) = (true, s1)
    /\ let dryRun := Js.arrayIncludes "--dry-run" argv in
       let chans := match Publish.channels cfg with Some c => c | None => [] end in
       let s2 := if dryRun
                 then Publish.log "DRY RUN MODE - no actual uploads" Publish.warn s1
                 else s1 in
       t = Returned
       /\ chans <> []
       /\ match Publish.optionsOf cfg dryRun with
          | Some opts => Publish.pushAll host u g opts chans [] s2 = (results, s3)
          | None => Publish.pushAllNoForEach host chans [] s2 = (Normal results, s3)
          end
       /\ s = Publish.checkStatus host u g
                (Publish.summary results
                   (Publish.log "=== SUMMARY ===" Publish.info
                      (Publish.emit (Publish.Print EmptyString) s3))).
Proof.
  unfold Publish.main.
  destruct (negb (Js.truthyOpt (argvAt argv 2))); [discriminate|].
  destruct (argvAt argv 2) as [configPath|]; [|discriminate].
  destruct (negb (Publish.existsSync host w configPath)); [discriminate|].
  destruct (Publish.readConfig host w configPath) as [cfg|m] eqn:Hcfg; [|discriminate].
  destruct (negb _ || negb _); [discriminate|].
  destruct (Publish.user cfg) as [u|] eqn:Hu; [|discriminate].
  destruct (Publish.game cfg) as [g|] eqn:Hg; [|discriminate].
  destruct (Publish.checkButler host (Publish.mkState w [])) as [butler s1] eqn:Hb.
  destruct butler; cbn [negb]; [|discriminate].
  destruct (Nat.eqb _ 0) eqn:Hlen; [discriminate|].
  assert (Hne : match Publish.channels cfg with Some c => c | None => [] end <> []).
  { intros E. rewrite E in Hlen. discriminate. }
  destruct (Publish.optionsOf cfg _) as [opts|] eqn:Hopts.
  - destruct (Publish.pushAll host u g opts _ [] _) as [res s3] eqn:Hrun.
    intros H. inversion H; subst.
    exists configPath, cfg, u, g, s1, s3. cbn zeta. rewrite Hopts.
    repeat split; reflexivity || assumption.
  - destruct (Publish.pushAllNoForEach host _ [] _) as [[res|m] s3] eqn:Hrun;
      [|discriminate].
    intros H. inversion H; subst.
    exists configPath, cfg, u, g, s1, s3. cbn zeta. rewrite Hopts.
    repeat split; reflexivity || assumption.
Qed.

End MainFacts.

Lemma executed_summary (results : list Publish.result) :
  Publish.executed (map Publish.summaryLine results) = [].
Proof. induction results as [|r rest IH]; [reflexivity | exact IH]. Qed.

(** The whole trace of a run that got to the end of the publish loop. *)
Lemma main_trace {W} (host : Publish.Host W) (argv : list string) (w : W)
      (t : termination) (results : list Publish.result) (s : Publish.state W) :
  Publish.main host argv w = (t, Some results, s) ->
  exists cfg u g v added closing,
    let dryRun := Js.arrayIncludes "--dry-run" argv in
    let chans := match Publish.channels cfg with Some c => c | None => [] end in
    map Publish.res_channel results = map fst chans
    /\ Publish.trace s
       = ([Publish.Exec "butler -v"; Publish.Log Publish.success ("Butler version: " ++ v)]
          ++ (if dryRun
              then [Publish.Log Publish.warn "DRY RUN MODE - no actual uploads"] else [])
          ++ added
          ++ [Publish.Print EmptyString; Publish.Log Publish.info "=== SUMMARY ==="]
          ++ map Publish.summaryLine results
          ++ [Publish.Log Publish.info ("Checking status for " ++ u ++ "/" ++ g ++ "...");
              Publish.Exec (Publish.statusCommand u g)]
          ++ closing)%list
    /\ Publish.executed closing = []
    /\ Forall (fun cmd => exists c p opts,
                  In (c, p) chans
                  /\ Publish.opt_dryRun opts = dryRun
                  /\ cmd = Publish.pushCommand (u ++ "/" ++ g ++ ":" ++ c) p opts)
              (Publish.executed added)
    /\ length (filter Publish.isPushing added) = length (Publish.executed added)
    /\ length (filter Publish.res_success results) <= length (Publish.executed added)
    /\ length (Publish.executed added) <= length results.
Proof.
  intros H. destruct (main_inv host argv w t results s H)
    as [configPath [cfg [u [g [s1 [s3 [_ [_ [_ [_ [Hb Hrun]]]]]]]]]]].
  cbn zeta in Hrun. destruct Hrun as [_ [_ [Hloop Hs]]].
  destruct (checkButler_true host _ _ Hb) as [v Hv]. cbn [Publish.trace app] in Hv.
  set (dryRun := Js.arrayIncludes "--dry-run" argv) in *.
  set (chans := match Publish.channels cfg with Some c => c | None => [] end) in *.
  set (s2 := if dryRun then Publish.log "DRY RUN MODE - no actual uploads" Publish.warn s1
             else s1) in *.
  assert (Hs2 : Publish.trace s2
                = ([Publish.Exec "butler -v";
                    Publish.Log Publish.success ("Butler version: " ++ v)]
                   ++ (if dryRun
                       then [Publish.Log Publish.warn "DRY RUN MODE - no actual uploads"]
                       else []))%list).
  { unfold s2. destruct dryRun; unfold Publish.log, Publish.emit; cbn [Publish.trace];
      rewrite Hv; [reflexivity | now rewrite app_nil_r]. }
  destruct (checkStatus_trace host u g
              (Publish.summary results
                 (Publish.log "=== SUMMARY ===" Publish.info
                    (Publish.emit (Publish.Print EmptyString) s3))))
    as [closing [Hc Hcl]].
  assert (Hloop' : exists added,
             Publish.trace s3 = (Publish.trace s2 ++ added)%list
             /\ map Publish.res_channel results = map fst chans
             /\ Forall (fun cmd => exists c p opts,
                           In (c, p) chans
                           /\ Publish.opt_dryRun opts = dryRun
                           /\ cmd = Publish.pushCommand (u ++ "/" ++ g ++ ":" ++ c) p opts)
                       (Publish.executed added)
             /\ length (filter Publish.isPushing added) = length (Publish.executed added)
             /\ length (filter Publish.res_success results) <= length (Publish.executed added)
             /\ length (Publish.executed added) <= length chans).
  { unfold Publish.optionsOf in Hloop.
    assert (Htyped : forall opts,
               Publish.opt_dryRun opts = dryRun ->
               Publish.pushAll host u g opts chans [] s2 = (results, s3) ->
               exists added,
                 Publish.trace s3 = (Publish.trace s2 ++ added)%list
                 /\ map Publish.res_channel results = map fst chans
                 /\ Forall (fun cmd => exists c p opts,
                               In (c, p) chans
                               /\ Publish.opt_dryRun opts = dryRun
                               /\ cmd = Publish.pushCommand (u ++ "/" ++ g ++ ":" ++ c) p opts)
                           (Publish.executed added)
                 /\ length (filter Publish.isPushing added) = length (Publish.executed added)
                 /\ length (filter Publish.res_success results)
                    <= length (Publish.executed added)
                 /\ length (Publish.executed added) <= length chans).
    { intros opts Hd Hrun.
      destruct (pushAll_executed host u g opts chans s2)
        as [added [Ht [Hall [Hlog [Hlo Hhi]]]]].
      pose proof (pushAll_channels host u g opts chans s2) as Hch.
      rewrite Hrun in Ht, Hlo, Hch. cbn [fst snd] in Ht, Hlo, Hch.
      exists added. repeat split; try assumption.
      eapply Forall_impl; [|exact Hall]. intros cmd [c [p [Hin Hcmd]]].
      exists c, p, opts. now repeat split. }
    destruct (Publish.ignore cfg) as [|patterns|].
    - eapply Htyped; [|exact Hloop]. reflexivity.
    - eapply Htyped; [|exact Hloop]. reflexivity.
    - destruct (pushAllNoForEach_Normal host chans [] s2 results s3 Hloop)
        as [Hr [Hs3 _]].
      exists (map (fun cp => Publish.Log Publish.warn ("Source path not found: " ++ snd cp))
                  chans).
      assert (Hex : forall l : list (string * string),
                 Publish.executed
                   (map (fun cp => Publish.Log Publish.warn
                                     ("Source path not found: " ++ snd cp)) l) = []).
      { induction l as [|x l IHl]; [reflexivity | exact IHl]. }
      assert (Hpu : forall l : list (string * string),
                 filter Publish.isPushing
                   (map (fun cp => Publish.Log Publish.warn
                                     ("Source path not found: " ++ snd cp)) l) = []).
      { induction l as [|x l IHl]; [reflexivity | exact IHl]. }
      assert (Hno : forall l : list (string * string),
                 filter Publish.res_success
                   (map (fun cp => Publish.mkResult (fst cp) false) l) = []).
      { induction l as [|x l IHl]; [reflexivity | exact IHl]. }
      rewrite Hex, Hpu. cbn [app] in Hr. subst results s3. cbn [Publish.trace].
      rewrite Hno. repeat split.
      + rewrite map_map. reflexivity.
      + constructor.
      + simpl. lia.
      + simpl. lia. }
  destruct Hloop' as [added [Ht [Hch [Hall [Hlog [Hlo Hhi]]]]]].
  exists cfg, u, g, v, added, closing. cbn zeta. fold dryRun chans.
  split; [exact Hch|].
  split; [|split; [exact Hcl|split; [exact Hall|split; [exact Hlog|split; [exact Hlo|]]]]].
  - rewrite Hs, Hc.
    rewrite (proj1 (summary_trace results _)).
    unfold Publish.log, Publish.emit. cbn [Publish.trace]. rewrite Ht, Hs2.
    rewrite <- !app_assoc. reflexivity.
  - rewrite <- (length_map Publish.res_channel results), Hch, length_map. exact Hhi.
Qed.

(** ** The attempts of a run, target by target *)

Lemma pushCommand_startsWith (target sourcePath : string) (opts : Publish.options) :
  Js.startsWith ("butler push " ++ dquote ++ sourcePath ++ dquote ++ " "
                 ++ dquote ++ target ++ dquote)
                (Publish.pushCommand target sourcePath opts) = true.
Proof.
  apply startsWith_spec. unfold Publish.pushCommand.
  eexists. rewrite !append_assoc. reflexivity.
Qed.

Section AttemptFacts.
Context {W : Type}.
Variable host : Publish.Host W.
Variables (user game : string).

Lemma pushChannel_attempt (opts : Publish.options) (c p : string) (s : Publish.state W) :
  exists block,
    Publish.trace (snd (Publish.pushChannel host user game c p opts s))
    = (Publish.trace s ++ block)%list
    /\ attemptOf user game (c, p)
         (Publish.mkResult c (fst (Publish.pushChannel host user game c p opts s)), block).
Proof.
  pose proof (pushChannel_outcome host user game opts c p s) as Hout.
  pose proof (pushChannel_trace host user game opts c p s) as Htr.
  cbn zeta in Htr. cbn beta in Hout, Htr.
  pose proof (pushCommand_startsWith (user ++ "/" ++ game ++ ":" ++ c) p opts) as Hcmd.
  unfold attemptOf.
  destruct (Publish.existsSync host (Publish.world s) p).
  - cbn [andb] in Hout.
    destruct (fst (Publish.execSync host (Publish.world s) _)) as [out|m].
    + eexists. split; [exact Htr|]. cbn [fst snd Publish.res_channel Publish.res_success].
      split; [reflexivity|]. right. eexists. split; [exact Hcmd|].
      left. split; [exact Hout | reflexivity].
    + eexists. split; [exact Htr|]. cbn [fst snd Publish.res_channel Publish.res_success].
      split; [reflexivity|]. right. eexists. split; [exact Hcmd|].
      right. split; [exact Hout|]. exists m. reflexivity.
  - cbn [andb] in Hout. eexists. split; [exact Htr|].
    cbn [fst snd Publish.res_channel Publish.res_success].
    split; [reflexivity|]. left. split; [exact Hout | reflexivity].
Qed.

(** The loop makes one attempt per target, in the order of the targets, and
    records the outcome of each. *)
Lemma pushAll_attempts (opts : Publish.options) (chans : list (string * string)) :
  forall s, exists attempts,
    fst (Publish.pushAll host user game opts chans [] s) = map fst attempts
    /\ Publish.trace (snd (Publish.pushAll host user game opts chans [] s))
       = (Publish.trace s ++ concat (map snd attempts))%list
    /\ Forall2 (attemptOf user game) chans attempts.
Proof.
  induction chans as [|[c p] rest IH]; intros s.
  - exists []. simpl. rewrite app_nil_r. repeat split. constructor.
  - rewrite pushAll_cons. cbn [fst snd].
    destruct (pushChannel_attempt opts c p s) as [block [Hb Ha]].
    destruct (IH (snd (Publish.pushChannel host user game c p opts s)))
      as [attempts [Hr [Ht Hall]]].
    exists ((Publish.mkResult c (fst (Publish.pushChannel host user game c p opts s)), block)
            :: attempts).
    split; [|split].
    + cbn [map fst]. now rewrite Hr.
    + rewrite Ht, Hb. cbn [map snd concat]. now rewrite <- app_assoc.
    + constructor; [exact Ha | exact Hall].
Qed.

(** A loop that finds no source path: its attempts are the warnings. *)
Lemma missing_attempts (chans : list (string * string)) :
  let attempts :=
    map (fun cp => (Publish.mkResult (fst cp) false,
                    [Publish.Log Publish.warn ("Source path not found: " ++ snd cp)]))
        chans in
  map fst attempts = map (fun cp => Publish.mkResult (fst cp) false) chans
  /\ concat (map snd attempts)
     = map (fun cp => Publish.Log Publish.warn ("Source path not found: " ++ snd cp)) chans
  /\ Forall2 (attemptOf user game) chans attempts.
Proof.
  cbn zeta. induction chans as [|cp rest [IH1 [IH2 IH3]]].
  - repeat split. constructor.
  - cbn [map fst snd concat app]. rewrite IH1, IH2. repeat split.
    constructor; [|exact IH3]. cbn [fst snd Publish.res_channel Publish.res_success].
    split; [reflexivity|]. left. now split.
Qed.

End AttemptFacts.

(** A run that got to the end of the publish loop, target by target. *)
Lemma main_attempts {W} (host : Publish.Host W) (argv : list string) (w : W)
      (t : termination) (results : list Publish.result) (s : Publish.state W) :
  Publish.main host argv w = (t, Some results, s) ->
  exists configPath cfg u g before attempts closing,
    argvAt argv 2 = Some configPath
    /\ Publish.readConfig host w configPath = Normal cfg
    /\ Publish.user cfg = Some u /\ Publish.game cfg = Some g
    /\ results = map fst attempts
    /\ Forall2 (attemptOf u g)
               (match Publish.channels cfg with Some c => c | None => [] end) attempts
    /\ Publish.executed before = ["butler -v"]
    /\ Publish.executed closing = []
    /\ Publish.trace s
       = (before
          ++ concat (map snd attempts)
          ++ [Publish.Print EmptyString; Publish.Log Publish.info "=== SUMMARY ==="]
          ++ map (fun r => Publish.Log
                             (if Publish.res_success r then Publish.success
                              else Publish.error)
                             (Publish.res_channel r ++ ": "
                              ++ (if Publish.res_success r then "✅ OK" else "❌ FAILED")))
                 results
          ++ [Publish.Log Publish.info ("Checking status for " ++ u ++ "/" ++ g ++ "...");
              Publish.Exec (Publish.statusCommand u g)]
          ++ closing)%list.
Proof.
  intros H. destruct (main_inv host argv w t results s H)
    as [configPath [cfg [u [g [s1 [s3 [Ha [Hcfg [Hu [Hg [Hb Hrun]]]]]]]]]]].
  cbn zeta in Hrun. destruct Hrun as [_ [_ [Hloop Hs]]].
  destruct (checkButler_true host _ _ Hb) as [v Hv]. cbn [Publish.trace app] in Hv.
  set (dryRun := Js.arrayIncludes "--dry-run" argv) in *.
  set (chans := match Publish.channels cfg with Some c => c | None => [] end) in *.
  set (s2 := if dryRun then Publish.log "DRY RUN MODE - no actual uploads" Publish.warn s1
             else s1) in *.
  assert (Hs2 : exists before, Publish.trace s2 = before
                               /\ Publish.executed before = ["butler -v"]).
  { eexists. split; [reflexivity|].
    unfold s2. destruct dryRun; unfold Publish.log, Publish.emit; cbn [Publish.trace];
      rewrite Hv; reflexivity. }
  destruct Hs2 as [before [Hs2 Hbefore]].
  destruct (checkStatus_trace host u g
              (Publish.summary results
                 (Publish.log "=== SUMMARY ===" Publish.info
                    (Publish.emit (Publish.Print EmptyString) s3))))
    as [closing [Hc Hcl]].
  assert (Hloop' : exists attempts,
             results = map fst attempts
             /\ Publish.trace s3 = (Publish.trace s2 ++ concat (map snd attempts))%list
             /\ Forall2 (attemptOf u g) chans attempts).
  { destruct (Publish.optionsOf cfg dryRun) as [opts|].
    - destruct (pushAll_attempts host u g opts chans s2) as [attempts [Hr [Ht Hall]]].
      rewrite Hloop in Hr, Ht. exists attempts. now repeat split.
    - destruct (pushAllNoForEach_Normal host chans [] s2 results s3 Hloop) as [Hr [Hs3 _]].
      destruct (missing_attempts u g chans) as [M1 [M2 M3]].
      eexists. split; [|split; [|exact M3]].
      + rewrite M1. exact Hr.
      + rewrite M2, Hs3. reflexivity. }
  destruct Hloop' as [attempts [Hr [Ht Hall]]].
  exists configPath, cfg, u, g, before, attempts, closing.
  repeat split; try assumption.
  rewrite Hs, Hc.
  rewrite (proj1 (summary_trace results _)).
  unfold Publish.log, Publish.emit. cbn [Publish.trace]. rewrite Ht, Hs2.
  rewrite <- !app_assoc. reflexivity.
Qed.


(** A run with three targets, the second of which has no source path: all
    three are attempted and the summary lists all three. *)
Example publish_three_targets :
  Publish.main (demoHost ["./build/windows"] []) demoArgv tt
  = (Returned,
     Some [Publish.mkResult "html5" true; Publish.mkResult "windows" false;
           Publish.mkResult "linux" true],
     Publish.mkState tt
       [Publish.Exec "butler -v";
        Publish.Log Publish.success "Butler version: ok";
        Publish.Log Publish.info "Pushing html5 from ./dist...";
        Publish.Exec
          (Publish.pushCommand "alice/mygame:html5" "./dist"
             (Publish.mkOptions (Some "1.0.0") (Some ["*.map"]) false));
        Publish.Log Publish.success "html5 uploaded successfully";
        Publish.Log Publish.warn "Source path not found: ./build/windows";
        Publish.Log Publish.info "Pushing linux from ./build/linux...";
        Publish.Exec
          (Publish.pushCommand "alice/mygame:linux" "./build/linux"
             (Publish.mkOptions (Some "1.0.0") (Some ["*.map"]) false));
        Publish.Log Publish.success "linux uploaded successfully";
        Publish.Print EmptyString;
        Publish.Log Publish.info "=== SUMMARY ===";
        Publish.Log Publish.success "html5: ✅ OK";
        Publish.Log Publish.error "windows: ❌ FAILED";
        Publish.Log Publish.success "linux: ✅ OK";
        Publish.Log Publish.info "Checking status for alice/mygame...";
        Publish.Exec (Publish.statusCommand "alice" "mygame")]).
Proof. reflexivity. Qed.


(** C2, as stated, fails: [--dry-run] is handed to the transfer tool, the
    process is started all the same, and a target whose source path is
    missing is still a failure.  With three targets, one of them missing,
    two transfer processes are started and one outcome is a failure. *)
Lemma C2_counterexample :
  let opts := Publish.mkOptions (Some "1.0.0") (Some ["*.map"]) true in
  let run := Publish.main (demoHost ["./build/windows"] []) demoDryRunArgv tt in
  Js.arrayIncludes "--dry-run" demoDryRunArgv = true
  /\ fst run
     = (Returned,
        Some [Publish.mkResult "html5" true; Publish.mkResult "windows" false;
              Publish.mkResult "linux" true])
  /\ Publish.executed (Publish.trace (snd run))
     = ["butler -v";
        Publish.pushCommand "alice/mygame:html5" "./dist" opts;
        Publish.pushCommand "alice/mygame:linux" "./build/linux" opts;
        Publish.statusCommand "alice" "mygame"]
  /\ length (Publish.executed (Publish.trace (snd run))) <> 0.
Proof. repeat split. discriminate. Qed.

(** C2, amended: when [--dry-run] is given, a run that gets through the
    publish loop starts the version query, then one transfer process per target
    whose source path exists, each announced by one "Pushing" line, then the
    status query; every transfer command carries [--dry-run], so that it is
    the transfer tool that refrains from uploading.  There are at least as
    many transfers as succeeded outcomes and at most as many as targets, so
    not every outcome need be a success. *)
Theorem C2_dry_run (W : Type) (host : Publish.Host W) (argv : list string) (w : W)
        (t : termination) (results : list Publish.result) (s : Publish.state W) :
  Publish.main host argv w = (t, Some results, s) ->
  Js.arrayIncludes "--dry-run" argv = true ->
  exists u g before added after,
    let transfers := Publish.executed added in
    Publish.trace s = (before ++ added ++ after)%list
    /\ Publish.executed (Publish.trace s)
       = ("butler -v" :: transfers ++ [Publish.statusCommand u g])%list
    /\ Forall (fun cmd => Js.includes " --dry-run" cmd = true) transfers
    /\ length (filter Publish.isPushing added) = length transfers
    /\ length (filter Publish.res_success results) <= length transfers
    /\ length transfers <= length results.
Proof.
  intros H Hdry.
  destruct (main_trace host argv w t results s H)
    as [cfg [u [g [v [added [closing [_ [Ht [Hcl [Hall [Hlog [Hlo Hhi]]]]]]]]]]]].
  cbn zeta in Ht, Hall. rewrite Hdry in Ht.
  exists u, g. eexists. exists added. eexists. cbn zeta.
  split; [rewrite Ht, app_assoc; reflexivity|].
  repeat split; [| |exact Hlog|exact Hlo|exact Hhi].
  - rewrite Ht. rewrite !executed_app, executed_summary, Hcl. reflexivity.
  - eapply Forall_impl; [|exact Hall]. intros cmd [c [p [opts [_ [Hd ->]]]]].
    apply pushCommand_dryRun. now rewrite Hd.
Qed.

Lemma C2_dry_run_witness :
  exists u g before added after,
    let transfers := Publish.executed added in
    Publish.trace (snd (Publish.main (demoHost ["./build/windows"] []) demoDryRunArgv tt))
    = (before ++ added ++ after)%list
    /\ Publish.executed
         (Publish.trace (snd (Publish.main (demoHost ["./build/windows"] [])
                                           demoDryRunArgv tt)))
       = ("butler -v" :: transfers ++ [Publish.statusCommand u g])%list
    /\ Forall (fun cmd => Js.includes " --dry-run" cmd = true) transfers
    /\ length (filter Publish.isPushing added) = length transfers
    /\ length (filter Publish.res_success
                 [Publish.mkResult "html5" true; Publish.mkResult "windows" false;
                  Publish.mkResult "linux" true]) <= length transfers
    /\ length transfers <= 3.
Proof.
  exact (C2_dry_run unit (demoHost ["./build/windows"] []) demoDryRunArgv tt
           Returned _ _ eq_refl eq_refl).
Defined.

(** C9: a run of [publish.js] in which some channels fail and others succeed
    ends with the exit code of a run in which every channel succeeds, namely
    0. *)
Theorem C9_partial_failure_exit_code
        (W1 W2 : Type) (host1 : Publish.Host W1) (host2 : Publish.Host W2)
        (argv1 argv2 : list string) (w1 : W1) (w2 : W2) (t1 t2 : termination)
        (results1 results2 : list Publish.result)
        (s1 : Publish.state W1) (s2 : Publish.state W2) :
  Publish.main host1 argv1 w1 = (t1, Some results1, s1) ->
  Publish.main host2 argv2 w2 = (t2, Some results2, s2) ->
  existsb (fun r => negb (Publish.res_success r)) results1 = true ->
  existsb Publish.res_success results1 = true ->
  forallb Publish.res_success results2 = true ->
  exitCode t1 = exitCode t2 /\ exitCode t1 = 0.
Proof.
  intros H1 H2 _ _ _.
  destruct (main_inv host1 argv1 w1 t1 results1 s1 H1)
    as [? [? [? [? [? [? [_ [_ [_ [_ [_ [-> _]]]]]]]]]]]].
  destruct (main_inv host2 argv2 w2 t2 results2 s2 H2)
    as [? [? [? [? [? [? [_ [_ [_ [_ [_ [-> _]]]]]]]]]]]].
  split; reflexivity.
Qed.

Lemma C9_partial_failure_exit_code_witness :
  exitCode (fst (fst (Publish.main (demoHost [] ["linux"]) demoArgv tt)))
  = exitCode (fst (fst (Publish.main (demoHost [] []) demoArgv tt)))
  /\ exitCode (fst (fst (Publish.main (demoHost [] ["linux"]) demoArgv tt))) = 0.
Proof.
  exact (C9_partial_failure_exit_code unit unit (demoHost [] ["linux"]) (demoHost [] [])
           demoArgv demoArgv tt tt Returned Returned _ _ _ _
           eq_refl eq_refl eq_refl eq_refl eq_refl).
Defined.

(** ** Order of the generated commands *)

(** C3, as stated, fails: the mapping keeps its keys in the order in which
    they were first assigned, that is, in enumeration order of the
    directories.  A tree enumerated as [a-web], [b-windows] gives the web
    command before the windows command, although windows is declared before
    web in [PLATFORMS]. *)
Lemma C3_counterexample :
  Godot.subdirectories webFirst "build" = Normal ["build/a-web"; "build/b-windows"]
  /\ Godot.scanBuildDir webFirst "build"
     = Normal ([(Godot.web, "build/a-web"); (Godot.windows, "build/b-windows")],
               [Matched "Web (HTML5)" "a-web"; Matched "Windows Desktop" "b-windows"])
  /\ filter (fun p => Scan.mem Godot.platform_eqb p [Godot.web; Godot.windows])
            Godot.PLATFORMS_keys
     = [Godot.windows; Godot.web]
  /\ pushLines
       (Godot.generateCommands [(Godot.web, "build/a-web"); (Godot.windows, "build/b-windows")]
                               "alice/mygame")
     = [Godot.pushCommand "build/a-web" "alice/mygame" "html5";
        Godot.pushCommand "build/b-windows" "alice/mygame" "windows"].
Proof. repeat split. Qed.

Lemma pushLines_app (a b : list line) :
  pushLines (a ++ b) = (pushLines a ++ pushLines b)%list.
Proof. apply flat_map_app. Qed.

Lemma pushLines_godot_cons (dir target channel : string) (out : list line) :
  pushLines (Text (Godot.pushCommand dir target channel) :: out)
  = Godot.pushCommand dir target channel :: pushLines out.
Proof. reflexivity. Qed.

Lemma godot_pushLines (platforms : list (Godot.platform * string)) (target : string) :
  pushLines (Godot.generateCommands platforms target)
  = map (fun pe => Godot.pushCommand (snd pe) target (Godot.channel (Godot.PLATFORMS (fst pe))))
        platforms.
Proof.
  unfold Godot.generateCommands. rewrite !pushLines_app.
  replace (pushLines [Text (newline ++ "📦 Butler commands:" ++ newline)]) with (@nil string)
    by reflexivity.
  replace (pushLines [Text (newline ++ "# Check status after upload:");
                      Text ("butler status " ++ dquote ++ target ++ dquote)])
    with (@nil string) by reflexivity.
  rewrite app_nil_r. cbn [app].
  induction platforms as [|[plat dir] rest IH]; [reflexivity|].
  cbn [map fst snd]. now rewrite pushLines_godot_cons, IH.
Qed.

Lemma Forall2_map_snd {A B C : Type} (R : A -> B * C -> Prop) (Q : A -> C -> Prop) :
  (forall a b, R a b -> Q a (snd b)) ->
  forall l l', Forall2 R l l' -> Forall2 Q l (map snd l').
Proof.
  intros HRQ l l' H. induction H as [|a b l l' Hab _ IH]; simpl; constructor.
  - now apply HRQ.
  - exact IH.
Qed.

Lemma attempts_channels (u g : string) (chans : list (string * string))
      (attempts : list (Publish.result * list Publish.event)) :
  Forall2 (attemptOf u g) chans attempts ->
  map Publish.res_channel (map fst attempts) = map fst chans.
Proof.
  intros H. induction H as [|cp a chans attempts [Hc _] _ IH]; [reflexivity|].
  cbn [map]. now rewrite Hc, IH.
Qed.

(** C3, amended: the keys of the mapping a scan returns are the detected
    platform tags in the order in which each was first detected while the
    subdirectories were walked in enumeration order, and [godot-export.js]
    generates the transfer commands one per key in that order; the
    PLATFORMS declaration order plays no part.  A run of [publish.js] that
    prints its summary has attempted the entries of [config.channels], as
    read from the file named on the command line, one after the other in
    their order: between the version query and the summary, its trace is one
    block per entry, in that order, each block being the warning about the
    entry's source path or the announcement of the entry's channel, the
    transfer process for its path and target, and a closing line; no other
    process is started but the status query at the end. *)
Theorem C3_command_order :
  (forall fs buildDir entries platforms out target,
      Godot.subdirectories fs buildDir = Normal entries ->
      Godot.scanBuildDir fs buildDir = Normal (platforms, out) ->
      JsObject.keys platforms
      = Scan.nub Godot.platform_eqb
          (map fst (Scan.classified (Godot.detectPlatform fs) entries))
      /\ pushLines (Godot.generateCommands platforms target)
         = map (fun pe => Godot.pushCommand (snd pe) target
                            (Godot.channel (Godot.PLATFORMS (fst pe)))) platforms)
  /\ (forall fs buildDir entries builds out,
         RenPy.subdirectories fs buildDir = Normal entries ->
         RenPy.scanBuilds fs buildDir = Normal (builds, out) ->
         JsObject.keys builds
         = Scan.nub RenPy.platform_eqb
             (map fst (Scan.classified (RenPy.detectPlatform fs) entries)))
  /\ (forall W (host : Publish.Host W) argv w t results s,
         Publish.main host argv w = (t, Some results, s) ->
         exists configPath cfg u g before blocks after,
           argvAt argv 2 = Some configPath
           /\ Publish.readConfig host w configPath = Normal cfg
           /\ Publish.user cfg = Some u /\ Publish.game cfg = Some g
           /\ Publish.trace s = (before ++ concat blocks ++ after)%list
           /\ Publish.executed before = ["butler -v"]
           /\ Publish.executed after = [Publish.statusCommand u g]
           /\ Forall2
                (fun (cp : string * string) (block : list Publish.event) =>
                   block = [Publish.Log Publish.warn ("Source path not found: " ++ snd cp)]
                   \/ exists cmd type msg,
                        Js.startsWith
                          ("butler push " ++ dquote ++ snd cp ++ dquote ++ " " ++ dquote
                           ++ (u ++ "/" ++ g ++ ":" ++ fst cp) ++ dquote) cmd = true
                        /\ block = [Publish.Log Publish.info
                                      ("Pushing " ++ fst cp ++ " from " ++ snd cp ++ "...");
                                    Publish.Exec cmd;
                                    Publish.Log type msg])
                (match Publish.channels cfg with Some c => c | None => [] end) blocks
           /\ map Publish.res_channel results
              = map fst (match Publish.channels cfg with Some c => c | None => [] end)).
Proof.
  split; [|split].
  - intros fs buildDir entries platforms out target Hsub Hscan.
    destruct (godot_scanBuildDir_spec _ _ _ _ _ Hsub Hscan) as [Hp _].
    split; [|apply godot_pushLines].
    rewrite Hp. apply (collect_keys_nub Godot.platform_eqb godot_eqb_eq).
  - intros fs buildDir entries builds out Hsub Hscan.
    destruct (renpy_scanBuilds_spec _ _ _ _ _ Hsub Hscan) as [Hp _].
    rewrite Hp. apply (collect_keys_nub RenPy.platform_eqb renpy_eqb_eq).
  - intros W host argv w t results s H.
    destruct (main_attempts host argv w t results s H)
      as [configPath [cfg [u [g [before [attempts [closing
           [Ha [Hcfg [Hu [Hg [Hr [Hall [Hb [Hc Ht]]]]]]]]]]]]]]].
    exists configPath, cfg, u, g, before, (map snd attempts).
    eexists.
    split; [exact Ha|]. split; [exact Hcfg|]. split; [exact Hu|]. split; [exact Hg|].
    split; [exact Ht|]. split; [exact Hb|]. split; [|split].
    + rewrite !executed_app.
      change (map _ results) with (map Publish.summaryLine results).
      rewrite executed_summary, Hc. reflexivity.
    + eapply Forall2_map_snd; [|exact Hall].
      intros cp a [_ [[_ Hw]|[cmd [Hcmd [[_ Hok]|[_ [m Hko]]]]]]].
      * now left.
      * right. exists cmd, Publish.success, (fst cp ++ " uploaded successfully").
        now split.
      * right. exists cmd, Publish.error, ("Failed to push " ++ fst cp ++ ": " ++ m).
        now split.
    + rewrite Hr. exact (attempts_channels u g _ _ Hall).
Qed.

Lemma C3_command_order_witness :
  (JsObject.keys [(Godot.web, "build/a-web"); (Godot.windows, "build/b-windows")]
   = [Godot.web; Godot.windows]
   /\ pushLines (Godot.generateCommands
                   [(Godot.web, "build/a-web"); (Godot.windows, "build/b-windows")]
                   "alice/mygame")
      = [Godot.pushCommand "build/a-web" "alice/mygame" "html5";
         Godot.pushCommand "build/b-windows" "alice/mygame" "windows"])
  /\ JsObject.keys [(RenPy.web, "build/a-web"); (RenPy.pc, "build/b-windows")]
     = [RenPy.web; RenPy.pc]
  /\ (
      exists configPath cfg u g before blocks after,
        argvAt demoArgv 2 = Some configPath
        /\ Publish.readConfig (demoHost [] ["linux"]) tt configPath = Normal cfg
        /\ Publish.user cfg = Some u /\ Publish.game cfg = Some g
        /\ Publish.trace (snd (Publish.main (demoHost [] ["linux"]) demoArgv tt))
           = (before ++ concat blocks ++ after)%list
        /\ Publish.executed before = ["butler -v"]
        /\ Publish.executed after = [Publish.statusCommand u g]
        /\ Forall2
             (fun (cp : string * string) (block : list Publish.event) =>
                block = [Publish.Log Publish.warn ("Source path not found: " ++ snd cp)]
                \/ exists cmd type msg,
                     Js.startsWith
                       ("butler push " ++ dquote ++ snd cp ++ dquote ++ " " ++ dquote
                        ++ (u ++ "/" ++ g ++ ":" ++ fst cp) ++ dquote) cmd = true
                     /\ block = [Publish.Log Publish.info
                                   ("Pushing " ++ fst cp ++ " from " ++ snd cp ++ "...");
                                 Publish.Exec cmd;
                                 Publish.Log type msg])
             (match Publish.channels cfg with Some c => c | None => [] end) blocks
        /\ map Publish.res_channel
               [Publish.mkResult "html5" true; Publish.mkResult "windows" true;
                Publish.mkResult "linux" false]
           = map fst (match Publish.channels cfg with Some c => c | None => [] end)).
Proof.
  split; [|split].
  - exact (proj1 C3_command_order webFirst "build" ["build/a-web"; "build/b-windows"]
             _ _ "alice/mygame" eq_refl eq_refl).
  - exact (proj1 (proj2 C3_command_order) webFirst "build" ["build/a-web"; "build/b-windows"]
             _ _ eq_refl eq_refl).
  - exact (proj2 (proj2 C3_command_order) unit (demoHost [] ["linux"]) demoArgv tt
             Returned _ _ eq_refl).
Defined.

(** * Further properties of the scripts *)

(** ** [filter] with a test that may throw *)

Lemma filterM_Normal {A} (p : A -> completion bool) (xs ys : list A) :
  filterM p xs = Normal ys ->
  ys = filter (holds p) xs /\ Forall (fun x => exists b, p x = Normal b) xs.
Proof.
  revert ys. induction xs as [|x xs IH]; intros ys H; simpl in H.
  - inversion H. split; [reflexivity | constructor].
  - unfold holds. simpl. destruct (p x) as [b|m] eqn:Hp; simpl in H; [|discriminate].
    destruct (filterM p xs) as [rest|m]; simpl in H; [|discriminate].
    destruct (IH rest eq_refl) as [Hr Hall]. inversion H. subst ys.
    split; [|constructor; [now exists b | exact Hall]].
    fold (holds p). rewrite <- Hr. now destruct b.
Qed.

Lemma filterM_Throws {A} (p : A -> completion bool) (xs : list A) (m : string) :
  filterM p xs = Throws m -> exists x, In x xs /\ p x = Throws m.
Proof.
  induction xs as [|x xs IH]; simpl; [discriminate|].
  destruct (p x) as [b|m'] eqn:Hp; simpl.
  - destruct (filterM p xs) as [rest|m'']; simpl; [discriminate|].
    intros H. inversion H. subst m''. destruct (IH eq_refl) as [y [Hin Hy]].
    exists y. split; [now right | exact Hy].
  - intros H. inversion H. subst m'. exists x. split; [now left | exact Hp].
Qed.

Lemma filterM_In_Throws {A} (p : A -> completion bool) (xs : list A) (x : A) (m : string) :
  In x xs -> p x = Throws m -> exists m', filterM p xs = Throws m'.
Proof.
  induction xs as [|y xs IH]; simpl; [contradiction|].
  intros [->|Hin] Hp.
  - rewrite Hp. now exists m.
  - destruct (p y) as [b|m']; simpl; [|now exists m'].
    destruct (IH Hin Hp) as [m' ->]. now exists m'.
Qed.

(** ** The Godot classifier: what each tag rests on *)

(** Every tag the Godot classifier returns rests on a marker in the listing:
    web on [index.html]; windows on an [.exe] file (and no [index.html]);
    macos on an [.app] entry or on a [.zip] whose name contains "mac" or
    "osx"; android on an [.apk] or [.aab] file; linux on a name without a
    dot that is a regular file. *)
Theorem godot_detect_sound (fs : FileSystem) (dir : string) (files : list string)
        (p : Godot.platform) :
  readdirSync fs dir = Normal files ->
  Godot.detectPlatform fs dir = Normal (Some p) ->
  match p with
  | Godot.web => In "index.html" files
  | Godot.windows =>
      ~ In "index.html" files /\ exists f, In f files /\ Js.endsWith ".exe" f = true
  | Godot.macos =>
      (exists f, In f files /\ Js.endsWith ".app" f = true)
      \/ (exists z, In z files /\ Js.endsWith ".zip" z = true
                    /\ (Js.includes "mac" z = true \/ Js.includes "osx" z = true))
  | Godot.android =>
      exists f, In f files /\ (Js.endsWith ".apk" f = true \/ Js.endsWith ".aab" f = true)
  | Godot.linux =>
      exists f st, In f files /\ Js.includes "." f = false
                   /\ statSync fs (Path.join dir f) = Normal st /\ isFile st = true
  end.
Proof.
  intros Hdir. unfold Godot.detectPlatform. rewrite Hdir. cbn [bind].
  destruct (Js.arrayIncludes "index.html" files) eqn:Hindex.
  { intros H. inversion H. unfold Js.arrayIncludes in Hindex.
    apply existsb_exists in Hindex. destruct Hindex as [x [Hin Hx]].
    apply String.eqb_eq in Hx. now subst x. }
  assert (Hno : ~ In "index.html" files).
  { intros Hin. unfold Js.arrayIncludes in Hindex.
    assert (existsb (String.eqb "index.html") files = true)
      by (apply existsb_exists; exists "index.html"; split;
          [exact Hin | apply String.eqb_refl]).
    congruence. }
  destruct (existsb (Js.endsWith ".exe") files) eqn:Hexe.
  { intros H. inversion H. split; [exact Hno|].
    apply existsb_exists in Hexe. exact Hexe. }
  cbv zeta.
  match goal with
  | |- match ?a with Some _ => _ | None => _ end = _ -> _ => destruct a as [q|] eqn:Harch
  end.
  - intros H. inversion H. subst q. clear H.
    destruct (existsb (Js.endsWith ".app") files || existsb (Js.endsWith ".zip") files);
      [|discriminate].
    destruct (find (Js.endsWith ".zip") files) as [z|] eqn:Hzip; cbn [Js.truthyOpt] in Harch.
    + destruct (find_some _ _ Hzip) as [Hzin Hzend].
      destruct (Js.truthy z && (Js.includes "mac" z || Js.includes "osx" z)) eqn:Hmac.
      * inversion Harch. right. exists z.
        apply andb_true_iff in Hmac. destruct Hmac as [_ Hmac].
        apply orb_true_iff in Hmac. now repeat split.
      * destruct (find (Js.endsWith ".app") files) as [a|] eqn:Happ;
          cbn [Js.truthyOpt] in Harch; [|discriminate].
        destruct (find_some _ _ Happ) as [Hain Haend].
        destruct (Js.truthy a); inversion Harch. left. now exists a.
    + cbn [andb] in Harch.
      destruct (find (Js.endsWith ".app") files) as [a|] eqn:Happ;
        cbn [Js.truthyOpt] in Harch; [|discriminate].
      destruct (find_some _ _ Happ) as [Hain Haend].
      destruct (Js.truthy a); inversion Harch. left. now exists a.
  - destruct (existsb (fun f => Js.endsWith ".apk" f || Js.endsWith ".aab" f) files) eqn:Handroid.
    { intros H. inversion H. apply existsb_exists in Handroid.
      destruct Handroid as [f [Hin Hf]]. exists f. split; [exact Hin|].
      now apply orb_true_iff. }
    destruct (filterM (Godot.isExecutable fs dir) files) as [executables|m] eqn:Hexec;
      cbn [bind]; [|discriminate].
    destruct (Nat.ltb 0 (length executables)) eqn:Hlen; intros H; inversion H.
    destruct (filterM_Normal _ _ _ Hexec) as [Hfilter _].
    destruct executables as [|f rest]; [discriminate|].
    assert (Hin : In f (filter (holds (Godot.isExecutable fs dir)) files))
      by (rewrite <- Hfilter; now left).
    apply filter_In in Hin. destruct Hin as [Hin Hf].
    unfold holds, Godot.isExecutable in Hf.
    destruct (Js.includes "." f) eqn:Hdot; cbn [negb] in Hf; [discriminate|].
    destruct (statSync fs (Path.join dir f)) as [st|m] eqn:Hst; cbn [bind] in Hf;
      [|discriminate].
    exists f, st. now repeat split.
Qed.

Lemma godot_detect_sound_witness :
  exists f st, In f ["game"] /\ Js.includes "." f = false
               /\ statSync lonelyLauncher (Path.join "build/game-1.0" f) = Normal st
               /\ isFile st = true.
Proof.
  exact (godot_detect_sound lonelyLauncher "build/game-1.0" ["game"] Godot.linux
           eq_refl eq_refl).
Defined.

(** Only the first [.zip] of the listing is looked at: when its name has
    neither "mac" nor "osx" and there is no [.app] entry, the directory is
    not a macOS export, whatever the other archives are called. *)
Theorem godot_first_zip_only (fs : FileSystem) (dir : string) (files : list string)
        (z : string) :
  readdirSync fs dir = Normal files ->
  find (Js.endsWith ".zip") files = Some z ->
  Js.includes "mac" z = false ->
  Js.includes "osx" z = false ->
  existsb (Js.endsWith ".app") files = false ->
  Godot.detectPlatform fs dir <> Normal (Some Godot.macos).
Proof.
  intros Hdir Hzip Hmac Hosx Happ.
  unfold Godot.detectPlatform. rewrite Hdir. cbn [bind].
  destruct (Js.arrayIncludes "index.html" files); [discriminate|].
  destruct (existsb (Js.endsWith ".exe") files); [discriminate|].
  rewrite Hzip, Happ, Hmac, Hosx. cbn [orb andb Js.truthyOpt].
  rewrite andb_false_r.
  destruct (find (Js.endsWith ".app") files) as [a|] eqn:Hfa.
  { destruct (find_some _ _ Hfa) as [Hin Ha].
    assert (existsb (Js.endsWith ".app") files = true)
      by (apply existsb_exists; now exists a).
    congruence. }
  cbn [Js.truthyOpt].
  assert (Htail :
            (if existsb (fun f => Js.endsWith ".apk" f || Js.endsWith ".aab" f) files
             then Normal (Some Godot.android)
             else
               executables <- filterM (Godot.isExecutable fs dir) files ;;
               (if Nat.ltb 0 (length executables)
                then Normal (Some Godot.linux) else Normal None))
            <> Normal (Some Godot.macos)).
  { destruct (existsb (fun f => Js.endsWith ".apk" f || Js.endsWith ".aab" f) files);
      [discriminate|].
    destruct (filterM _ files) as [ex|m']; cbn [bind]; [|discriminate].
    destruct (Nat.ltb 0 (length ex)); discriminate. }
  destruct (existsb (Js.endsWith ".zip") files); cbn [orb]; exact Htail.
Qed.

Lemma godot_first_zip_only_witness :
  Js.includes "mac" "game-mac.zip" = true
  /\ Godot.detectPlatform laterMacZip "build/mac" <> Normal (Some Godot.macos).
Proof.
  split; [reflexivity|].
  exact (godot_first_zip_only laterMacZip "build/mac" ["game.zip"; "game-mac.zip"] "game.zip"
           eq_refl eq_refl eq_refl eq_refl eq_refl).
Defined.

(** The Godot classifier throws only when the directory cannot be listed, or
    when no marker of web, windows, macos or android was found and the
    [stat] of a name without a dot fails. *)
Theorem godot_detect_throws (fs : FileSystem) (dir : string) (m : string) :
  Godot.detectPlatform fs dir = Throws m ->
  readdirSync fs dir = Throws m
  \/ exists files f,
       readdirSync fs dir = Normal files
       /\ ~ In "index.html" files
       /\ existsb (Js.endsWith ".exe") files = false
       /\ existsb (fun f => Js.endsWith ".apk" f || Js.endsWith ".aab" f) files = false
       /\ In f files /\ Js.includes "." f = false
       /\ statSync fs (Path.join dir f) = Throws m.
Proof.
  unfold Godot.detectPlatform.
  destruct (readdirSync fs dir) as [files|m'] eqn:Hdir; cbn [bind];
    [|intros H; inversion H; now left].
  destruct (Js.arrayIncludes "index.html" files) eqn:Hindex; [discriminate|].
  destruct (existsb (Js.endsWith ".exe") files) eqn:Hexe; [discriminate|].
  cbv zeta.
  match goal with
  | |- match ?a with Some _ => _ | None => _ end = _ -> _ => destruct a as [q|]
  end; [discriminate|].
  destruct (existsb (fun f => Js.endsWith ".apk" f || Js.endsWith ".aab" f) files) eqn:Ha;
    [discriminate|].
  destruct (filterM (Godot.isExecutable fs dir) files) as [ex|m'] eqn:Hex; cbn [bind].
  { destruct (Nat.ltb 0 (length ex)); discriminate. }
  intros H. inversion H. subst m'. right.
  destruct (filterM_Throws _ _ _ Hex) as [f [Hin Hf]].
  exists files, f. repeat split; try assumption.
  - intros Hi. unfold Js.arrayIncludes in Hindex.
    assert (existsb (String.eqb "index.html") files = true)
      by (apply existsb_exists; exists "index.html"; split;
          [exact Hi | apply String.eqb_refl]).
    congruence.
  - unfold Godot.isExecutable in Hf. destruct (Js.includes "." f); [discriminate|reflexivity].
  - unfold Godot.isExecutable in Hf. destruct (Js.includes "." f); cbn [negb] in Hf;
      [discriminate|].
    destruct (statSync fs (Path.join dir f)); cbn [bind] in Hf; [discriminate|].
    now inversion Hf.
Qed.

Lemma godot_detect_throws_witness :
  readdirSync brokenLink "build/linux" = Throws "ENOENT"
  \/ exists files f,
       readdirSync brokenLink "build/linux" = Normal files
       /\ ~ In "index.html" files
       /\ existsb (Js.endsWith ".exe") files = false
       /\ existsb (fun f => Js.endsWith ".apk" f || Js.endsWith ".aab" f) files = false
       /\ In f files /\ Js.includes "." f = false
       /\ statSync brokenLink (Path.join "build/linux" f) = Throws "ENOENT".
Proof. exact (godot_detect_throws brokenLink "build/linux" "ENOENT" eq_refl). Defined.

Lemma godot_detect_throws_example :
  Godot.detectPlatform brokenLink "build/linux" = Throws "ENOENT".
Proof. reflexivity. Qed.

(** ** The scanners: what is scanned and what is printed *)

Lemma godot_subdirectories_spec fs buildDir names entries :
  readdirSync fs buildDir = Normal names ->
  Godot.subdirectories fs buildDir = Normal entries ->
  entries = filter (holds (isDirectoryAt fs)) (map (Path.join buildDir) names).
Proof.
  unfold Godot.subdirectories. intros -> H. cbn [bind] in H.
  exact (proj1 (filterM_Normal _ _ _ H)).
Qed.

Lemma renpy_subdirectories_spec fs buildDir names entries :
  readdirSync fs buildDir = Normal names ->
  RenPy.subdirectories fs buildDir = Normal entries ->
  entries = filter (holds (isDirectoryAt fs)) (map (Path.join buildDir) names).
Proof.
  unfold RenPy.subdirectories. intros -> H. cbn [bind] in H.
  exact (proj1 (filterM_Normal _ _ _ H)).
Qed.

(** When a scan returns, it has looked at the children of the build root that
    are directories and at nothing else: it printed one "matched" or
    "Unknown" line per such directory, in total no more than the build root
    has children, and every path in the mapping is one of these
    directories.  Plain files at the build root leave no trace. *)
Theorem scan_looks_at_directories_only :
  (forall fs buildDir names platforms out,
      readdirSync fs buildDir = Normal names ->
      Godot.scanBuildDir fs buildDir = Normal (platforms, out) ->
      let dirs := filter (holds (isDirectoryAt fs)) (map (Path.join buildDir) names) in
      length (filter isMatched out) + length (filter isUnknown out) = length dirs
      /\ length dirs <= length names
      /\ Forall (fun d => In d dirs) (JsObject.values platforms))
  /\ (forall fs buildDir names builds out,
         readdirSync fs buildDir = Normal names ->
         RenPy.scanBuilds fs buildDir = Normal (builds, out) ->
         let dirs := filter (holds (isDirectoryAt fs)) (map (Path.join buildDir) names) in
         length (filter isMatched out) + length (filter isUnknown out) = length dirs
         /\ length dirs <= length names
         /\ Forall (fun d => In d dirs) (JsObject.values builds)).
Proof.
  split.
  - intros fs buildDir names platforms out Hdir Hscan dirs.
    destruct (Godot.subdirectories fs buildDir) as [entries|m] eqn:Hsub;
      [|unfold Godot.scanBuildDir in Hscan; rewrite Hsub in Hscan; discriminate].
    pose proof (godot_subdirectories_spec _ _ _ _ Hdir Hsub) as He. fold dirs in He.
    destruct (godot_scanBuildDir_spec _ _ _ _ _ Hsub Hscan) as [Hp [Hu [Hm _]]].
    rewrite Hu, Hm, !length_map, <- He. split; [apply classified_unclassified_length|].
    split.
    + rewrite He. unfold dirs.
      pose proof (filter_length_le (holds (isDirectoryAt fs)) (map (Path.join buildDir) names)).
      now rewrite length_map in H.
    + apply Forall_forall. intros d Hd. unfold JsObject.values in Hd.
      apply in_map_iff in Hd. destruct Hd as [[p e] [<- Hin]]. rewrite Hp in Hin.
      apply collect_In in Hin. destruct Hin as [Hin|[]].
      apply classified_In in Hin. exact (proj1 Hin).
  - intros fs buildDir names builds out Hdir Hscan dirs.
    destruct (RenPy.subdirectories fs buildDir) as [entries|m] eqn:Hsub;
      [|unfold RenPy.scanBuilds in Hscan; rewrite Hsub in Hscan; discriminate].
    pose proof (renpy_subdirectories_spec _ _ _ _ Hdir Hsub) as He. fold dirs in He.
    destruct (renpy_scanBuilds_spec _ _ _ _ _ Hsub Hscan) as [Hp [Hu [Hm _]]].
    rewrite Hu, Hm, !length_map, <- He. split; [apply classified_unclassified_length|].
    split.
    + rewrite He. unfold dirs.
      pose proof (filter_length_le (holds (isDirectoryAt fs)) (map (Path.join buildDir) names)).
      now rewrite length_map in H.
    + apply Forall_forall. intros d Hd. unfold JsObject.values in Hd.
      apply in_map_iff in Hd. destruct Hd as [[p e] [<- Hin]]. rewrite Hp in Hin.
      apply collect_In in Hin. destruct Hin as [Hin|[]].
      apply classified_In in Hin. exact (proj1 Hin).
Qed.

Lemma scan_looks_at_directories_only_witness :
  let dirs := ["build/alpha"; "build/beta"; "build/notes"] in
  (2 + 1 = length dirs /\ length dirs <= 4
   /\ Forall (fun d => In d dirs) (JsObject.values [(Godot.windows, "build/beta")]))
  /\ (2 + 1 = length dirs /\ length dirs <= 4
      /\ Forall (fun d => In d dirs) (JsObject.values [(RenPy.pc, "build/beta")])).
Proof.
  split.
  - exact (proj1 scan_looks_at_directories_only twinBuilds "build"
             ["alpha"; "beta"; "notes"; "README.md"] _ _ eq_refl eq_refl).
  - exact (proj2 scan_looks_at_directories_only twinBuilds "build"
             ["alpha"; "beta"; "notes"; "README.md"] _ _ eq_refl eq_refl).
Defined.

(** A child of the build root that cannot be [stat]ed (a dangling link, for
    one) makes the scan of either scanner throw before anything is
    classified, classified siblings or not; [godot-export.js] then ends
    through the uncaught exception, with exit code 1, having printed the
    line that announces the scan and no transfer command. *)
Theorem scan_aborts_on_stat_failure :
  forall fs argv buildDir target names n m,
    argvAt argv 2 = Some buildDir ->
    argvAt argv 3 = Some target ->
    Js.truthy buildDir = true ->
    Js.truthy target = true ->
    existsSync fs buildDir = true ->
    readdirSync fs buildDir = Normal names ->
    In n names ->
    statSync fs (Path.join buildDir n) = Throws m ->
    (exists m', Godot.scanBuildDir fs buildDir = Throws m'
                /\ Godot.main fs argv
                   = (Uncaught m', [Text ("🔍 Scanning: " ++ buildDir ++ newline)]))
    /\ exitCode (fst (Godot.main fs argv)) = 1
    /\ pushLines (snd (Godot.main fs argv)) = []
    /\ (exists m', RenPy.scanBuilds fs buildDir = Throws m').
Proof.
  intros fs argv buildDir target names n m A2 A3 T2 T3 Hex Hdir Hin Hstat.
  assert (Hf : exists m', filterM (isDirectoryAt fs) (map (Path.join buildDir) names)
                          = Throws m').
  { apply (filterM_In_Throws _ _ (Path.join buildDir n) m).
    - now apply in_map.
    - unfold isDirectoryAt. now rewrite Hstat. }
  destruct Hf as [m' Hf].
  assert (HG : Godot.scanBuildDir fs buildDir = Throws m').
  { unfold Godot.scanBuildDir, Godot.subdirectories. rewrite Hdir. cbn [bind].
    change (fun f => st <- statSync fs f ;; Normal (isDirectory st)) with (isDirectoryAt fs).
    now rewrite Hf. }
  assert (HR : RenPy.scanBuilds fs buildDir = Throws m').
  { unfold RenPy.scanBuilds, RenPy.subdirectories. rewrite Hdir. cbn [bind].
    change (fun f => st <- statSync fs f ;; Normal (isDirectory st)) with (isDirectoryAt fs).
    now rewrite Hf. }
  assert (HGm : Godot.main fs argv
                = (Uncaught m', [Text ("🔍 Scanning: " ++ buildDir ++ newline)])).
  { unfold Godot.main, Godot.scanPrinted, Godot.subdirectories.
    rewrite A2, A3, T2, T3, Hex, HG, Hdir. cbn [bind].
    change (fun f => st <- statSync fs f ;; Normal (isDirectory st)) with (isDirectoryAt fs).
    rewrite Hf. reflexivity. }
  split; [exists m'; now split|]. rewrite HGm.
  split; [reflexivity|]. split; [reflexivity|].
  exists m'. exact HR.
Qed.

Lemma scan_aborts_on_stat_failure_witness :
  (exists m', Godot.scanBuildDir brokenLink "build" = Throws m'
              /\ Godot.main brokenLink ["node"; "godot-export.js"; "build"; "alice/mygame"]
                 = (Uncaught m', [Text ("🔍 Scanning: " ++ "build" ++ newline)]))
  /\ exitCode (fst (Godot.main brokenLink
                      ["node"; "godot-export.js"; "build"; "alice/mygame"])) = 1
  /\ pushLines (snd (Godot.main brokenLink
                       ["node"; "godot-export.js"; "build"; "alice/mygame"])) = []
  /\ (exists m', RenPy.scanBuilds brokenLink "build" = Throws m').
Proof.
  refine (scan_aborts_on_stat_failure brokenLink
            ["node"; "godot-export.js"; "build"; "alice/mygame"] "build" "alice/mygame"
            ["windows"; "stale"] "stale" "ENOENT"
            eq_refl eq_refl eq_refl eq_refl eq_refl eq_refl _ eq_refl).
  right. left. reflexivity.
Defined.

(** ** [godot-export.js]: a successful run *)

Lemma godot_checkCORS_pushLines fs entry c :
  Godot.checkCORS fs entry = Normal c -> pushLines (snd c) = [].
Proof.
  unfold Godot.checkCORS. destruct (negb _); [intros H; now inversion H|].
  destruct (readFileSync fs _) as [content|m]; simpl; [|discriminate].
  intros H. inversion H. simpl. now destruct (negb _).
Qed.

(** The scan loops print no transfer command of their own. *)
Lemma godot_scanLoop_pushLines fs entries :
  forall platforms out platforms' out',
    Godot.scanLoop fs entries platforms out = Normal (platforms', out') ->
    pushLines out' = pushLines out.
Proof.
  induction entries as [|e rest IH]; intros platforms out platforms' out' H.
  - simpl in H. now inversion H.
  - cbn [Godot.scanLoop] in H.
    destruct (Godot.detectPlatform fs e) as [[p|]|m]; cbn [bind] in H; [| |discriminate].
    + destruct (Godot.platform_eqb p Godot.web).
      * destruct (Godot.checkCORS fs e) as [c|] eqn:Hc; cbn [bind] in H; [|discriminate].
        rewrite (IH _ _ _ _ H), !pushLines_app, (godot_checkCORS_pushLines _ _ _ Hc).
        simpl. now rewrite !app_nil_r.
      * rewrite (IH _ _ _ _ H), pushLines_app. simpl. now rewrite app_nil_r.
    + rewrite (IH _ _ _ _ H), pushLines_app. simpl. now rewrite app_nil_r.
Qed.

(** When the scan returns, what it has printed is the output it returns. *)
Lemma godot_printedLoop_returns fs entries :
  forall platforms out platforms' out',
    Godot.scanLoop fs entries platforms out = Normal (platforms', out') ->
    Godot.printedLoop fs entries out = out'.
Proof.
  induction entries as [|e rest IH]; intros platforms out platforms' out' H.
  - simpl in H. now inversion H.
  - cbn [Godot.scanLoop Godot.printedLoop] in *.
    destruct (Godot.detectPlatform fs e) as [[p|]|m]; cbn [bind] in H; [| |discriminate].
    + destruct (Godot.platform_eqb p Godot.web).
      * destruct (Godot.checkCORS fs e) as [c|]; cbn [bind] in H; [|discriminate].
        exact (IH _ _ _ _ H).
      * exact (IH _ _ _ _ H).
    + exact (IH _ _ _ _ H).
Qed.

(** [godot-export.js] ends with exit code 0 only after a scan that returned a
    non-empty mapping; its output then holds exactly one transfer command per
    entry of the mapping, in the order of the mapping, addressed to the
    channel of the entry's platform, and the number it reports as found is
    the number of these commands. *)
Theorem godot_main_success (fs : FileSystem) (argv : list string) :
  exitCode (fst (Godot.main fs argv)) = 0 ->
  exists buildDir target platforms scanned,
    argvAt argv 2 = Some buildDir /\ argvAt argv 3 = Some target
    /\ existsSync fs buildDir = true
    /\ Godot.scanBuildDir fs buildDir = Normal (platforms, scanned)
    /\ platforms <> []
    /\ pushLines (snd (Godot.main fs argv))
       = map (fun pe => Godot.pushCommand (snd pe) target
                          (Godot.channel (Godot.PLATFORMS (fst pe)))) platforms
    /\ In (Found (length (pushLines (snd (Godot.main fs argv))))) (snd (Godot.main fs argv))
    /\ In (Text ("butler status " ++ dquote ++ target ++ dquote)) (snd (Godot.main fs argv)).
Proof.
  unfold Godot.main.
  destruct (argvAt argv 2) as [buildDir|]; [|discriminate].
  destruct (argvAt argv 3) as [target|]; [|discriminate].
  destruct (negb (Js.truthy buildDir) || negb (Js.truthy target)); [discriminate|].
  destruct (existsSync fs buildDir) eqn:Hex; cbn [negb]; [|discriminate].
  destruct (Godot.scanBuildDir fs buildDir) as [[platforms scanned]|m] eqn:Hscan;
    [|discriminate].
  destruct (Nat.eqb (length (JsObject.keys platforms)) 0) eqn:Hlen; [discriminate|].
  intros _. exists buildDir, target, platforms, scanned. cbn [fst snd].
  assert (Hpush : pushLines scanned = []).
  { unfold Godot.scanBuildDir in Hscan.
    destruct (Godot.subdirectories fs buildDir) as [entries|]; cbn [bind] in Hscan;
      [|discriminate].
    exact (godot_scanLoop_pushLines _ _ _ _ _ _ Hscan). }
  assert (Hlines : pushLines
                     ([Text ("🔍 Scanning: " ++ buildDir ++ newline)] ++
                      scanned ++ [Found (length (JsObject.keys platforms))] ++
                      Godot.generateCommands platforms target)%list
                   = map (fun pe => Godot.pushCommand (snd pe) target
                                      (Godot.channel (Godot.PLATFORMS (fst pe)))) platforms).
  { rewrite !pushLines_app, Hpush, godot_pushLines. reflexivity. }
  split; [reflexivity|]. split; [reflexivity|]. split; [exact Hex|].
  split; [exact Hscan|].
  split; [intros ->; discriminate|].
  split; [exact Hlines|]. split.
  - rewrite Hlines, length_map. unfold JsObject.keys. rewrite length_map.
    apply in_or_app. right. apply in_or_app. right. now left.
  - do 3 (apply in_or_app; right).
    unfold Godot.generateCommands. do 2 (apply in_or_app; right).
    right. now left.
Qed.

Lemma godot_main_success_witness :
  exists buildDir target platforms scanned,
    argvAt ["node"; "godot-export.js"; "build"; "alice/mygame"] 2 = Some buildDir
    /\ argvAt ["node"; "godot-export.js"; "build"; "alice/mygame"] 3 = Some target
    /\ existsSync scenario buildDir = true
    /\ Godot.scanBuildDir scenario buildDir = Normal (platforms, scanned)
    /\ platforms <> []
    /\ pushLines (snd (Godot.main scenario ["node"; "godot-export.js"; "build"; "alice/mygame"]))
       = map (fun pe => Godot.pushCommand (snd pe) target
                          (Godot.channel (Godot.PLATFORMS (fst pe)))) platforms
    /\ In (Found (length (pushLines (snd (Godot.main scenario
                                            ["node"; "godot-export.js"; "build";
                                             "alice/mygame"])))))
          (snd (Godot.main scenario ["node"; "godot-export.js"; "build"; "alice/mygame"]))
    /\ In (Text ("butler status " ++ dquote ++ target ++ dquote))
          (snd (Godot.main scenario ["node"; "godot-export.js"; "build"; "alice/mygame"])).
Proof.
  exact (godot_main_success scenario ["node"; "godot-export.js"; "build"; "alice/mygame"]
           eq_refl).
Defined.

(** ** The publisher: fatal exits and the commands it builds *)

Lemma checkButler_executed {W} (host : Publish.Host W) (s : Publish.state W) :
  Publish.executed (Publish.trace (snd (Publish.checkButler host s)))
  = (Publish.executed (Publish.trace s) ++ ["butler -v"])%list.
Proof.
  unfold Publish.checkButler, Publish.run, Publish.log, Publish.emit.
  destruct (Publish.execSync host (Publish.world s) "butler -v") as [[v|m] w'];
    cbn [snd Publish.trace]; rewrite !executed_app; simpl; now rewrite app_nil_r.
Qed.

(** Lines of type [info] are the announcement of a transfer, the header of
    the summary and the announcement of the status query. *)
Lemma not_info_not_In (l : list Publish.event) (msg : string) :
  existsb Publish.isInfo l = false -> ~ In (Publish.Log Publish.info msg) l.
Proof.
  intros H Hin. rewrite <- Bool.not_true_iff_false in H. apply H.
  apply existsb_exists. exists (Publish.Log Publish.info msg). now split.
Qed.

Lemma checkButler_no_info {W} (host : Publish.Host W) (s : Publish.state W) :
  existsb Publish.isInfo (Publish.trace (snd (Publish.checkButler host s)))
  = existsb Publish.isInfo (Publish.trace s).
Proof.
  unfold Publish.checkButler, Publish.run, Publish.log, Publish.emit.
  destruct (Publish.execSync host (Publish.world s) "butler -v") as [[v|m] w'];
    cbn [snd Publish.trace]; rewrite !existsb_app; simpl; now rewrite !Bool.orb_false_r.
Qed.

Lemma warnings_no_info (l : list (string * string)) :
  existsb Publish.isInfo
    (map (fun x => Publish.Log Publish.warn ("Source path not found: " ++ snd x)) l) = false.
Proof. induction l as [|x l IH]; [reflexivity | exact IH]. Qed.

(** [publish.js] ends with exit code 1 exactly when it does not get to its
    summary: it stopped before the publish loop, or [pushChannel] threw in
    the loop because [config.ignore] has no [forEach].  In either case it
    has started no transfer, the only process it may have started being the
    version query, and it has logged no line of type [info]: no transfer
    was announced, and neither the summary header nor the status query
    appears.  When it gets to the summary it ends with exit code 0, has at
    least one result and has printed the summary header. *)
Theorem publish_fatal_before_any_transfer {W} (host : Publish.Host W)
        (argv : list string) (w : W) :
  match Publish.main host argv w with
  | (t, None, s) =>
      exitCode t = 1
      /\ (Publish.executed (Publish.trace s) = []
          \/ Publish.executed (Publish.trace s) = ["butler -v"])
      /\ existsb Publish.isInfo (Publish.trace s) = false
      /\ ~ In (Publish.Log Publish.info "=== SUMMARY ===") (Publish.trace s)
  | (t, Some results, s) =>
      exitCode t = 0 /\ results <> []
      /\ In (Publish.Log Publish.info "=== SUMMARY ===") (Publish.trace s)
  end.
Proof.
  destruct (Publish.main host argv w) as [[t [results|]] s] eqn:Hm.
  - destruct (main_inv host argv w t results s Hm)
      as [p1 [c1 [? [? [? [? [Ha1 [Hc1 [_ [_ [_ Hrun]]]]]]]]]]].
    cbn zeta in Hrun. destruct Hrun as [-> [Hne _]].
    destruct (main_attempts host argv w Returned results s Hm)
      as [p2 [c2 [u [g [before [attempts [closing
           [Ha2 [Hc2 [_ [_ [Hr [Hall [_ [_ Ht]]]]]]]]]]]]]]].
    rewrite Ha1 in Ha2. injection Ha2 as <-.
    rewrite Hc1 in Hc2. injection Hc2 as <-.
    split; [reflexivity|]. split.
    + intros ->. destruct attempts; [|discriminate Hr].
      inversion Hall as [E|]. now apply Hne.
    + rewrite Ht. do 2 (apply in_or_app; right). right. now left.
  - assert (Hgoal : exitCode t = 1
                    /\ (Publish.executed (Publish.trace s) = []
                        \/ Publish.executed (Publish.trace s) = ["butler -v"])
                    /\ existsb Publish.isInfo (Publish.trace s) = false).
    { revert Hm. unfold Publish.main.
      destruct (negb (Js.truthyOpt (argvAt argv 2))).
      { intros H. inversion H; subst. repeat split. now left. }
      destruct (argvAt argv 2) as [configPath|];
        [|intros H; inversion H; subst; repeat split; now left].
      destruct (negb (Publish.existsSync host w configPath));
        [intros H; inversion H; subst; repeat split; now left|].
      destruct (Publish.readConfig host w configPath) as [cfg|m];
        [|intros H; inversion H; subst; repeat split; now left].
      destruct (negb _ || negb _);
        [intros H; inversion H; subst; repeat split; now left|].
      destruct (Publish.user cfg) as [u|];
        [|intros H; inversion H; subst; repeat split; now left].
      destruct (Publish.game cfg) as [g|];
        [|intros H; inversion H; subst; repeat split; now left].
      pose proof (checkButler_executed host (Publish.mkState w [])) as Hb.
      pose proof (checkButler_no_info host (Publish.mkState w [])) as Hn.
      destruct (Publish.checkButler host (Publish.mkState w [])) as [butler s1].
      cbn [snd Publish.trace Publish.executed flat_map app existsb] in Hb, Hn.
      destruct butler; cbn [negb];
        [|intros H; inversion H; subst; repeat split; [now right | exact Hn]].
      set (chans := match Publish.channels cfg with Some c => c | None => [] end).
      set (s2 := if Js.arrayIncludes "--dry-run" argv
                 then Publish.log "DRY RUN MODE - no actual uploads" Publish.warn s1
                 else s1).
      assert (Hs2 : Publish.executed (Publish.trace s2) = ["butler -v"]
                    /\ existsb Publish.isInfo (Publish.trace s2) = false).
      { unfold s2. destruct (Js.arrayIncludes "--dry-run" argv);
          unfold Publish.log, Publish.emit; cbn [Publish.trace];
          rewrite ?executed_app, ?existsb_app, Hb, Hn; split; reflexivity. }
      destruct Hs2 as [Hs2 Hn2].
      destruct (Nat.eqb (length chans) 0) eqn:Hlen.
      { intros H. inversion H; subst.
        unfold Publish.log, Publish.emit; cbn [Publish.trace].
        rewrite executed_app, existsb_app, Hs2, Hn2. repeat split. now right. }
      destruct (Publish.optionsOf cfg _) as [opts|].
      - destruct (Publish.pushAll host u g opts chans [] s2). discriminate.
      - destruct (Publish.pushAllNoForEach host chans [] s2) as [[results|m] s3] eqn:Hrun;
          [discriminate|].
        intros H. inversion H; subst.
        destruct (pushAllNoForEach_Throws host chans [] s2 _ _ Hrun)
          as [pre [cp [post [Hc [Hpre [Hcp [Hmsg Hs3]]]]]]].
        rewrite Hs3.
        unfold Publish.log, Publish.emit; cbn [Publish.trace].
        rewrite !executed_app, !existsb_app, executed_warnings, warnings_no_info, Hs2, Hn2.
        repeat split. now right. }
    destruct Hgoal as [H1 [H2 H3]].
    split; [exact H1|]. split; [exact H2|]. split; [exact H3|].
    now apply not_info_not_In.
Qed.

(** A configuration whose [ignore] is a string, with source paths that
    exist: the run ends in the loop with exit code 1, having logged the
    exception and started no transfer; when no source path exists, the same
    configuration gives a run that ends with exit code 0. *)
Example publish_string_ignore :
  Publish.main (stringIgnoreHost ["./dist"]) demoArgv tt
  = (Exited 1, None,
     Publish.mkState tt
       [Publish.Exec "butler -v";
        Publish.Log Publish.success "Butler version: ok";
        Publish.Log Publish.warn "Source path not found: ./dist";
        Publish.Log Publish.error "opts.ignore.forEach is not a function"])
  /\ fst (Publish.main (stringIgnoreHost ["./dist"; "./build/windows"; "./build/linux"])
                       demoArgv tt)
     = (Returned,
        Some [Publish.mkResult "html5" false; Publish.mkResult "windows" false;
              Publish.mkResult "linux" false]).
Proof. split; reflexivity. Qed.

(** [publish.js] ends with exit code 0 exactly when a non-empty config path
    is given, the config file exists and can be read and parsed, the config
    has non-empty [user] and [game], the transfer tool answers the version
    query, the config has at least one channel and, should [config.ignore]
    be a truthy value that is no array, none of the source paths exists
    after the version query. *)
Theorem publish_exit_code {W} (host : Publish.Host W) (argv : list string) (w : W) :
  exitCode (fst (fst (Publish.main host argv w))) = 0
  <-> exists configPath cfg u g version w' c chans,
        argvAt argv 2 = Some configPath /\ Js.truthy configPath = true
        /\ Publish.existsSync host w configPath = true
        /\ Publish.readConfig host w configPath = Normal cfg
        /\ Publish.user cfg = Some u /\ Js.truthy u = true
        /\ Publish.game cfg = Some g /\ Js.truthy g = true
        /\ Publish.execSync host w "butler -v" = (Normal version, w')
        /\ Publish.channels cfg = Some (c :: chans)
        /\ (Publish.ignore cfg = Publish.IgnoreOther ->
            forall cp, In cp (c :: chans) -> Publish.existsSync host w' (snd cp) = false).
Proof.
  assert (Hworld : forall (b : bool) (s1 : Publish.state W),
             Publish.world (if b then Publish.log "DRY RUN MODE - no actual uploads"
                                        Publish.warn s1 else s1)
             = Publish.world s1).
  { intros [|] s1; reflexivity. }
  unfold Publish.main. split.
  - destruct (argvAt argv 2) as [configPath|]; cbn [Js.truthyOpt]; [|discriminate].
    destruct (Js.truthy configPath) eqn:Tp; cbn [negb]; [|discriminate].
    destruct (Publish.existsSync host w configPath) eqn:Hex; cbn [negb]; [|discriminate].
    destruct (Publish.readConfig host w configPath) as [cfg|m] eqn:Hcfg; [|discriminate].
    destruct (Publish.user cfg) as [u|] eqn:Hu; cbn [Js.truthyOpt negb orb];
      [|discriminate].
    destruct (Js.truthy u) eqn:Tu; cbn [negb orb]; [|discriminate].
    destruct (Publish.game cfg) as [g|] eqn:Hg; cbn [Js.truthyOpt negb]; [|discriminate].
    destruct (Js.truthy g) eqn:Tg; cbn [negb]; [|discriminate].
    unfold Publish.checkButler, Publish.run. cbn [Publish.world].
    destruct (Publish.execSync host w "butler -v") as [[v|m] w'] eqn:Hb; cbn [negb];
      [|discriminate].
    destruct (Publish.channels cfg) as [[|c chans]|] eqn:Hch; cbn [length Nat.eqb];
      [discriminate| |discriminate].
    unfold Publish.optionsOf.
    destruct (Publish.ignore cfg) eqn:Hi.
    + intros _. exists configPath, cfg, u, g, v, w', c, chans.
      repeat split; try assumption. intros E. congruence.
    + intros _. exists configPath, cfg, u, g, v, w', c, chans.
      repeat split; try assumption. intros E. congruence.
    + destruct (Publish.pushAllNoForEach host (c :: chans) [] _) as [[res|m] s3] eqn:Hrun;
        [|discriminate].
      intros _. exists configPath, cfg, u, g, v, w', c, chans.
      repeat split; try assumption. intros _.
      destruct (pushAllNoForEach_Normal host _ _ _ _ _ Hrun) as [_ [_ Hall]].
      rewrite Hworld in Hall. exact Hall.
  - intros [configPath [cfg [u [g [v [w' [c [chans
             [-> [Tp [Hex [Hcfg [Hu [Tu [Hg [Tg [Hb [Hch Hign]]]]]]]]]]]]]]]]]].
    cbn [Js.truthyOpt]. rewrite Tp, Hex, Hcfg, Hu, Hg. cbn [Js.truthyOpt].
    rewrite Tu, Tg. cbn [negb orb].
    unfold Publish.checkButler, Publish.run. cbn [Publish.world]. rewrite Hb, Hch.
    cbn [negb length Nat.eqb].
    unfold Publish.optionsOf.
    destruct (Publish.ignore cfg) eqn:Hi.
    + destruct (Publish.pushAll host u g _ (c :: chans) [] _). reflexivity.
    + destruct (Publish.pushAll host u g _ (c :: chans) [] _). reflexivity.
    + destruct (Publish.pushAllNoForEach host (c :: chans) [] _) as [[res|m] s3] eqn:Hrun;
        [reflexivity|].
      destruct (pushAllNoForEach_Throws host _ _ _ _ _ Hrun)
        as [pre [cp [post [Hc [_ [Hcp _]]]]]].
      rewrite Hworld in Hcp.
      change (Publish.existsSync host w' (snd cp) = true) in Hcp.
      rewrite (Hign eq_refl cp) in Hcp; [discriminate|].
      rewrite Hc. apply in_or_app. right. now left.
Qed.

Lemma publish_exit_code_example :
  exitCode (fst (fst (Publish.main noButlerHost demoArgv tt))) = 1
  /\ Publish.executed (Publish.trace (snd (Publish.main noButlerHost demoArgv tt)))
     = ["butler -v"]
  /\ exitCode (fst (fst (Publish.main (demoHost [] []) ["node"; "publish.js"] tt))) = 1
  /\ exitCode (fst (fst (Publish.main (demoHost ["config.json"] []) demoArgv tt))) = 1.
Proof. repeat split. Qed.

Lemma publish_exit_code_witness :
  exitCode (fst (fst (Publish.main (demoHost [] []) demoArgv tt))) = 0.
Proof.
  apply (proj2 (publish_exit_code (demoHost [] []) demoArgv tt)).
  exists "config.json", demoConfig, "alice", "mygame", "ok", tt,
    ("html5", "./dist"), [("windows", "./build/windows"); ("linux", "./build/linux")].
  repeat split. discriminate.
Defined.

Lemma pushAllNoForEach_stops {W} (host : Publish.Host W)
      (pre : list (string * string)) (c p : string) (post : list (string * string)) :
  forall results0 (s : Publish.state W),
    (forall x, In x pre -> Publish.existsSync host (Publish.world s) (snd x) = false) ->
    Publish.existsSync host (Publish.world s) p = true ->
    Publish.pushAllNoForEach host (pre ++ (c, p) :: post) results0 s
    = (Throws "opts.ignore.forEach is not a function",
       Publish.mkState (Publish.world s)
         (Publish.trace s
          ++ map (fun x => Publish.Log Publish.warn ("Source path not found: " ++ snd x))
                 pre)).
Proof.
  induction pre as [|[c0 p0] pre IH]; intros results0 s Hpre Hp.
  - cbn [app Publish.pushAllNoForEach map]. unfold Publish.pushChannelNoForEach.
    rewrite Hp. cbn [negb]. rewrite app_nil_r. now destruct s.
  - cbn [app Publish.pushAllNoForEach map]. unfold Publish.pushChannelNoForEach.
    pose proof (Hpre (c0, p0) (or_introl eq_refl)) as H0. cbn [snd] in H0.
    rewrite H0. cbn [negb].
    rewrite IH.
    + cbn [Publish.log Publish.emit Publish.world Publish.trace].
      now rewrite <- app_assoc.
    + intros x Hin. apply (Hpre x). now right.
    + exact Hp.
Qed.

(** A configuration whose [ignore] is a truthy value that is no array ends
    the run at the first target whose source path exists: the targets before
    it are warned about, the exception of [forEach] leaves [pushChannel]
    and [main], its message is logged as an error and the process exits with
    code 1.  No transfer is started, the targets after it are not looked at,
    and neither the summary nor the status query follows. *)
Theorem publish_ignore_without_forEach {W} (host : Publish.Host W) (argv : list string)
        (w w' : W) (configPath u g v : string) (cfg : Publish.config)
        (pre : list (string * string)) (c p : string) (post : list (string * string)) :
  argvAt argv 2 = Some configPath ->
  Js.truthy configPath = true ->
  Publish.existsSync host w configPath = true ->
  Publish.readConfig host w configPath = Normal cfg ->
  Publish.user cfg = Some u -> Js.truthy u = true ->
  Publish.game cfg = Some g -> Js.truthy g = true ->
  Publish.ignore cfg = Publish.IgnoreOther ->
  Publish.channels cfg = Some (pre ++ (c, p) :: post)%list ->
  Publish.execSync host w "butler -v" = (Normal v, w') ->
  (forall x, In x pre -> Publish.existsSync host w' (snd x) = false) ->
  Publish.existsSync host w' p = true ->
  exists before,
    Publish.executed before = ["butler -v"]
    /\ Publish.main host argv w
       = (Exited 1, None,
          Publish.mkState w'
            (before
             ++ map (fun x => Publish.Log Publish.warn ("Source path not found: " ++ snd x))
                    pre
             ++ [Publish.Log Publish.error "opts.ignore.forEach is not a function"])).
Proof.
  intros Ha Tp Hex Hcfg Hu Tu Hg Tg Hi Hch Hb Hpre Hp.
  unfold Publish.main. rewrite Ha. cbn [Js.truthyOpt].
  rewrite Tp, Hex, Hcfg, Hu, Hg. cbn [Js.truthyOpt]. rewrite Tu, Tg. cbn [negb orb].
  unfold Publish.checkButler, Publish.run. cbn [Publish.world Publish.trace app].
  rewrite Hb, Hch. cbn [negb].
  replace (Nat.eqb (length (pre ++ (c, p) :: post)) 0) with false
    by (destruct pre; reflexivity).
  unfold Publish.optionsOf. rewrite Hi.
  destruct (Js.arrayIncludes "--dry-run" argv).
  - rewrite pushAllNoForEach_stops by assumption.
    exists [Publish.Exec "butler -v";
            Publish.Log Publish.success ("Butler version: " ++ JsText.trim v);
            Publish.Log Publish.warn "DRY RUN MODE - no actual uploads"].
    split; [reflexivity|].
    unfold Publish.log, Publish.emit. cbn [Publish.world Publish.trace].
    now rewrite <- !app_assoc.
  - rewrite pushAllNoForEach_stops by assumption.
    exists [Publish.Exec "butler -v";
            Publish.Log Publish.success ("Butler version: " ++ JsText.trim v)].
    split; [reflexivity|].
    unfold Publish.log, Publish.emit. cbn [Publish.world Publish.trace].
    now rewrite <- !app_assoc.
Qed.

Lemma publish_ignore_without_forEach_witness :
  exists before,
    Publish.executed before = ["butler -v"]
    /\ Publish.main (stringIgnoreHost ["./dist"]) demoArgv tt
       = (Exited 1, None,
          Publish.mkState tt
            (before
             ++ map (fun x => Publish.Log Publish.warn ("Source path not found: " ++ snd x))
                    [("html5", "./dist")]
             ++ [Publish.Log Publish.error "opts.ignore.forEach is not a function"])).
Proof.
  refine (publish_ignore_without_forEach (stringIgnoreHost ["./dist"]) demoArgv tt tt
            "config.json" "alice" "mygame" "ok" stringIgnoreConfig
            [("html5", "./dist")] "windows" "./build/windows" [("linux", "./build/linux")]
            eq_refl eq_refl eq_refl eq_refl eq_refl eq_refl eq_refl eq_refl eq_refl eq_refl
            eq_refl _ eq_refl).
  intros x [<-|[]]. reflexivity.
Defined.

Lemma ignoreFlags_acc (patterns : list string) (acc : string) :
  fold_left (fun cmd pattern => cmd ++ " --ignore " ++ dquote ++ pattern ++ dquote)
            patterns acc
  = acc ++ Publish.ignoreFlags patterns.
Proof.
  unfold Publish.ignoreFlags. revert acc.
  induction patterns as [|p rest IH]; intros acc; simpl.
  - now rewrite append_nil_r.
  - rewrite IH, (IH (String " " _)). now rewrite append_assoc.
Qed.

(** The flags for the ignore patterns, one [--ignore] per pattern, in the
    order of the configuration. *)
Lemma ignoreFlags_cons (p : string) (rest : list string) :
  Publish.ignoreFlags (p :: rest)
  = (" --ignore " ++ dquote ++ p ++ dquote) ++ Publish.ignoreFlags rest.
Proof. unfold Publish.ignoreFlags at 1. simpl. now rewrite ignoreFlags_acc. Qed.

Lemma ignoreFlags_fold_right (patterns : list string) :
  Publish.ignoreFlags patterns
  = fold_right (fun p flags => (" --ignore " ++ dquote ++ p ++ dquote) ++ flags)
               EmptyString patterns.
Proof.
  induction patterns as [|p rest IH]; [reflexivity|].
  rewrite ignoreFlags_cons. cbn [fold_right]. now rewrite IH.
Qed.

Lemma ignoreFlags_includes (patterns : list string) (p : string) :
  In p patterns ->
  Js.includes (" --ignore " ++ dquote ++ p ++ dquote) (Publish.ignoreFlags patterns) = true.
Proof.
  induction patterns as [|q rest IH]; [contradiction|].
  rewrite ignoreFlags_cons. intros [->|Hin].
  - apply (includes_app _ EmptyString).
  - apply includes_app_r. now apply IH.
Qed.

(** The command line of a transfer: it starts with [butler push], the quoted
    source path and the quoted [user/game:channel]; a non-empty version is
    passed as [--userversion]; every ignore pattern is passed as an
    [--ignore] argument of its own, the arguments closing the command in the
    order of the patterns; and with no version, no dry run and no patterns
    nothing follows the target. *)
Theorem pushCommand_arguments (target sourcePath : string) (opts : Publish.options) :
  let base := "butler push " ++ dquote ++ sourcePath ++ dquote ++ " "
              ++ dquote ++ target ++ dquote in
  let cmd := Publish.pushCommand target sourcePath opts in
  Js.startsWith base cmd = true
  /\ (forall v, Publish.opt_version opts = Some v -> v <> EmptyString ->
                Js.includes (" --userversion " ++ dquote ++ v ++ dquote) cmd = true)
  /\ (forall patterns, Publish.opt_ignore opts = Some patterns ->
        Js.endsWith (fold_right (fun p flags => (" --ignore " ++ dquote ++ p ++ dquote) ++ flags)
                                EmptyString patterns) cmd = true
        /\ forall p, In p patterns ->
                     Js.includes (" --ignore " ++ dquote ++ p ++ dquote) cmd = true)
  /\ (Js.truthyOpt (Publish.opt_version opts) = false ->
      Publish.opt_dryRun opts = false ->
      Publish.opt_ignore opts = None \/ Publish.opt_ignore opts = Some [] ->
      cmd = base).
Proof.
  intros base cmd.
  set (ver := if Js.truthyOpt (Publish.opt_version opts)
              then match Publish.opt_version opts with
                   | Some v => " --userversion " ++ dquote ++ v ++ dquote
                   | None => EmptyString
                   end
              else EmptyString).
  set (dry := if Publish.opt_dryRun opts then " --dry-run" else EmptyString).
  set (ign := match Publish.opt_ignore opts with
              | Some patterns => Publish.ignoreFlags patterns
              | None => EmptyString
              end).
  assert (Hcmd : cmd = base ++ ver ++ dry ++ ign).
  { unfold cmd, base, Publish.pushCommand. fold ver dry ign.
    now rewrite !append_assoc. }
  split; [apply startsWith_spec; now exists (ver ++ dry ++ ign)|].
  split; [|split].
  - intros v Hv Hne. rewrite Hcmd. apply includes_app_r.
    unfold ver. rewrite Hv. cbn [Js.truthyOpt]. unfold Js.truthy.
    destruct (String.eqb v EmptyString) eqn:E; [apply String.eqb_eq in E; contradiction|].
    cbn [negb]. apply (includes_app _ EmptyString).
  - intros patterns Hp.
    pose proof (ignoreFlags_fold_right patterns) as Hflags.
    split.
    + rewrite <- Hflags, Hcmd. unfold ign. rewrite Hp.
      apply endsWith_spec. exists (base ++ ver ++ dry). now rewrite !append_assoc.
    + intros p Hin. rewrite Hcmd. do 3 apply includes_app_r.
      unfold ign. rewrite Hp. now apply ignoreFlags_includes.
  - intros Hv Hd Hi. rewrite Hcmd. unfold ver, dry, ign. rewrite Hv, Hd.
    destruct Hi as [-> | ->]; cbn; now rewrite append_nil_r.
Qed.

Lemma pushCommand_arguments_witness :
  Js.includes (" --userversion " ++ dquote ++ "1.0.0" ++ dquote)
    (Publish.pushCommand "alice/mygame:html5" "./dist"
       (Publish.mkOptions (Some "1.0.0") (Some ["*.map"; "node_modules/**"]) false)) = true
  /\ Js.includes (" --ignore " ++ dquote ++ "node_modules/**" ++ dquote)
       (Publish.pushCommand "alice/mygame:html5" "./dist"
          (Publish.mkOptions (Some "1.0.0") (Some ["*.map"; "node_modules/**"]) false)) = true.
Proof.
  pose proof (pushCommand_arguments "alice/mygame:html5" "./dist"
                (Publish.mkOptions (Some "1.0.0") (Some ["*.map"; "node_modules/**"]) false))
    as [_ [Hv [Hi _]]].
  split.
  - apply (Hv "1.0.0" eq_refl). discriminate.
  - apply (proj2 (Hi _ eq_refl)). right. now left.
Defined.

(** When none of the source paths exists, the publish loop starts no process
    and leaves the world as it was: it prints one warning per target and
    records a failure for each. *)
Theorem pushAll_all_missing {W} (host : Publish.Host W) (user game : string)
        (opts : Publish.options) (chans : list (string * string)) (s : Publish.state W) :
  (forall c p, In (c, p) chans -> Publish.existsSync host (Publish.world s) p = false) ->
  Publish.pushAll host user game opts chans [] s
  = (map (fun cp => Publish.mkResult (fst cp) false) chans,
     Publish.mkState (Publish.world s)
       (Publish.trace s
        ++ map (fun cp => Publish.Log Publish.warn ("Source path not found: " ++ snd cp))
               chans)).
Proof.
  revert s. induction chans as [|[c p] rest IH]; intros s Hall.
  - simpl. rewrite app_nil_r. now destruct s.
  - rewrite pushAll_cons.
    assert (Hone : Publish.pushChannel host user game c p opts s
                   = (false, Publish.log ("Source path not found: " ++ p) Publish.warn s)).
    { unfold Publish.pushChannel. now rewrite (Hall c p (or_introl eq_refl)). }
    rewrite Hone. cbn [fst snd].
    rewrite IH by (intros c' p' Hin; apply (Hall c' p'); now right).
    cbn [fst snd map Publish.log Publish.emit Publish.world Publish.trace].
    now rewrite <- app_assoc.
Qed.

Lemma pushAll_all_missing_witness :
  Publish.pushAll (demoHost ["./dist"; "./build/windows"] []) "alice" "mygame"
    (Publish.mkOptions None None false)
    [("html5", "./dist"); ("windows", "./build/windows")] [] (Publish.mkState tt [])
  = ([Publish.mkResult "html5" false; Publish.mkResult "windows" false],
     Publish.mkState tt
       [Publish.Log Publish.warn "Source path not found: ./dist";
        Publish.Log Publish.warn "Source path not found: ./build/windows"]).
Proof.
  refine (pushAll_all_missing (demoHost ["./dist"; "./build/windows"] []) "alice" "mygame"
            (Publish.mkOptions None None false)
            [("html5", "./dist"); ("windows", "./build/windows")] (Publish.mkState tt []) _).
  intros c p [H|[H|[]]]; inversion H; reflexivity.
Defined.



(** ** feedback.js: the sentiment of a text *)

Lemma fold_count_up {A} (f : A -> bool) (l : list A) (acc : Z) :
  fold_left (fun score w => if f w then (score + 1)%Z else score) l acc
  = (acc + Z.of_nat (length (filter f l)))%Z.
Proof.
  revert acc. induction l as [|x l IH]; intros acc; simpl; [lia|].
  rewrite IH. destruct (f x); simpl length; lia.
Qed.

Lemma fold_count_down {A} (f : A -> bool) (l : list A) (acc : Z) :
  fold_left (fun score w => if f w then (score - 1)%Z else score) l acc
  = (acc - Z.of_nat (length (filter f l)))%Z.
Proof.
  revert acc. induction l as [|x l IH]; intros acc; simpl; [lia|].
  rewrite IH. destruct (f x); simpl length; lia.
Qed.

(** The score of a text is the number of positive keywords that occur in its
    lower-cased form, each counted once, less the number of negative
    keywords that occur; so it lies between -13 and 11.  The label is
    positive, negative or neutral as the first number is greater than, less
    than or equal to the second, and a neutral text has score 0. *)
Theorem analyzeSentiment_score (text : string) :
  let lower := Js.toLowerCase text in
  let hits := length (filter (fun w => Js.includes w lower) Feedback.positive) in
  let misses := length (filter (fun w => Js.includes w lower) Feedback.negative) in
  let s := Feedback.analyzeSentiment text in
  Feedback.score s = (Z.of_nat hits - Z.of_nat misses)%Z
  /\ (-13 <= Feedback.score s <= 11)%Z
  /\ (Feedback.label s = "😊 Positive" <-> misses < hits)
  /\ (Feedback.label s = "😞 Negative" <-> hits < misses)
  /\ (Feedback.label s = "😐 Neutral" <-> hits = misses).
Proof.
  intros lower hits misses s.
  assert (Hh : hits <= 11)
    by (apply (filter_length_le (fun w => Js.includes w lower) Feedback.positive)).
  assert (Hm : misses <= 13)
    by (apply (filter_length_le (fun w => Js.includes w lower) Feedback.negative)).
  unfold s, Feedback.analyzeSentiment. fold lower.
  rewrite fold_count_down, fold_count_up. fold hits misses.
  destruct (0 <? 0 + Z.of_nat hits - Z.of_nat misses)%Z eqn:Hpos.
  - apply Z.ltb_lt in Hpos. cbn [Feedback.score Feedback.label].
    repeat split; try lia; try discriminate; intros; exfalso; lia.
  - apply Z.ltb_ge in Hpos.
    destruct (0 + Z.of_nat hits - Z.of_nat misses <? 0)%Z eqn:Hneg.
    + apply Z.ltb_lt in Hneg. cbn [Feedback.score Feedback.label].
      repeat split; try lia; try discriminate; intros; exfalso; lia.
    + apply Z.ltb_ge in Hneg. cbn [Feedback.score Feedback.label].
      repeat split; try lia; try discriminate; intros; exfalso; lia.
Qed.

(** ** feedback.js: the sentiment report *)

Lemma tally_acc (comments : list Feedback.comment) (p n u : nat) :
  fold_left (fun '(positive, negative, neutral) c =>
               let s := Feedback.analyzeSentiment (Feedback.bodyOf c) in
               if (0 <? Feedback.score s)%Z then (S positive, negative, neutral)
               else if (Feedback.score s <? 0)%Z then (positive, S negative, neutral)
               else (positive, negative, S neutral))
            comments (p, n, u)
  = (p + length (filter (fun c => (0 <? Feedback.score
                                          (Feedback.analyzeSentiment (Feedback.bodyOf c)))%Z)
                        comments),
     n + length (filter (fun c => (Feedback.score
                                     (Feedback.analyzeSentiment (Feedback.bodyOf c)) <? 0)%Z)
                        comments),
     u + length (filter (fun c => (Feedback.score
                                     (Feedback.analyzeSentiment (Feedback.bodyOf c)) =? 0)%Z)
                        comments)).
Proof.
  revert p n u. induction comments as [|c rest IH]; intros p n u.
  - simpl. now rewrite !Nat.add_0_r.
  - cbn [fold_left filter].
    destruct (0 <? Feedback.score (Feedback.analyzeSentiment (Feedback.bodyOf c)))%Z eqn:Hp.
    + rewrite IH. apply Z.ltb_lt in Hp.
      replace (_ <? 0)%Z with false by (symmetry; apply Z.ltb_ge; lia).
      replace (_ =? 0)%Z with false by (symmetry; apply Z.eqb_neq; lia).
      simpl length.
        apply pair_equal_spec; split; [apply pair_equal_spec; split|]; lia.
    + apply Z.ltb_ge in Hp.
      destruct (Feedback.score (Feedback.analyzeSentiment (Feedback.bodyOf c)) <? 0)%Z eqn:Hn.
      * rewrite IH. apply Z.ltb_lt in Hn.
        replace (_ =? 0)%Z with false by (symmetry; apply Z.eqb_neq; lia).
        simpl length.
        apply pair_equal_spec; split; [apply pair_equal_spec; split|]; lia.
      * rewrite IH. apply Z.ltb_ge in Hn.
        replace (_ =? 0)%Z with true by (symmetry; apply Z.eqb_eq; lia).
        simpl length.
        apply pair_equal_spec; split; [apply pair_equal_spec; split|]; lia.
Qed.

Lemma tally_total (comments : list Feedback.comment) :
  let '(p, n, u) := Feedback.tally comments in p + n + u = length comments.
Proof.
  unfold Feedback.tally. rewrite tally_acc. cbn [Nat.add].
  induction comments as [|c rest IH]; [reflexivity|].
  cbn [filter].
  set (sc := Feedback.score (Feedback.analyzeSentiment (Feedback.bodyOf c))) in *.
  destruct (Z.ltb_spec 0 sc), (Z.ltb_spec sc 0), (Z.eqb_spec sc 0); cbn [length]; lia.
Qed.

Lemma fetchComments_lines {W} (host : Feedback.Host W) gameId limit w (l : Feedback.line) :
  In l (snd (fst (Feedback.fetchComments host gameId limit w))) ->
  match l with
  | Feedback.SentimentHeader _ | Feedback.SentimentCounts _ _ _ | Feedback.Keywords _
  | Feedback.NoComments => False
  | _ => True
  end.
Proof.
  unfold Feedback.fetchComments.
  destruct (Feedback.api host w _) as [[data|m] w']; cbn [fst snd].
  - intros [<-|Hin]; [exact I|].
    apply in_flat_map in Hin. destruct Hin as [c [_ [<-|[<-|[]]]]]; exact I.
  - intros [<-|[<-|[]]]; exact I.
Qed.

Lemma fetchComments_limit {W} (host : Feedback.Host W) gameId limit w :
  length (fst (fst (Feedback.fetchComments host gameId limit w))) <= limit.
Proof.
  unfold Feedback.fetchComments.
  destruct (Feedback.api host w _) as [[data|m] w']; cbn [fst snd length]; [|lia].
  apply firstn_le_length.
Qed.

(** When [sentimentReport] prints its counts, they add up to the number of
    comments analysed, which is the number in its header and in the header
    of the listing before it, is at least 1 and is at most 50. *)
Theorem sentimentReport_counts {W} (host : Feedback.Host W) (gameId : string) (w : W)
        (p u n : nat) :
  In (Feedback.SentimentCounts p u n) (fst (Feedback.sentimentReport host gameId w)) ->
  let fetched := fst (fst (Feedback.fetchComments host gameId 50 w)) in
  p + u + n = length fetched
  /\ 1 <= length fetched <= 50
  /\ In (Feedback.SentimentHeader (length fetched))
        (fst (Feedback.sentimentReport host gameId w))
  /\ In (Feedback.CommentsHeader (length fetched))
        (fst (Feedback.sentimentReport host gameId w))
  /\ ~ In Feedback.NoComments (fst (Feedback.sentimentReport host gameId w)).
Proof.
  unfold Feedback.sentimentReport.
  pose proof (fetchComments_limit host gameId 50 w) as Hlim.
  pose proof (fetchComments_lines host gameId 50 w) as Hlines.
  assert (Hhead : In (Feedback.CommentsHeader
                        (length (fst (fst (Feedback.fetchComments host gameId 50 w)))))
                     (snd (fst (Feedback.fetchComments host gameId 50 w)))
                  \/ fst (fst (Feedback.fetchComments host gameId 50 w)) = []).
  { unfold Feedback.fetchComments.
    destruct (Feedback.api host w _) as [[data|m] w']; cbn [fst snd]; [left; now left|now right]. }
  destruct (Feedback.fetchComments host gameId 50 w) as [[comments out] w'].
  cbn [fst snd] in *.
  destruct (Nat.eqb (length comments) 0) eqn:Hlen.
  - cbn [fst]. intros Hin. apply in_app_or in Hin.
    destruct Hin as [Hin|[Hin|[]]]; [exact (False_ind _ (Hlines _ Hin)) | discriminate].
  - apply Nat.eqb_neq in Hlen.
    pose proof (tally_total comments) as Htot.
    destruct (Feedback.tally comments) as [[p' n'] u']. cbn [fst].
    intros Hin. cbn zeta.
    apply in_app_or in Hin. destruct Hin as [Hin|Hin];
      [exact (False_ind _ (Hlines _ Hin))|].
    destruct Hin as [Hin|[Hin|Hin]]; [discriminate| |].
    + inversion Hin. subst. split; [lia|]. split; [lia|]. split; [|split].
      * apply in_or_app. right. now left.
      * apply in_or_app. left. destruct Hhead as [Hh|Hh]; [exact Hh|].
        subst comments. simpl in Hlen. contradiction.
      * intros Hno. apply in_app_or in Hno. destruct Hno as [Hno|Hno];
          [exact (Hlines _ Hno)|].
        destruct Hno as [Hno|[Hno|Hno]]; try discriminate.
        destruct (Nat.ltb 0 _); [destruct Hno as [Hno|[]]; discriminate | destruct Hno].
    + destruct (Nat.ltb 0 _); [destruct Hin as [Hin|[]]; discriminate | destruct Hin].
Qed.

Lemma sentimentReport_counts_witness :
  let fetched := fst (fst (Feedback.fetchComments (feedbackHost (Normal threeComments))
                             "42" 50 tt)) in
  1 + 1 + 1 = length fetched
  /\ 1 <= length fetched <= 50
  /\ In (Feedback.SentimentHeader (length fetched))
        (fst (Feedback.sentimentReport (feedbackHost (Normal threeComments)) "42" tt))
  /\ In (Feedback.CommentsHeader (length fetched))
        (fst (Feedback.sentimentReport (feedbackHost (Normal threeComments)) "42" tt))
  /\ ~ In Feedback.NoComments
          (fst (Feedback.sentimentReport (feedbackHost (Normal threeComments)) "42" tt)).
Proof.
  refine (sentimentReport_counts (feedbackHost (Normal threeComments)) "42" tt 1 1 1 _).
  vm_compute. do 8 right. left. reflexivity.
Defined.

Lemma startsWith_before_space (k a b : string) :
  spaceless k = true -> Js.startsWith k (a ++ String " " b) = Js.startsWith k a.
Proof.
  revert a. induction k as [|x k IH]; intros a Hk; [reflexivity|].
  cbn [spaceless] in Hk. apply andb_true_iff in Hk. destruct Hk as [Hx Hk].
  destruct a as [|c a]; cbn [append Js.startsWith].
  - apply negb_true_iff in Hx. now rewrite Hx.
  - now rewrite (IH a Hk).
Qed.

(** A word without a space occurs in two texts joined by a space only by
    occurring in one of them. *)
Lemma includes_across_space (k a b : string) :
  spaceless k = true -> k <> EmptyString ->
  Js.includes k (a ++ String " " b) = Js.includes k a || Js.includes k b.
Proof.
  intros Hk Hne. induction a as [|c a IH].
  - destruct k as [|x k]; [contradiction|].
    cbn [spaceless] in Hk. apply andb_true_iff in Hk. destruct Hk as [Hx _].
    apply negb_true_iff in Hx.
    cbn [append Js.includes Js.startsWith]. now rewrite Hx.
  - cbn [append Js.includes]. rewrite IH.
    change (String c (a ++ String " " b)) with (String c a ++ String " " b).
    rewrite (startsWith_before_space k (String c a) b Hk). now rewrite orb_assoc.
Qed.

Lemma includes_join (k : string) (texts : list string) :
  spaceless k = true -> k <> EmptyString ->
  Js.includes k (JsText.join " " texts) = existsb (Js.includes k) texts.
Proof.
  intros Hk Hne. induction texts as [|a rest IH].
  - destruct k; [contradiction | reflexivity].
  - destruct rest as [|b rest].
    + cbn [JsText.join existsb]. now rewrite orb_false_r.
    + change (JsText.join " " (a :: b :: rest))
        with (a ++ String " " (JsText.join " " (b :: rest))).
      rewrite (includes_across_space k a _ Hk Hne), IH. reflexivity.
Qed.

Lemma toLowerCase_app (a b : string) :
  Js.toLowerCase (a ++ b) = Js.toLowerCase a ++ Js.toLowerCase b.
Proof. induction a as [|c a IH]; simpl; [reflexivity | now rewrite IH]. Qed.

Lemma toLowerCase_join (texts : list string) :
  Js.toLowerCase (JsText.join " " texts) = JsText.join " " (map Js.toLowerCase texts).
Proof.
  induction texts as [|a rest IH]; [reflexivity|].
  destruct rest as [|b rest]; [reflexivity|].
  change (JsText.join " " (a :: b :: rest)) with (a ++ " " ++ JsText.join " " (b :: rest)).
  rewrite !toLowerCase_app, IH. reflexivity.
Qed.

(** The keywords [sentimentReport] lists are exactly the candidate words
    that occur in the lower-cased body of at least one analysed comment: a
    word is never found across the boundary of two comments. *)
Theorem sentimentReport_keywords {W} (host : Feedback.Host W) (gameId : string) (w : W)
        (found : list string) :
  In (Feedback.Keywords found) (fst (Feedback.sentimentReport host gameId w)) ->
  let fetched := fst (fst (Feedback.fetchComments host gameId 50 w)) in
  found <> []
  /\ forall k,
       In k found
       <-> In k Feedback.keywordCandidates
           /\ exists c, In c fetched
                        /\ Js.includes k (Js.toLowerCase (Feedback.bodyOf c)) = true.
Proof.
  unfold Feedback.sentimentReport.
  pose proof (fetchComments_lines host gameId 50 w) as Hlines.
  destruct (Feedback.fetchComments host gameId 50 w) as [[comments out] w'].
  cbn [fst snd] in *.
  destruct (Nat.eqb (length comments) 0).
  - cbn [fst]. intros Hin. apply in_app_or in Hin.
    destruct Hin as [Hin|[Hin|[]]]; [exact (False_ind _ (Hlines _ Hin)) | discriminate].
  - destruct (Feedback.tally comments) as [[p' n'] u']. cbn [fst].
    intros Hin. cbn zeta.
    apply in_app_or in Hin. destruct Hin as [Hin|Hin];
      [exact (False_ind _ (Hlines _ Hin))|].
    destruct Hin as [Hin|[Hin|Hin]]; [discriminate|discriminate|].
    remember (filter (fun k => Js.includes k
                                 (Js.toLowerCase (JsText.join " " (map Feedback.bodyOf comments))))
                     Feedback.keywordCandidates) as kw eqn:Hkw.
    destruct (Nat.ltb 0 (length kw)) eqn:Hlen; [|destruct Hin].
    destruct Hin as [Hin|[]]. injection Hin as Hf. subst found.
    split.
    + intros Hnil. rewrite Hnil in Hlen. discriminate.
    + intros k. rewrite Hkw, filter_In. split.
      * intros [Hk Hinc]. split; [exact Hk|].
        assert (Hsp : spaceless k = true /\ k <> EmptyString).
        { unfold Feedback.keywordCandidates in Hk.
          repeat (destruct Hk as [<-|Hk]; [split; [reflexivity | discriminate]|]).
          destruct Hk. }
        rewrite toLowerCase_join, (includes_join k _ (proj1 Hsp) (proj2 Hsp)) in Hinc.
        apply existsb_exists in Hinc. destruct Hinc as [t [Ht Hkt]].
        rewrite map_map in Ht. apply in_map_iff in Ht. destruct Ht as [c [<- Hc]].
        now exists c.
      * intros [Hk [c [Hc Hkc]]]. split; [exact Hk|].
        assert (Hsp : spaceless k = true /\ k <> EmptyString).
        { unfold Feedback.keywordCandidates in Hk.
          repeat (destruct Hk as [<-|Hk]; [split; [reflexivity | discriminate]|]).
          destruct Hk. }
        rewrite toLowerCase_join, (includes_join k _ (proj1 Hsp) (proj2 Hsp)).
        apply existsb_exists. exists (Js.toLowerCase (Feedback.bodyOf c)).
        split; [|exact Hkc]. rewrite map_map.
        apply (in_map (fun x => Js.toLowerCase (Feedback.bodyOf x))). exact Hc.
Qed.

Lemma sentimentReport_keywords_witness :
  let fetched := fst (fst (Feedback.fetchComments (feedbackHost (Normal threeComments))
                             "42" 50 tt)) in
  ["crash"; "love"; "level"; "graphics"] <> []
  /\ forall k,
       In k ["crash"; "love"; "level"; "graphics"]
       <-> In k Feedback.keywordCandidates
           /\ exists c, In c fetched
                        /\ Js.includes k (Js.toLowerCase (Feedback.bodyOf c)) = true.
Proof.
  refine (sentimentReport_keywords (feedbackHost (Normal threeComments)) "42" tt
            ["crash"; "love"; "level"; "graphics"] _).
  vm_compute. do 9 right. left. reflexivity.
Defined.

(** ** steam-keys.js: the keys of a CSV text, and the inventory *)

Lemma split_nonempty (sep : ascii) (s : string) : JsText.split sep s <> [].
Proof.
  destruct s as [|c s]; simpl; [discriminate|].
  destruct (Ascii.eqb c sep); [discriminate|].
  destruct (JsText.split sep s); discriminate.
Qed.

(** No piece of a split holds the separator. *)
Lemma split_no_sep (sep : ascii) (s x : string) :
  In x (JsText.split sep s) -> Js.includes (String sep EmptyString) x = false.
Proof.
  revert x. induction s as [|c s IH]; intros x; simpl.
  - intros [<-|[]]. reflexivity.
  - destruct (Ascii.eqb c sep) eqn:E.
    + intros [<-|Hin]; [reflexivity | now apply IH].
    + pose proof (split_nonempty sep s) as Hne.
      destruct (JsText.split sep s) as [|h t]; [contradiction|].
      intros [<-|Hin]; [|apply IH; now right].
      cbn [Js.includes Js.startsWith]. rewrite (IH h (or_introl eq_refl)).
      rewrite Ascii.eqb_sym, E. reflexivity.
Qed.

(** The first piece of a split starts the text. *)
Lemma split_head_prefix (sep : ascii) (s h : string) (t : list string) :
  JsText.split sep s = h :: t -> exists r, s = h ++ r.
Proof.
  revert h t. induction s as [|c s IH]; intros h t; simpl.
  - intros H. inversion H. now exists EmptyString.
  - destruct (Ascii.eqb c sep).
    + intros H. inversion H. now exists (String c s).
    + destruct (JsText.split sep s) as [|h' t'] eqn:Hs.
      * intros H. inversion H. exfalso. exact (split_nonempty sep s Hs).
      * intros H. injection H as <- <-. destruct (IH h' t' eq_refl) as [r ->].
        now exists r.
Qed.

Lemma trimStart_suffix (s : string) : exists a, s = a ++ JsText.trimStart s.
Proof.
  induction s as [|c s [a IH]]; simpl; [now exists EmptyString|].
  destruct (JsText.isSpace c); [|now exists EmptyString].
  exists (String c a). simpl. now rewrite <- IH.
Qed.

Lemma trimEnd_prefix (s : string) : exists b, s = JsText.trimEnd s ++ b.
Proof.
  induction s as [|c s [b IH]]; simpl; [now exists EmptyString|].
  destruct (JsText.isSpace c && String.eqb (JsText.trimEnd s) EmptyString).
  - now exists (String c s).
  - exists b. simpl. now rewrite <- IH.
Qed.

Lemma trim_within (s : string) : Js.includes (JsText.trim s) s = true.
Proof.
  apply includes_spec. unfold JsText.trim.
  destruct (trimStart_suffix s) as [a Ha].
  destruct (trimEnd_prefix (JsText.trimStart s)) as [b Hb].
  exists a, b. now rewrite <- Hb.
Qed.

Lemma trimEnd_idempotent (s : string) : JsText.trimEnd (JsText.trimEnd s) = JsText.trimEnd s.
Proof.
  induction s as [|c s IH]; [reflexivity|].
  cbn [JsText.trimEnd].
  destruct (JsText.isSpace c && String.eqb (JsText.trimEnd s) EmptyString) eqn:E;
    [reflexivity|].
  cbn [JsText.trimEnd]. rewrite IH, E. reflexivity.
Qed.

Lemma trimStart_clean (s : string) :
  match s with
  | EmptyString => True
  | String c _ => JsText.isSpace c = false
  end ->
  JsText.trimStart (JsText.trimEnd s) = JsText.trimEnd s.
Proof.
  destruct s as [|c s]; [reflexivity|]. intros Hc.
  cbn [JsText.trimEnd]. rewrite Hc. cbn [andb JsText.trimStart]. now rewrite Hc.
Qed.

Lemma trimStart_starts_clean (s : string) :
  match JsText.trimStart s with
  | EmptyString => True
  | String c _ => JsText.isSpace c = false
  end.
Proof.
  induction s as [|c s IH]; [exact I|].
  cbn [JsText.trimStart]. destruct (JsText.isSpace c) eqn:E; [exact IH | exact E].
Qed.

Lemma trim_idempotent (s : string) : JsText.trim (JsText.trim s) = JsText.trim s.
Proof.
  unfold JsText.trim.
  rewrite (trimStart_clean _ (trimStart_starts_clean s)).
  apply trimEnd_idempotent.
Qed.

(** Every key counted in a CSV text is non-empty, holds neither a comma nor a
    line feed, and has no white space at either end; and there are no more
    keys than lines. *)
Theorem csvKeys_clean (content : string) :
  length (SteamKeys.csvKeys content) <= length (JsText.split "010"%char content)
  /\ forall k, In k (SteamKeys.csvKeys content) ->
               k <> EmptyString
               /\ Js.includes "," k = false
               /\ Js.includes newline k = false
               /\ JsText.trim k = k.
Proof.
  unfold SteamKeys.csvKeys. split.
  - eapply Nat.le_trans; [apply filter_length_le|]. rewrite length_map.
    apply filter_length_le.
  - intros k Hk. apply filter_In in Hk. destruct Hk as [Hk Htruthy].
    apply in_map_iff in Hk. destruct Hk as [line [<- Hline]].
    apply filter_In in Hline. destruct Hline as [Hline _].
    pose proof (split_no_sep _ _ _ Hline) as Hnl.
    pose proof (split_nonempty ","%char line) as Hne.
    destruct (JsText.split ","%char line) as [|field rest] eqn:Hsplit; [contradiction|].
    assert (Hcomma : Js.includes "," field = false)
      by (apply (split_no_sep ","%char line); rewrite Hsplit; now left).
    destruct (split_head_prefix _ _ _ _ Hsplit) as [r Hr].
    assert (Hfield : Js.includes field line = true)
      by (apply includes_spec; exists EmptyString, r; exact Hr).
    pose proof (trim_within field) as Htrim.
    repeat split.
    + intros E. unfold Js.truthy in Htruthy. rewrite E in Htruthy. discriminate.
    + destruct (Js.includes "," (JsText.trim field)) eqn:E; [|reflexivity].
      now rewrite (includes_trans _ _ _ E Htrim) in Hcomma.
    + destruct (Js.includes newline (JsText.trim field)) eqn:E; [|reflexivity].
      pose proof (includes_trans _ _ _ (includes_trans _ _ _ E Htrim) Hfield) as Hc.
      unfold newline in Hc. rewrite Hc in Hnl. discriminate.
    + apply trim_idempotent.
Qed.

Example csvKeys_example : SteamKeys.csvKeys sampleCsv = ["AAAAA-BBBBB"; "CCCCC"; "DDD"].
Proof. reflexivity. Qed.

Lemma filter_split_length {A} (f : A -> bool) (l : list A) :
  length (filter f l) + length (filter (fun x => negb (f x)) l) = length l.
Proof.
  induction l as [|x l IH]; [reflexivity|]. simpl. destruct (f x); simpl; lia.
Qed.

(** When [countKeys] prints an inventory, the number it gives as available is
    the number of keys that are not claimed, so it is never negative, and
    the claimed and the available keys together are the total.  It prints an
    inventory only when the request succeeded. *)
Theorem countKeys_available {W} (host : SteamKeys.Host W) (gameId : string) (w : W) (n : Z) :
  In (SteamKeys.Available n) (fst (SteamKeys.countKeys host gameId w)) ->
  exists keys w',
    SteamKeys.api host w ("/games/" ++ gameId ++ "/steam_keys") = (Normal keys, w')
    /\ n = Z.of_nat (length (filter (fun k => negb (SteamKeys.claimed k)) keys))
    /\ (0 <= n)%Z
    /\ fst (SteamKeys.countKeys host gameId w)
       = [SteamKeys.GameId gameId;
          SteamKeys.Total (Z.of_nat (length keys));
          SteamKeys.Claimed (Z.of_nat (length keys) - n);
          SteamKeys.Available n].
Proof.
  unfold SteamKeys.countKeys.
  destruct (SteamKeys.api host w _) as [[keys|m] w']; cbn [fst].
  - intros [H|[H|[H|[H|[]]]]]; try discriminate. injection H as <-.
    exists keys, w'. pose proof (filter_split_length SteamKeys.claimed keys) as Hs.
    split; [reflexivity|]. split; [lia|]. split; [lia|].
    do 2 f_equal. f_equal. f_equal. lia.
  - intros [H|[]]. discriminate.
Qed.

Lemma countKeys_available_witness :
  exists keys w',
    SteamKeys.api (keysHost (Normal [SteamKeys.mkSteamKey "AAA" true;
                                     SteamKeys.mkSteamKey "BBB" false;
                                     SteamKeys.mkSteamKey "CCC" false])) tt
      ("/games/" ++ "42" ++ "/steam_keys") = (Normal keys, w')
    /\ 2%Z = Z.of_nat (length (filter (fun k => negb (SteamKeys.claimed k)) keys))
    /\ (0 <= 2)%Z
    /\ fst (SteamKeys.countKeys
              (keysHost (Normal [SteamKeys.mkSteamKey "AAA" true;
                                 SteamKeys.mkSteamKey "BBB" false;
                                 SteamKeys.mkSteamKey "CCC" false])) "42" tt)
       = [SteamKeys.GameId "42";
          SteamKeys.Total (Z.of_nat (length keys));
          SteamKeys.Claimed (Z.of_nat (length keys) - 2);
          SteamKeys.Available 2%Z].
Proof.
  refine (countKeys_available
            (keysHost (Normal [SteamKeys.mkSteamKey "AAA" true;
                               SteamKeys.mkSteamKey "BBB" false;
                               SteamKeys.mkSteamKey "CCC" false])) "42" tt 2%Z _).
  vm_compute. do 3 right. left. reflexivity.
Defined.

(** ** template-html5.js: the title made from a game name *)

Lemma upperChar_facts (c : ascii) :
  JsText.isWord (JsText.upperChar c) = JsText.isWord c
  /\ JsText.upperChar (JsText.upperChar c) = JsText.upperChar c
  /\ (JsText.isWord c = true -> Ascii.eqb (JsText.upperChar c) "-"%char = false)
  /\ (JsText.isWord c = true -> JsText.isSpace (JsText.upperChar c) = false).
Proof.
  destruct c as [[] [] [] [] [] [] [] []]; vm_compute; repeat split; try reflexivity;
    discriminate.
Qed.

Lemma capitalize_length (inWord : bool) (s : string) :
  String.length (Template.capitalize inWord s) = String.length s.
Proof.
  revert inWord. induction s as [|c s IH]; intros inWord; simpl; [reflexivity|].
  now rewrite IH.
Qed.

Lemma replaceHyphens_length (s : string) :
  String.length (Template.replaceHyphens s) = String.length s.
Proof. induction s as [|c s IH]; simpl; [reflexivity | now rewrite IH]. Qed.

Lemma replaceHyphens_none (s : string) : Js.includes "-" (Template.replaceHyphens s) = false.
Proof.
  induction s as [|c s IH]; [reflexivity|].
  cbn [Template.replaceHyphens Js.includes Js.startsWith]. rewrite IH, andb_true_r, orb_false_r.
  destruct (Ascii.eqb c "-") eqn:E; [reflexivity|].
  now rewrite Ascii.eqb_sym.
Qed.

Lemma capitalize_no_hyphen (inWord : bool) (s : string) :
  Js.includes "-" s = false -> Js.includes "-" (Template.capitalize inWord s) = false.
Proof.
  revert inWord. induction s as [|c s IH]; intros inWord; [reflexivity|].
  cbn [Template.capitalize Js.includes Js.startsWith]. rewrite !andb_true_r.
  intros H. apply orb_false_iff in H. destruct H as [Hc Hs].
  rewrite (IH _ Hs), orb_false_r.
  destruct (JsText.isWord c && negb inWord) eqn:E; [|exact Hc].
  apply andb_true_iff in E. destruct E as [Hw _].
  rewrite Ascii.eqb_sym. exact (proj1 (proj2 (proj2 (upperChar_facts c))) Hw).
Qed.

Lemma replaceHyphens_id (s : string) :
  Js.includes "-" s = false -> Template.replaceHyphens s = s.
Proof.
  induction s as [|c s IH]; [reflexivity|].
  cbn [Template.replaceHyphens Js.includes Js.startsWith]. rewrite andb_true_r.
  intros H. apply orb_false_iff in H. destruct H as [Hc Hs].
  rewrite (IH Hs). rewrite Ascii.eqb_sym in Hc. now rewrite Hc.
Qed.

Lemma capitalize_idempotent (inWord : bool) (s : string) :
  Template.capitalize inWord (Template.capitalize inWord s) = Template.capitalize inWord s.
Proof.
  revert inWord. induction s as [|c s IH]; intros inWord; [reflexivity|].
  cbn [Template.capitalize].
  destruct (upperChar_facts c) as [Hw [Hu _]].
  destruct (JsText.isWord c && negb inWord) eqn:E.
  - rewrite Hw, E, Hu, IH. reflexivity.
  - rewrite E, IH. reflexivity.
Qed.

(** The title is as long as the game name and has no hyphen left; making a
    title of a title changes nothing. *)
Theorem title_shape (gameName : string) :
  String.length (Template.title gameName) = String.length gameName
  /\ Js.includes "-" (Template.title gameName) = false
  /\ Template.title (Template.title gameName) = Template.title gameName.
Proof.
  unfold Template.title. split; [|split].
  - now rewrite capitalize_length, replaceHyphens_length.
  - apply capitalize_no_hyphen, replaceHyphens_none.
  - rewrite (replaceHyphens_id (Template.capitalize false _))
      by (apply capitalize_no_hyphen, replaceHyphens_none).
    apply capitalize_idempotent.
Qed.

Example title_example :
  Template.title "my-awesome-game" = "My Awesome Game"
  /\ Template.title "a_b-c9d--e f.g" = "A_b C9d  E F.G".
Proof. split; reflexivity. Qed.

(** ** The Ren'Py classifier: first match wins *)

(** When the check of some platform accepts the listing, the Ren'Py
    classifier returns the first platform, in the order of [PLATFORMS], whose
    check accepts it; the name of the directory plays no part then. *)
Theorem renpy_first_match_wins (fs : FileSystem) (dir : string) (files : list string)
        (q : RenPy.platform) :
  readdirSync fs dir = Normal files ->
  RenPy.check (RenPy.PLATFORMS q) files = true ->
  exists p,
    RenPy.detectPlatform fs dir = Normal (Some p)
    /\ RenPy.check (RenPy.PLATFORMS p) files = true
    /\ renpyRank p <= renpyRank q
    /\ forall r, renpyRank r < renpyRank p -> RenPy.check (RenPy.PLATFORMS r) files = false.
Proof.
  intros Hdir Hq. unfold RenPy.detectPlatform. rewrite Hdir.
  cbn [bind RenPy.PLATFORMS_entries RenPy.PLATFORMS_keys map find].
  destruct (RenPy.check (RenPy.PLATFORMS RenPy.pc) files) eqn:Hpc.
  { exists RenPy.pc. repeat split; [exact Hpc | simpl; lia |].
    intros r Hr. destruct r; simpl in Hr; lia. }
  destruct (RenPy.check (RenPy.PLATFORMS RenPy.mac) files) eqn:Hmac.
  { exists RenPy.mac. repeat split; [exact Hmac | destruct q; simpl; try lia; congruence |].
    intros r Hr. destruct r; simpl in Hr; try lia. exact Hpc. }
  destruct (RenPy.check (RenPy.PLATFORMS RenPy.linux) files) eqn:Hlinux.
  { exists RenPy.linux. repeat split; [exact Hlinux | destruct q; simpl; try lia; congruence |].
    intros r Hr. destruct r; simpl in Hr; try lia; assumption. }
  destruct (RenPy.check (RenPy.PLATFORMS RenPy.web) files) eqn:Hweb.
  { exists RenPy.web. repeat split; [exact Hweb | destruct q; simpl; try lia; congruence |].
    intros r Hr. destruct r; simpl in Hr; try lia; assumption. }
  destruct q; congruence.
Qed.

Lemma renpy_first_match_wins_witness :
  exists p,
    RenPy.detectPlatform mixedExport "build/out" = Normal (Some p)
    /\ RenPy.check (RenPy.PLATFORMS p) ["index.html"; "game.exe"; "game"] = true
    /\ renpyRank p <= renpyRank RenPy.web
    /\ forall r, renpyRank r < renpyRank p ->
                 RenPy.check (RenPy.PLATFORMS r) ["index.html"; "game.exe"; "game"] = false.
Proof.
  exact (renpy_first_match_wins mixedExport "build/out" ["index.html"; "game.exe"; "game"]
           RenPy.web eq_refl eq_refl).
Defined.

(** ** Concrete instances for the feedback and key scripts *)

Lemma analyzeSentiment_score_witness :
  Feedback.label (Feedback.analyzeSentiment "Great fun, thanks! One bug in the prefix.")
  = "😊 Positive".
Proof.
  apply (proj2 (proj1 (proj2 (proj2
           (analyzeSentiment_score "Great fun, thanks! One bug in the prefix."))))).
  vm_compute. lia.
Defined.

Lemma csvKeys_clean_witness :
  "CCCCC" <> EmptyString
  /\ Js.includes "," "CCCCC" = false
  /\ Js.includes newline "CCCCC" = false
  /\ JsText.trim "CCCCC" = "CCCCC".
Proof.
  apply (proj2 (csvKeys_clean sampleCsv) "CCCCC"). right. left. reflexivity.
Defined.
